(** * url-tracker-tool: domain store and network checker

    A shallow embedding of [domain_manager.py], [data_manager.py],
    [config.py] and the cached probe of [network_checker.py], with the
    properties of the store and of the result cache proved about it.

    Conventions of the embedding.
    - A Python [str] is a [string] holding its UTF-8 bytes.  [rstrip('/')],
      [startswith] with ASCII prefixes and the ASCII character classes of the
      host pattern act on bytes exactly as they act on code points; [len]
      counts code points ([py_len]).
    - Python integers are [Z]; list lengths and indices are [nat].
    - A parsed JSON document is a [json] value; numbers are integers.
    - Attributes of [DomainInfo] carry the types of the annotations of
      [DomainInfo.__init__].  A dictionary that would put a value of another
      type into an attribute is reported as [OutsideModel]: the embedding
      says nothing about it.
    - The file system, the system clock and the network are explicit in the
      [World]; every method is a function in the state monad [M] over it. *)

From Stdlib Require Import ZArith String Ascii List Bool Lia.
From stdpp Require Import base option list strings pretty gmap sorting.

Open Scope string_scope.

(** ** Python strings *)

Module Py.

(** [s.rstrip('/')] *)
Fixpoint rstrip_slash (s : string) : string :=
  match s with
  | EmptyString => EmptyString
  | String c r =>
      match rstrip_slash r with
      | EmptyString => if Ascii.eqb c "/" then EmptyString else String c EmptyString
      | r' => String c r'
      end
  end.

(** [s.startswith(p)] *)
Definition startswith (s p : string) : bool := String.prefix p s.

(** [not s] for a [str] *)
Definition falsy (s : string) : bool :=
  match s with EmptyString => true | _ => false end.

(** A byte of a UTF-8 text starts a code point unless it is 10xxxxxx. *)
Definition is_continuation (c : ascii) : bool :=
  let n := nat_of_ascii c in (128 <=? n)%nat && (n <? 192)%nat.

(** [len(s)]: the number of code points *)
Fixpoint py_len (s : string) : nat :=
  match s with
  | EmptyString => 0
  | String c r => if is_continuation c then py_len r else S (py_len r)
  end.

(** [c in s] for a one-character [c] *)
Fixpoint contains_char (c : ascii) (s : string) : bool :=
  match s with
  | EmptyString => false
  | String d r => Ascii.eqb c d || contains_char c r
  end.

(** [sub in s] *)
Fixpoint contains (sub s : string) : bool :=
  String.prefix sub s ||
  match s with
  | EmptyString => false
  | String _ r => contains sub r
  end.

(** [list(s)] when [s] is ASCII: the one-character strings of [s] *)
Fixpoint chars (s : string) : list string :=
  match s with
  | EmptyString => []
  | String c r => String c EmptyString :: chars r
  end.

End Py.

(** ** JSON values, as [json.load] returns them and [json.dump] takes them *)

#[warnings="-register-all"]
Inductive json : Type :=
  | JNull
  | JBool (b : bool)
  | JInt (n : Z)
  | JStr (s : string)
  | JArr (items : list json)
  | JObj (fields : list (string * json)).

Module Json.

(** [d.get(key)] on the fields of an object; a parsed object has no
    repeated key *)
Fixpoint get (key : string) (fields : list (string * json)) : option json :=
  match fields with
  | [] => None
  | (k, v) :: rest => if String.eqb k key then Some v else get key rest
  end.

(** [bool(v)] *)
Definition truthy (v : json) : bool :=
  match v with
  | JNull => false
  | JBool b => b
  | JInt n => negb (n =? 0)%Z
  | JStr s => negb (Py.falsy s)
  | JArr l => match l with [] => false | _ => true end
  | JObj l => match l with [] => false | _ => true end
  end.

Definition is_str (v : json) : bool :=
  match v with JStr _ => true | _ => false end.

(** [iter(v)]: the elements a [for] loop visits, [None] when [v] is not
    iterable.  A dictionary yields its keys, a string its characters. *)
Definition iter (v : json) : option (list json) :=
  match v with
  | JArr l => Some l
  | JObj l => Some (map (fun kv => JStr (fst kv)) l)
  | JStr s => Some (map JStr (Py.chars s))
  | JNull | JBool _ | JInt _ => None
  end.

(** [d[key] = v]: a key the dictionary has keeps its place, a new one goes
    to the end *)
Fixpoint set (key : string) (v : json) (fields : list (string * json))
    : list (string * json) :=
  match fields with
  | [] => [(key, v)]
  | (k, v') :: rest =>
      if String.eqb k key then (k, v) :: rest else (k, v') :: set key v rest
  end.

(** [d.update(other)] for a dictionary [other] *)
Definition update (d other : list (string * json)) : list (string * json) :=
  fold_left (λ acc kv, set kv.1 kv.2 acc) other d.

End Json.

(** ** Results of calls that may raise *)

Inductive result (A : Type) : Type :=
  | Returns (a : A)
  | Raises
  | OutsideModel.
Arguments Returns {A} a.
Arguments Raises {A}.
Arguments OutsideModel {A}.

(** ** config.py *)

Module Config.

Definition APP_NAME : string := "域名跟踪器".
Definition VERSION : string := "1.0.0".
Definition DOMAINS_FILE : string := "~/.domain_tracker/domains.json".
Definition MAX_DOMAINS : nat := 10.
Definition REQUEST_TIMEOUT : Z := 10.
Definition USER_AGENT : string :=
  "Mozilla/5.0 (Windows NT 10.0; Win64; x64) AppleWebKit/537.36 (KHTML, like Gecko) Chrome/91.0.4472.124 Safari/537.36".

(** The data attributes bound in the body of [class Config], in source
    order (paths are relative to the home directory). *)
Definition class_attributes : list (string * json) :=
  [ ("APP_NAME", JStr APP_NAME);
    ("VERSION", JStr VERSION);
    ("DATA_DIR", JStr "~/.domain_tracker");
    ("DOMAINS_FILE", JStr DOMAINS_FILE);
    ("CONFIG_FILE", JStr "~/.domain_tracker/config.json");
    ("LOG_FILE", JStr "~/.domain_tracker/app.log");
    ("MAX_DOMAINS", JInt (Z.of_nat MAX_DOMAINS));
    ("REQUEST_TIMEOUT", JInt REQUEST_TIMEOUT);
    ("CHECK_INTERVAL", JInt 300);
    ("RETRY_ATTEMPTS", JInt 3);
    ("MAX_RETRIES", JInt 3);
    ("RETRY_DELAY", JInt 1);
    ("USER_AGENT", JStr USER_AGENT);
    ("HEADERS", JObj
       [ ("User-Agent", JStr USER_AGENT);
         ("Accept", JStr "text/html,application/xhtml+xml,application/xml;q=0.9,image/webp,*/*;q=0.8");
         ("Accept-Language", JStr "zh-CN,zh;q=0.9,en;q=0.8");
         ("Accept-Encoding", JStr "gzip, deflate, br");
         ("Connection", JStr "keep-alive");
         ("Upgrade-Insecure-Requests", JStr "1") ]);
    ("WINDOW_WIDTH", JInt 700);
    ("WINDOW_HEIGHT", JInt 500);
    ("WINDOW_MIN_WIDTH", JInt 500);
    ("WINDOW_MIN_HEIGHT", JInt 400);
    ("TRAY_ICON_SIZE", JArr [JInt 64; JInt 64]);
    ("TRAY_ICON_COLOR", JStr "#2196F3");
    ("TRAY_ICON_BG_COLOR", JStr "white");
    ("LOG_LEVEL", JStr "INFO");
    ("LOG_FORMAT", JStr "%(asctime)s - %(name)s - %(levelname)s - %(message)s");
    ("LOG_MAX_SIZE", JInt (10 * 1024 * 1024));
    ("LOG_BACKUP_COUNT", JInt 5) ].

(** The class methods of [Config]. *)
Definition class_methods : list string :=
  [ "ensure_data_dir"; "get_domains_file"; "get_config_file"; "get_log_file" ].

(** [Config.<name>]: the value of a data attribute; [AttributeError] for
    a name the class does not bind.  A bound method is not a [json]
    value. *)
Definition getattr (name : string) : result json :=
  match Json.get name class_attributes with
  | Some v => Returns v
  | None => if bool_decide (name ∈ class_methods) then OutsideModel else Raises
  end.

Definition DEFAULT_DOMAINS : list string :=
  [ "https://www.k8w4w.com"; "https://www.z6r0j.com" ].

(** [DOMAIN_VALIDATION_RULES] *)
Definition min_length : nat := 4.
Definition max_length : nat := 253.
Definition allowed_schemes : list string := [ "http"; "https" ].
Definition required_tld : bool := true.

(** [ERROR_MESSAGES] *)
Definition timeout_error : string := "请求超时，请稍后重试".
Definition network_error : string := "网络连接失败，请检查网络设置".

End Config.

(** ** The world outside the process *)

(** What a file holds: text that decodes as UTF-8, or bytes that do not. *)
Inductive file_data : Type :=
  | Utf8 (text : string)
  | NotUtf8.

(** What [session.head(url, timeout=..., allow_redirects=True)] does: it
    returns a response, or raises; an exception is classified by the first
    [except] clause of [check_domain_simple] that catches it. *)
Inductive head_outcome : Type :=
  | Response (status_code : Z) (response_url : string) (has_history : bool)
  | Timeout
  | ConnectionError
  | RequestException (text : string)
  | OtherException (text : string).

Record World : Type := {
  files : gmap string file_data;      (* the files that exist *)
  readonly : gset string;             (* paths [open(path, 'w')] fails on *)
  iso_clock : nat → string;           (* successive [datetime.now().isoformat()] *)
  iso_ticks : nat;
  unix_clock : nat → Z;               (* successive [time.time()] *)
  unix_ticks : nat;
  network : nat → string → head_outcome;  (* the answer to the n-th HEAD *)
  requests : list string              (* the HEAD requests issued, oldest first *)
}.

Definition set_files (f : gmap string file_data) (w : World) : World :=
  {| files := f; readonly := readonly w;
     iso_clock := iso_clock w; iso_ticks := iso_ticks w;
     unix_clock := unix_clock w; unix_ticks := unix_ticks w;
     network := network w; requests := requests w |}.

Definition set_iso_ticks (n : nat) (w : World) : World :=
  {| files := files w; readonly := readonly w;
     iso_clock := iso_clock w; iso_ticks := n;
     unix_clock := unix_clock w; unix_ticks := unix_ticks w;
     network := network w; requests := requests w |}.

Definition set_unix_ticks (n : nat) (w : World) : World :=
  {| files := files w; readonly := readonly w;
     iso_clock := iso_clock w; iso_ticks := iso_ticks w;
     unix_clock := unix_clock w; unix_ticks := n;
     network := network w; requests := requests w |}.

Definition set_requests (r : list string) (w : World) : World :=
  {| files := files w; readonly := readonly w;
     iso_clock := iso_clock w; iso_ticks := iso_ticks w;
     unix_clock := unix_clock w; unix_ticks := unix_ticks w;
     network := network w; requests := r |}.

(** The state monad over the world. *)
Definition M (A : Type) : Type := World → A * World.

#[global] Instance M_ret : MRet M := λ A a w, (a, w).
#[global] Instance M_bind : MBind M :=
  λ A B f m w, let '(a, w') := m w in f a w'.

(** [datetime.now().isoformat()] *)
Definition now_isoformat : M string :=
  λ w, (iso_clock w (iso_ticks w), set_iso_ticks (S (iso_ticks w)) w).

(** [time.time()] *)
Definition time_time : M Z :=
  λ w, (unix_clock w (unix_ticks w), set_unix_ticks (S (unix_ticks w)) w).

(** [os.path.exists(path)] *)
Definition path_exists (path : string) : M bool :=
  λ w, (bool_decide (is_Some (files w !! path)), w).

(** [open(path, 'r', encoding='utf-8').read()]; [Raises] stands for
    [FileNotFoundError] and for [UnicodeDecodeError]. *)
Definition read_text (path : string) : M (result string) :=
  λ w, match files w !! path with
       | Some (Utf8 text) => (Returns text, w)
       | Some NotUtf8 => (Raises, w)
       | None => (Raises, w)
       end.

(** [with open(path, 'w', encoding='utf-8') as f: f.write(text)];
    [false] when [open] raises, and then no file is touched. *)
Definition write_text (path text : string) : M bool :=
  λ w, if bool_decide (path ∈ readonly w) then (false, w)
       else (true, set_files (<[path := Utf8 text]> (files w)) w).

(** [session.head(url, ...)]: one network probe *)
Definition session_head (u : string) : M head_outcome :=
  λ w, (network w (length (requests w)) u, set_requests (requests w ++ [u]) w).

(** ** Library functions the code calls *)

Class PyLib : Type := {
  (** [urllib.parse.urlparse(url)]: the scheme and the netloc of the
      result, [None] when it raises *)
  urlparse : string → option (string * string);
  (** [json.loads(text)], [None] when it raises [JSONDecodeError] *)
  json_loads : string → option json;
  (** [json.dump(value, f, ensure_ascii=False, indent=2)]: the text written *)
  json_dumps : json → string;
  (** [text.strip()] *)
  str_strip : string → string;
  (** [urlparse('https://')] is [ParseResult(scheme='https', netloc='', ...)] *)
  urlparse_no_host : urlparse "https://" = Some ("https", EmptyString)
}.

(** ** data_manager.py *)

Module DataManager.
Section DataManager.
Context `{PyLib}.

Definition domains_file : string := Config.DOMAINS_FILE.

(** U+FEFF in UTF-8 *)
Definition BOM : string :=
  String (ascii_of_nat 239) (String (ascii_of_nat 187)
    (String (ascii_of_nat 191) EmptyString)).

Definition remove_bom (content : string) : string :=
  if Py.startswith content BOM
  then String.substring 3 (String.length content - 3) content
  else content.

(** [DataManager.load_domains] *)
Definition load_domains : M json :=
  present ← path_exists domains_file;
  if present : bool then
    r ← read_text domains_file;
    match r with
    | Returns text =>
        let content := remove_bom (str_strip text) in
        match json_loads content with
        | Some data => mret data
        | None => mret (JArr [])          (* JSONDecodeError *)
        end
    | _ => mret (JArr [])                 (* UnicodeDecodeError *)
    end
  else mret (JArr []).

(** [DataManager.save_domains] *)
Definition save_domains (domains : list json) : M bool :=
  write_text domains_file (json_dumps (JArr domains)).

(** [domain.get('url') == url] *)
Definition has_url (u : string) (fields : list (string * json)) : bool :=
  match Json.get "url" fields with
  | Some (JStr s) => String.eqb s u
  | _ => false
  end.

(** The loop [for domain in domains: if domain.get('url') == url] over a
    list: the index of the first dictionary with the URL; an item met
    before it that is not a dictionary has no [get] and raises. *)
Fixpoint find_url (u : string) (items : list json) : result (option nat) :=
  match items with
  | [] => Returns None
  | JObj fields :: rest =>
      if has_url u fields then Returns (Some 0)
      else match find_url u rest with
           | Returns (Some i) => Returns (Some (S i))
           | r => r
           end
  | _ :: _ => Raises
  end.

(** [DataManager.add_domain].  Only a list can be scanned and then
    inserted into.  An empty dictionary and an empty string have nothing
    to visit: [new_domain] is built, with its two readings of the clock,
    and [domains.insert] then raises.  Any other value raises in the loop,
    before the clock is read. *)
Definition add_domain (u st : string) : M (result bool) :=
  domains ← load_domains;
  match domains with
  | JArr items =>
      match find_url u items with
      | Returns (Some _) => mret (Returns false)
      | Returns None =>
          last_check ← now_isoformat;
          added_time ← now_isoformat;
          let new_domain :=
            JObj [ ("url", JStr u); ("status", JStr st);
                   ("last_check", JStr last_check);
                   ("response_time", JInt 0);
                   ("added_time", JStr added_time) ] in
          success ← save_domains (new_domain :: items);
          mret (Returns success)
      | _ => mret Raises
      end
  | JObj [] | JStr EmptyString =>
      last_check ← now_isoformat;
      added_time ← now_isoformat;
      mret Raises
  | _ => mret Raises
  end.

(** [[d for d in domains if d.get('url') != url]] over a list *)
Fixpoint without_url (u : string) (items : list json) : result (list json) :=
  match items with
  | [] => Returns []
  | JObj fields :: rest =>
      match without_url u rest with
      | Returns kept =>
          Returns (if has_url u fields then kept else JObj fields :: kept)
      | r => r
      end
  | _ :: _ => Raises
  end.

(** [DataManager.remove_domain].  An empty dictionary and an empty string
    have length 0 and nothing to visit; other values that are not lists
    raise. *)
Definition remove_domain (u : string) : M (result bool) :=
  domains ← load_domains;
  match domains with
  | JArr items =>
      match without_url u items with
      | Returns kept =>
          if (length kept <? length items)%nat then
            success ← save_domains kept;
            mret (Returns success)
          else mret (Returns false)
      | _ => mret Raises
      end
  | JObj [] => mret (Returns false)
  | JStr EmptyString => mret (Returns false)
  | _ => mret Raises
  end.

(** [DataManager.update_domain_status]; [response_time] is taken as the
    JSON value that gets written. *)
Definition update_domain_status (u st : string) (response_time : json)
    : M (result bool) :=
  domains ← load_domains;
  match domains with
  | JArr items =>
      match find_url u items with
      | Returns (Some i) =>
          match items !! i with
          | Some (JObj fields) =>
              last_check ← now_isoformat;
              let domain :=
                JObj (Json.set "last_check" (JStr last_check)
                        (Json.set "response_time" response_time
                           (Json.set "status" (JStr st) fields))) in
              success ← save_domains (<[i := domain]> items);
              mret (Returns success)
          | _ => mret Raises
          end
      | Returns None => mret (Returns false)
      | _ => mret Raises
      end
  | JObj [] => mret (Returns false)
  | JStr EmptyString => mret (Returns false)
  | _ => mret Raises
  end.

Definition settings_file : string := "~/.domain_tracker/settings.json".

(** [default_settings] of [load_settings] *)
Definition default_settings : list (string * json) :=
  [ ("window_geometry", JStr "700x500+100+100");
    ("check_interval", JInt 300);
    ("auto_start", JBool false);
    ("minimize_to_tray", JBool false);
    ("theme", JStr "default");
    ("language", JStr "zh_CN");
    ("notifications_enabled", JBool true);
    ("sound_enabled", JBool false) ].

(** [DataManager.load_settings].  [default_settings.update(settings)]
    merges a dictionary; it raises, before any change, on a value that is
    not iterable and on a non-empty string, and the defaults are then
    returned.  A non-empty list is read as a sequence of pairs, which is
    not modelled. *)
Definition load_settings : M (result (list (string * json))) :=
  present ← path_exists settings_file;
  if present : bool then
    r ← read_text settings_file;
    match r with
    | Returns text =>
        match json_loads text with
        | Some (JObj fields) =>
            mret (Returns (Json.update default_settings fields))
        | Some (JArr (_ :: _)) => mret OutsideModel
        | Some _ => mret (Returns default_settings)
        | None => mret (Returns default_settings)
        end
    | _ => mret (Returns default_settings)
    end
  else mret (Returns default_settings).

(** [DataManager.save_settings] *)
Definition save_settings (settings : list (string * json)) : M bool :=
  write_text settings_file (json_dumps (JObj settings)).

(** [DataManager.get_setting] *)
Definition get_setting (key : string) (default_value : json)
    : M (result json) :=
  r ← load_settings;
  match r with
  | Returns settings =>
      mret (Returns (default default_value (Json.get key settings)))
  | Raises => mret Raises
  | OutsideModel => mret OutsideModel
  end.

(** [DataManager.set_setting] *)
Definition set_setting (key : string) (value : json) : M (result bool) :=
  r ← load_settings;
  match r with
  | Returns settings =>
      success ← save_settings (Json.set key value settings);
      mret (Returns success)
  | Raises => mret Raises
  | OutsideModel => mret OutsideModel
  end.

End DataManager.
End DataManager.

(** ** domain_manager.py: DomainInfo *)

Module DomainInfo.

Record t : Type := {
  url : string;
  added_time : string;
  last_check : option string;
  status : string;                  (* active, inactive, unknown, error *)
  check_count : Z;
  error_count : Z
}.

#[global] Instance t_eq_dec : EqDecision t.
Proof. solve_decision. Defined.

Definition has_scheme (s : string) : bool :=
  Py.startswith s "http://" || Py.startswith s "https://".

(** [DomainInfo._normalize_url] *)
Definition _normalize_url (u : string) : string :=
  if Py.falsy u then u
  else
    let u := Py.rstrip_slash u in
    if negb (has_scheme u) then "https://" +:+ u else u.

(** [DomainInfo.__init__]; [added_time or datetime.now().isoformat()]
    reads the clock only when [added_time] is [None] or empty. *)
Definition init (u : string) (added : option string) (last : option string)
    (st : string) (checks errors : Z) : M t :=
  a ← match added with
      | Some s => if Py.falsy s then now_isoformat else mret s
      | None => now_isoformat
      end;
  mret {| url := _normalize_url u; added_time := a; last_check := last;
          status := st; check_count := checks; error_count := errors |}.

(** [DomainInfo(url)] *)
Definition new (u : string) : M t := init u None None "unknown" 0 0.

(** [DomainInfo.to_dict] *)
Definition to_dict (self : t) : json :=
  JObj [ ("url", JStr (url self));
         ("added_time", JStr (added_time self));
         ("last_check", match last_check self with
                        | Some s => JStr s
                        | None => JNull
                        end);
         ("status", JStr (status self));
         ("check_count", JInt (check_count self));
         ("error_count", JInt (error_count self)) ].

(** The value [data.get(key, default)] hands to an [int] parameter *)
Definition int_arg (v : option json) (default : Z) : option Z :=
  match v with
  | None => Some default
  | Some (JInt n) => Some n
  | Some _ => None
  end.

(** ... to a [str] parameter *)
Definition str_arg (v : option json) (default : string) : option string :=
  match v with
  | None => Some default
  | Some (JStr s) => Some s
  | Some _ => None
  end.

(** ... to a [str]-or-[None] parameter with default [None] *)
Definition opt_str_arg (v : option json) : option (option string) :=
  match v with
  | None | Some JNull => Some None
  | Some (JStr s) => Some (Some s)
  | Some _ => None
  end.

(** [added_time or ...]: a falsy value of any type counts as missing *)
Definition added_time_arg (v : option json) : option (option string) :=
  match v with
  | None => Some None
  | Some (JStr s) => Some (Some s)
  | Some v => if Json.truthy v then None else Some None
  end.

(** [DomainInfo.from_dict].  [data.get] raises when [data] is not a
    dictionary, [_normalize_url] when [url] is truthy and has no
    [rstrip]. *)
Definition from_dict (data : json) : M (result t) :=
  match data with
  | JObj fields =>
      match default (JStr EmptyString) (Json.get "url" fields) with
      | JStr u =>
          match added_time_arg (Json.get "added_time" fields),
                opt_str_arg (Json.get "last_check" fields),
                str_arg (Json.get "status" fields) "unknown",
                int_arg (Json.get "check_count" fields) 0,
                int_arg (Json.get "error_count" fields) 0 with
          | Some a, Some l, Some s, Some c, Some e =>
              d ← init u a l s c e; mret (Returns d)
          | _, _, _, _, _ => mret OutsideModel
          end
      | v => if Json.truthy v then mret Raises else mret OutsideModel
      end
  | _ => mret Raises
  end.

(** [if error_msg:] *)
Definition msg_given (error_msg : option string) : bool :=
  match error_msg with
  | Some s => negb (Py.falsy s)
  | None => false
  end.

(** [DomainInfo.update_check_result] *)
Definition update_check_result (self : t) (is_active : bool)
    (error_msg : option string) : M t :=
  t ← now_isoformat;
  let checks := (check_count self + 1)%Z in
  if is_active then
    mret {| url := url self; added_time := added_time self;
            last_check := Some t; status := "active";
            check_count := checks; error_count := 0 |}
  else
    mret {| url := url self; added_time := added_time self;
            last_check := Some t;
            status := if msg_given error_msg then "error" else "inactive";
            check_count := checks;
            error_count := (error_count self + 1)%Z |}.

(** [existing_domain.added_time = ...] *)
Definition set_added_time (a : string) (self : t) : t :=
  {| url := url self; added_time := a; last_check := last_check self;
     status := status self; check_count := check_count self;
     error_count := error_count self |}.

End DomainInfo.

(** ** domain_manager.py: DomainManager *)

Module DomainManager.
Section DomainManager.
Context `{PyLib}.

Record t : Type := {
  domains : list DomainInfo.t;
  max_domains : nat
}.

Definition set_domains (ds : list DomainInfo.t) (self : t) : t :=
  {| domains := ds; max_domains := max_domains self |}.

(** [[domain.to_dict() for domain in self.domains]] *)
Definition dicts (self : t) : list json := map DomainInfo.to_dict (domains self).

(** [DomainManager.save_domains] *)
Definition save_domains (self : t) : M bool :=
  DataManager.save_domains (dicts self).

(** *** The host pattern of [validate_domain]

    [^L(\.L)*$] with [L = [a-zA-Z0-9]([a-zA-Z0-9\-]{0,61}[a-zA-Z0-9])?].
    No label holds a dot, so the pattern matches when every dot-separated
    piece is a label; [$] also matches before one final newline. *)

Definition is_alnum (c : ascii) : bool :=
  let n := nat_of_ascii c in
  (((48 <=? n) && (n <=? 57)) || ((65 <=? n) && (n <=? 90))
   || ((97 <=? n) && (n <=? 122)))%nat.

Definition is_label_char (c : ascii) : bool := is_alnum c || Ascii.eqb c "-".

Definition label_matches (l : list ascii) : bool :=
  match l with
  | [] => false
  | c :: rest =>
      is_alnum c &&
      match rest with
      | [] => true
      | _ => (length rest <=? 62)%nat && forallb is_label_char (removelast rest)
             && is_alnum (List.last rest c)
      end
  end.

(** [s.split('.')] *)
Fixpoint split_dot (s : list ascii) : list (list ascii) :=
  match s with
  | [] => [[]]
  | c :: r =>
      if Ascii.eqb c "." then [] :: split_dot r
      else match split_dot r with
           | [] => [[c]]
           | l :: ls => (c :: l) :: ls
           end
  end.

Definition all_labels (s : list ascii) : bool :=
  forallb label_matches (split_dot s).

Definition newline : ascii := ascii_of_nat 10.

(** [re.match(domain_pattern, netloc)] *)
Definition domain_pattern_match (netloc : string) : bool :=
  let s := list_ascii_of_string netloc in
  all_labels s ||
  match s with
  | [] => false
  | c :: r => Ascii.eqb (List.last s c) newline && all_labels (removelast s)
  end.

(** [DomainManager.validate_domain] *)
Definition validate_domain (self : t) (u : string) : M (bool * string) :=
  if Py.falsy u then mret (false, "域名不能为空")
  else
    d ← DomainInfo.new u;
    let normalized_url := DomainInfo.url d in
    if (Py.py_len normalized_url <? Config.min_length)%nat then
      mret (false, "域名太短")
    else if (Config.max_length <? Py.py_len normalized_url)%nat then
      mret (false, "域名太长")
    else
      match urlparse normalized_url with
      | None => mret (false, "域名格式无效")
      | Some (scheme, netloc) =>
          if negb (bool_decide (scheme ∈ Config.allowed_schemes)) then
            mret (false, "不支持的协议: " +:+ scheme)
          else if Py.falsy netloc then
            mret (false, "缺少域名部分")
          else if negb (domain_pattern_match netloc) then
            mret (false, "域名格式不正确")
          else if Config.required_tld && negb (Py.contains_char "." netloc) then
            mret (false, "域名必须包含顶级域名")
          else mret (true, "域名格式正确")
      end.

(** [DomainManager.find_domain]: the first entity with the normalized
    URL, with its index in [self.domains] *)
Definition find_domain (self : t) (u : string) : M (option (nat * DomainInfo.t)) :=
  d ← DomainInfo.new u;
  let normalized_url := DomainInfo.url d in
  mret (list_find (λ domain, DomainInfo.url domain = normalized_url) (domains self)).

(** The tail of [add_domain]: keep at most [max_domains] entities *)
Definition enforce_limit (self : t) : t :=
  if (max_domains self <? length (domains self))%nat
  then set_domains (take (max_domains self) (domains self)) self
  else self.

(** [DomainManager.add_domain].  [self.domains.remove(existing_domain)]
    removes the object [find_domain] returned: [DomainInfo] defines no
    [__eq__], and that object sits at the index found. *)
Definition add_domain (self : t) (u : string) : M ((bool * string) * t) :=
  '(is_valid, message) ← validate_domain self u;
  if negb is_valid then mret ((false, message), self)
  else
    new_domain ← DomainInfo.new u;
    existing ← find_domain self (DomainInfo.url new_domain);
    self ← match existing with
           | Some (i, existing_domain) =>
               a ← now_isoformat;
               mret (set_domains
                       (DomainInfo.set_added_time a existing_domain
                          :: delete i (domains self)) self)
           | None => mret (set_domains (new_domain :: domains self) self)
           end;
    let self := enforce_limit self in
    success ← DataManager.save_domains (dicts self);
    if success : bool then mret ((true, "域名添加成功"), self)
    else mret ((false, "保存域名失败"), self).

(** [DomainManager.remove_domain] *)
Definition remove_domain (self : t) (u : string) : M (bool * t) :=
  found ← find_domain self u;
  match found with
  | Some (i, domain) =>
      let self := set_domains (delete i (domains self)) self in
      success ← DataManager.save_domains (dicts self);
      if success : bool then mret (true, self)
      else mret (false, set_domains (domains self ++ [domain]) self)
  | None => mret (false, self)
  end.

(** [DomainManager.get_current_domain] *)
Definition get_current_domain (self : t) : option DomainInfo.t :=
  head (domains self).

(** [DomainManager.update_domain_status]; the entity is updated in place *)
Definition update_domain_status (self : t) (u : string) (is_active : bool)
    (error_msg : option string) : M (bool * t) :=
  found ← find_domain self u;
  match found with
  | Some (i, domain) =>
      domain ← DomainInfo.update_check_result domain is_active error_msg;
      let self := set_domains (<[i := domain]> (domains self)) self in
      success ← DataManager.save_domains (dicts self);
      mret (success, self)
  | None => mret (false, self)
  end.

(** [DomainManager._initialize_default_domains] *)
Fixpoint append_defaults (urls : list string) (self : t) : M t :=
  match urls with
  | [] => mret self
  | u :: rest =>
      domain_info ← DomainInfo.new u;
      append_defaults rest (set_domains (domains self ++ [domain_info]) self)
  end.

Definition _initialize_default_domains (self : t) : M t :=
  self ← append_defaults Config.DEFAULT_DOMAINS self;
  _ ← save_domains self;
  mret self.

(** [[DomainInfo.from_dict(item) for item in data]]: the comprehension
    stops at the first item that raises *)
Fixpoint from_dicts (items : list json) : M (result (list DomainInfo.t)) :=
  match items with
  | [] => mret (Returns [])
  | item :: rest =>
      r ← DomainInfo.from_dict item;
      match r with
      | Returns d =>
          rs ← from_dicts rest;
          match rs with
          | Returns ds => mret (Returns (d :: ds))
          | Raises => mret Raises
          | OutsideModel => mret OutsideModel
          end
      | Raises => mret Raises
      | OutsideModel => mret OutsideModel
      end
  end.

(** [DomainManager.load_domains].  Any exception of the [try] block ends
    in the defaults being appended to [self.domains] as it then is. *)
Definition load_domains (self : t) : M (result (bool * t)) :=
  data ← DataManager.load_domains;
  if Json.truthy data then
    match Json.iter data with
    | Some items =>
        r ← from_dicts items;
        match r with
        | Returns ds => mret (Returns (true, set_domains ds self))
        | Raises =>
            self ← _initialize_default_domains self;
            mret (Returns (false, self))
        | OutsideModel => mret OutsideModel
        end
    | None =>
        self ← _initialize_default_domains self;
        mret (Returns (false, self))
    end
  else
    self ← _initialize_default_domains self;
    mret (Returns (true, self)).

(** [DomainManager.__init__] *)
Definition init : M (result (bool * t)) :=
  load_domains {| domains := []; max_domains := Config.MAX_DOMAINS |}.

(** [DomainManager.export_domains].  The dictionary display evaluates
    [datetime.now()] first and [Config.APP_VERSION] next, before the file
    is opened; an exception makes the method return [False]. *)
Definition export_domains (self : t) (file_path : string) : M (result bool) :=
  export_time ← now_isoformat;
  match Config.getattr "APP_VERSION" with
  | Returns app_version =>
      let data := JObj [ ("export_time", JStr export_time);
                         ("app_version", app_version);
                         ("domains", JArr (dicts self)) ] in
      success ← write_text file_path (json_dumps data);
      mret (Returns success)
  | Raises => mret (Returns false)
  | OutsideModel => mret OutsideModel
  end.

(** The message [import_domains] returns with its flag *)
Inductive import_message : Type :=
  | InvalidFormat               (* the file has no 'domains' *)
  | Imported (count : nat)
  | ImportFailed.               (* an exception was caught *)

(** ['domains' in data]; [None] when [data] supports no [in] *)
Definition has_domains (data : json) : option bool :=
  match data with
  | JObj fields => Some (bool_decide (is_Some (Json.get "domains" fields)))
  | JArr items => Some (existsb (λ v, match v with
                                      | JStr s => String.eqb s "domains"
                                      | _ => false
                                      end) items)
  | JStr s => Some (Py.contains "domains" s)
  | JNull | JBool _ | JInt _ => None
  end.

(** [data['domains']]; [None] when it raises *)
Definition get_domains (data : json) : option json :=
  match data with
  | JObj fields => Json.get "domains" fields
  | _ => None
  end.

(** The loop of [import_domains]: a record that raises is skipped, a URL
    already in the store is skipped, anything else is appended. *)
Fixpoint import_loop (items : list json) (self : t) (imported_count : nat)
    : M (result (t * nat)) :=
  match items with
  | [] => mret (Returns (self, imported_count))
  | domain_data :: rest =>
      r ← DomainInfo.from_dict domain_data;
      match r with
      | Returns domain =>
          found ← find_domain self (DomainInfo.url domain);
          match found with
          | Some _ => import_loop rest self imported_count
          | None =>
              import_loop rest (set_domains (domains self ++ [domain]) self)
                (S imported_count)
          end
      | Raises => import_loop rest self imported_count
      | OutsideModel => mret OutsideModel
      end
  end.

Definition import_failed (self : t) : M (result ((bool * import_message) * t)) :=
  mret (Returns ((false, ImportFailed), self)).

(** [DomainManager.import_domains] *)
Definition import_domains (self : t) (file_path : string)
    : M (result ((bool * import_message) * t)) :=
  r ← read_text file_path;
  match r with
  | Returns text =>
      match json_loads text with
      | Some data =>
          match has_domains data with
          | Some true =>
              match get_domains data ≫= Json.iter with
              | Some items =>
                  r ← import_loop items self 0;
                  match r with
                  | Returns (self, imported_count) =>
                      let self := enforce_limit self in
                      _ ← save_domains self;
                      mret (Returns ((true, Imported imported_count), self))
                  | Raises => import_failed self
                  | OutsideModel => mret OutsideModel
                  end
              | None => import_failed self
              end
          | Some false => mret (Returns ((false, InvalidFormat), self))
          | None => import_failed self
          end
      | None => import_failed self
      end
  | _ => import_failed self
  end.

(** [DomainManager.get_active_domains] *)
Definition get_active_domains (self : t) : list DomainInfo.t :=
  filter (λ domain, DomainInfo.status domain = "active") (domains self).

(** [DomainManager.get_domains_by_status] *)
Definition get_domains_by_status (self : t) (st : string) : list DomainInfo.t :=
  filter (λ domain, DomainInfo.status domain = st) (domains self).

(** [DomainManager.cleanup_invalid_domains].  Every object collected in
    [domains_to_remove] is taken out of [self.domains] by
    [self.domains.remove(domain)], which finds it by identity; what stays
    is what was not collected.  The result of [save_domains] is dropped. *)
Definition cleanup_invalid_domains (self : t) (max_error_count : Z)
    : M (list string * t) :=
  let domains_to_remove :=
    filter (λ domain, (max_error_count ≤ DomainInfo.error_count domain)%Z)
      (domains self) in
  let removed_domains := map DomainInfo.url domains_to_remove in
  let self :=
    set_domains
      (filter (λ domain, ¬ (max_error_count ≤ DomainInfo.error_count domain)%Z)
         (domains self)) self in
  match removed_domains with
  | [] => mret (removed_domains, self)
  | _ => _ ← save_domains self; mret (removed_domains, self)
  end.

(** The dictionary [get_domain_statistics] returns *)
Record statistics : Type := {
  total : nat;
  active : nat;
  inactive : nat;
  error : nat;
  unknown : nat
}.

(** [DomainManager.get_domain_statistics] *)
Definition get_domain_statistics (self : t) : statistics :=
  {| total := length (domains self);
     active := length (get_domains_by_status self "active");
     inactive := length (get_domains_by_status self "inactive");
     error := length (get_domains_by_status self "error");
     unknown := length (get_domains_by_status self "unknown") |}.

Section Sort.
(** [datetime.fromisoformat(text).timestamp()], as an exact number of
    seconds; [None] when [fromisoformat] raises [ValueError] or
    [TypeError] *)
Variable timestamp : string → option Z.

(** The first component of [sort_key] *)
Definition priority (domain : DomainInfo.t) : nat :=
  if String.eqb (DomainInfo.status domain) "active" then 0
  else if String.eqb (DomainInfo.status domain) "unknown" then 1
  else if String.eqb (DomainInfo.status domain) "inactive" then 2
  else 3.

(** The second component of [sort_key] *)
Definition time_priority (domain : DomainInfo.t) : Z :=
  match timestamp (DomainInfo.added_time domain) with
  | Some t => (- t)%Z
  | None => 0%Z
  end.

Definition sort_key (domain : DomainInfo.t) : nat * Z :=
  (priority domain, time_priority domain).

(** [k1 <= k2] on tuples *)
Definition key_le (k1 k2 : nat * Z) : bool :=
  (k1.1 <? k2.1)%nat || ((k1.1 =? k2.1)%nat && (k1.2 <=? k2.2)%Z).

(** [list.sort(key=sort_key)] is stable: an entity goes in front of the
    sorted entities that came after it unless one of them has a strictly
    smaller key. *)
Fixpoint insert_by_key (x : DomainInfo.t) (sorted : list DomainInfo.t)
    : list DomainInfo.t :=
  match sorted with
  | [] => [x]
  | y :: rest =>
      if key_le (sort_key x) (sort_key y) then x :: y :: rest
      else y :: insert_by_key x rest
  end.

Definition sort_by_key (l : list DomainInfo.t) : list DomainInfo.t :=
  foldr insert_by_key [] l.

(** [DomainManager.sort_domains_by_priority] *)
Definition sort_domains_by_priority (self : t) : M t :=
  let self := set_domains (sort_by_key (domains self)) self in
  _ ← save_domains self;
  mret self.

End Sort.

End DomainManager.
End DomainManager.

(** ** network_checker.py: the cached probe *)

Module NetworkChecker.

Record t : Type := {
  timeout : Z;
  check_cache : gmap string (bool * Z);
  cache_duration : Z
}.

(** [NetworkChecker.__init__], for the attributes modelled *)
Definition init : t :=
  {| timeout := Config.REQUEST_TIMEOUT; check_cache := ∅; cache_duration := 300 |}.

Definition set_check_cache (c : gmap string (bool * Z)) (self : t) : t :=
  {| timeout := timeout self; check_cache := c;
     cache_duration := cache_duration self |}.

(** [NetworkChecker._is_cache_valid] *)
Definition _is_cache_valid (self : t) (u : string) : M bool :=
  match check_cache self !! u with
  | None => mret false
  | Some (_, timestamp) =>
      t ← time_time;
      mret (bool_decide (t - timestamp < cache_duration self)%Z)
  end.

(** [NetworkChecker._get_cached_result] *)
Definition _get_cached_result (self : t) (u : string) : M (option bool) :=
  valid ← _is_cache_valid self u;
  if valid : bool then mret (fst <$> check_cache self !! u) else mret None.

(** [NetworkChecker._cache_result] *)
Definition _cache_result (self : t) (u : string) (r : bool) : M t :=
  t ← time_time;
  mret (set_check_cache (<[u := (r, t)]> (check_cache self)) self).

(** [NetworkChecker.check_domain_simple] *)
Definition check_domain_simple (self : t) (u : string)
    : M ((bool * string * option string) * t) :=
  cached_result ← _get_cached_result self u;
  match cached_result with
  | Some b => mret ((b, "缓存结果", None), self)
  | None =>
      response ← session_head u;
      match response with
      | Response status_code response_url has_history =>
          let is_success := bool_decide (status_code < 400)%Z in
          let final_url := if has_history then response_url else u in
          self ← _cache_result self u is_success;
          mret ((is_success, "HTTP " +:+ pretty status_code, Some final_url), self)
      | Timeout =>
          self ← _cache_result self u false;
          mret ((false, Config.timeout_error, None), self)
      | ConnectionError =>
          self ← _cache_result self u false;
          mret ((false, Config.network_error, None), self)
      | RequestException text =>
          self ← _cache_result self u false;
          mret ((false, "请求异常: " +:+ text, None), self)
      | OtherException text =>
          self ← _cache_result self u false;
          mret ((false, "未知错误: " +:+ text, None), self)
      end
  end.

(** [NetworkChecker.cleanup_cache]: the entries older than
    [cache_duration] at the one reading of the clock are deleted. *)
Definition cleanup_cache (self : t) : M t :=
  current_time ← time_time;
  mret (set_check_cache
          (filter (λ entry, ¬ (cache_duration self < current_time - entry.2.2)%Z)
             (check_cache self)) self).

(** What [session.get(url, timeout=..., allow_redirects=True)] does: a
    response with its status code, its URL, the URLs of
    [response.history] and two of its headers, or an exception, classified
    by the [except] clause that catches it *)
Inductive get_outcome : Type :=
  | GetResponse (code : Z) (response_url : string) (history : list string)
      (content_type_header server_header : string)
  | GetTimeout
  | GetConnectionError
  | GetRequestException (text : string)
  | GetOtherException (text : string).

(** The dictionary [check_domain_detailed] returns *)
Record detailed_result : Type := {
  url : string;
  is_accessible : bool;
  status_code : option Z;
  final_url : option string;
  redirect_chain : list string;
  response_time : option Z;
  error_message : option string;
  content_type : option string;
  server : option string
}.

(** The dictionary as it is when an exception was caught *)
Definition failed_result (u message : string) : detailed_result :=
  {| url := u; is_accessible := false; status_code := None; final_url := None;
     redirect_chain := []; response_time := None;
     error_message := Some message; content_type := None; server := None |}.

(** [NetworkChecker.check_domain_detailed]; the outcome of the GET request
    is an input.  The clock is read before the request, and after it when
    there is a response. *)
Definition check_domain_detailed (self : t) (u : string) (outcome : get_outcome)
    : M detailed_result :=
  start_time ← time_time;
  match outcome with
  | GetResponse code response_url history content_type_header server_header =>
      end_time ← time_time;
      mret {| url := u;
              is_accessible := bool_decide (code < 400)%Z;
              status_code := Some code;
              final_url := Some response_url;
              redirect_chain :=
                match history with
                | [] => []
                | _ => (history ++ [response_url])%list
                end;
              response_time := Some (end_time - start_time)%Z;
              error_message := None;
              content_type := Some content_type_header;
              server := Some server_header |}
  | GetTimeout => mret (failed_result u Config.timeout_error)
  | GetConnectionError => mret (failed_result u Config.network_error)
  | GetRequestException text => mret (failed_result u ("请求异常: " +:+ text))
  | GetOtherException text => mret (failed_result u ("未知错误: " +:+ text))
  end.

Section Redirects.
Context `{PyLib}.

(** [f"{parsed.scheme}://{parsed.netloc}"], [None] when [urlparse] raises *)
Definition origin (redirect_url : string) : option string :=
  match urlparse redirect_url with
  | Some (scheme, netloc) => Some (scheme +:+ "://" +:+ netloc)
  | None => None
  end.

(** The loop of [find_redirected_domains] over the redirect chain, from
    [seen_domains] and [redirected_domains] as they are; the flag tells
    that [urlparse] raised, which ends the method with the list as it then
    is. *)
Fixpoint scan_chain (u : string) (chain : list string) (seen_domains : gset string)
    (redirected_domains : list string) : bool * list string :=
  match chain with
  | [] => (false, redirected_domains)
  | redirect_url :: rest =>
      match origin redirect_url with
      | None => (true, redirected_domains)
      | Some domain =>
          if bool_decide ((domain ∉ seen_domains) ∧ domain ≠ u)
          then scan_chain u rest ({[domain]} ∪ seen_domains)
                 (redirected_domains ++ [domain])%list
          else scan_chain u rest seen_domains redirected_domains
      end
  end.

(** [NetworkChecker.find_redirected_domains] *)
Definition find_redirected_domains (self : t) (u : string)
    (outcome : get_outcome) : M (list string) :=
  detailed_result ← check_domain_detailed self u outcome;
  let '(raised, redirected_domains) :=
    scan_chain u (redirect_chain detailed_result) ∅ [] in
  if raised : bool then mret redirected_domains
  else
    match final_url detailed_result with
    | Some final =>
        if negb (Py.falsy final) && negb (String.eqb final u) then
          match origin final with
          | Some final_domain =>
              if bool_decide (final_domain ∈ redirected_domains)
              then mret redirected_domains
              else mret (redirected_domains ++ [final_domain])%list
          | None => mret redirected_domains
          end
        else mret redirected_domains
    | None => mret redirected_domains
    end.

End Redirects.

End NetworkChecker.

(** ** A reference instance of the library functions

    Used to run the methods on concrete inputs.  It covers ASCII text: the
    decoder takes JSON without fractional numbers and without [\u] escapes,
    [urlparse] takes URLs that start with [http://] or [https://] and hold
    no brackets, tabs or newlines, [strip] removes ASCII white space. *)

Module RefLib.

Open Scope char_scope.

Definition quote : ascii := ascii_of_nat 34.
Definition backslash : ascii := ascii_of_nat 92.

Definition is_ws (c : ascii) : bool :=
  let n := nat_of_ascii c in
  ((n =? 32) || (n =? 9) || (n =? 10) || (n =? 13))%nat.

Definition is_digit (c : ascii) : bool :=
  let n := nat_of_ascii c in ((48 <=? n) && (n <=? 57))%nat.

Fixpoint skip_ws (s : list ascii) : list ascii :=
  match s with
  | c :: r => if is_ws c then skip_ws r else s
  | [] => []
  end.

(** The characters of a string literal after its opening quote *)
Fixpoint parse_string (s : list ascii) : option (list ascii * list ascii) :=
  match s with
  | [] => None
  | c :: r =>
      if Ascii.eqb c quote then Some ([], r)
      else if Ascii.eqb c backslash then
        match r with
        | e :: r' =>
            let unescaped :=
              if Ascii.eqb e quote then Some quote
              else if Ascii.eqb e backslash then Some backslash
              else if Ascii.eqb e "/" then Some "/"
              else if Ascii.eqb e "n" then Some (ascii_of_nat 10)
              else if Ascii.eqb e "r" then Some (ascii_of_nat 13)
              else if Ascii.eqb e "t" then Some (ascii_of_nat 9)
              else if Ascii.eqb e "b" then Some (ascii_of_nat 8)
              else if Ascii.eqb e "f" then Some (ascii_of_nat 12)
              else None in
            match unescaped, parse_string r' with
            | Some d, Some (str, rest) => Some (d :: str, rest)
            | _, _ => None
            end
        | [] => None
        end
      else if (nat_of_ascii c <? 32)%nat then None
      else match parse_string r with
           | Some (str, rest) => Some (c :: str, rest)
           | None => None
           end
  end.

Fixpoint parse_digits (acc : Z) (s : list ascii) : Z * list ascii :=
  match s with
  | c :: r =>
      if is_digit c
      then parse_digits (10 * acc + Z.of_nat (nat_of_ascii c - 48))%Z r
      else (acc, s)
  | [] => (acc, [])
  end.

(** An integer literal: no leading zero, no fraction, no exponent *)
Definition parse_int (s : list ascii) : option (Z * list ascii) :=
  match s with
  | c :: r =>
      if is_digit c then
        let '(n, rest) := parse_digits 0 s in
        let plain := match rest with
                     | d :: _ => negb (Ascii.eqb d "." || Ascii.eqb d "e" || Ascii.eqb d "E")
                     | [] => true
                     end in
        let no_leading_zero := match r with
                               | d :: _ => negb (Ascii.eqb c "0" && is_digit d)
                               | [] => true
                               end in
        if plain && no_leading_zero then Some (n, rest) else None
      else None
  | [] => None
  end.

(** [d[k] = v] on the fields of an object: a repeated key keeps its
    place and takes the later value *)
Fixpoint set_field (k : string) (v : json) (fields : list (string * json))
    : list (string * json) :=
  match fields with
  | [] => [(k, v)]
  | (k', v') :: rest =>
      if String.eqb k' k then (k, v) :: rest else (k', v') :: set_field k v rest
  end.

Fixpoint parse_value (fuel : nat) (s : list ascii) {struct fuel}
    : option (json * list ascii) :=
  match fuel with
  | O => None
  | S fuel =>
      match skip_ws s with
      | "n" :: "u" :: "l" :: "l" :: r => Some (JNull, r)
      | "t" :: "r" :: "u" :: "e" :: r => Some (JBool true, r)
      | "f" :: "a" :: "l" :: "s" :: "e" :: r => Some (JBool false, r)
      | "[" :: r =>
          match skip_ws r with
          | "]" :: r' => Some (JArr [], r')
          | _ => match parse_elems fuel r with
                 | Some (items, r') => Some (JArr items, r')
                 | None => None
                 end
          end
      | "{" :: r =>
          match skip_ws r with
          | "}" :: r' => Some (JObj [], r')
          | _ => match parse_members fuel [] r with
                 | Some (fields, r') => Some (JObj fields, r')
                 | None => None
                 end
          end
      | "-" :: r =>
          match parse_int r with
          | Some (n, r') => Some (JInt (- n), r')
          | None => None
          end
      | c :: r =>
          if Ascii.eqb c quote then
            match parse_string r with
            | Some (str, r') => Some (JStr (string_of_list_ascii str), r')
            | None => None
            end
          else match parse_int (c :: r) with
               | Some (n, r') => Some (JInt n, r')
               | None => None
               end
      | [] => None
      end
  end
with parse_elems (fuel : nat) (s : list ascii) {struct fuel}
    : option (list json * list ascii) :=
  match fuel with
  | O => None
  | S fuel =>
      match parse_value fuel s with
      | Some (v, r) =>
          match skip_ws r with
          | "," :: r' =>
              match parse_elems fuel r' with
              | Some (vs, r'') => Some (v :: vs, r'')
              | None => None
              end
          | "]" :: r' => Some ([v], r')
          | _ => None
          end
      | None => None
      end
  end
with parse_members (fuel : nat) (acc : list (string * json)) (s : list ascii)
    {struct fuel} : option (list (string * json) * list ascii) :=
  match fuel with
  | O => None
  | S fuel =>
      match skip_ws s with
      | c :: r =>
          if Ascii.eqb c quote then
            match parse_string r with
            | Some (k, r1) =>
                match skip_ws r1 with
                | ":" :: r2 =>
                    match parse_value fuel r2 with
                    | Some (v, r3) =>
                        let acc := set_field (string_of_list_ascii k) v acc in
                        match skip_ws r3 with
                        | "," :: r4 => parse_members fuel acc r4
                        | "}" :: r4 => Some (acc, r4)
                        | _ => None
                        end
                    | None => None
                    end
                | _ => None
                end
            | None => None
            end
          else None
      | [] => None
      end
  end.

Definition loads (text : string) : option json :=
  let s := list_ascii_of_string text in
  match parse_value (2 * length s + 2) s with
  | Some (v, r) => match skip_ws r with [] => Some v | _ => None end
  | None => None
  end.

(** A character of a string literal, as [json.dump] with
    [ensure_ascii=False] writes it *)
Definition hex_digit (n : nat) : ascii :=
  if (n <? 10)%nat then ascii_of_nat (48 + n) else ascii_of_nat (87 + n).

Definition escape_char (c : ascii) : list ascii :=
  let n := nat_of_ascii c in
  if Ascii.eqb c quote then [backslash; quote]
  else if Ascii.eqb c backslash then [backslash; backslash]
  else if (n =? 10)%nat then [backslash; "n"]
  else if (n =? 13)%nat then [backslash; "r"]
  else if (n =? 9)%nat then [backslash; "t"]
  else if (n =? 8)%nat then [backslash; "b"]
  else if (n =? 12)%nat then [backslash; "f"]
  else if (n <? 32)%nat then
    [backslash; "u"; "0"; "0"; hex_digit (n / 16); hex_digit (n mod 16)]
  else [c].

Definition dump_string (s : string) : string :=
  string_of_list_ascii
    (quote :: concat (map escape_char (list_ascii_of_string s)) ++ [quote]).

Close Scope char_scope.

Definition nl : string := String (ascii_of_nat 10) EmptyString.

Fixpoint indent (level : nat) : string :=
  match level with
  | O => EmptyString
  | S n => "  " +:+ indent n
  end.

(** [json.dumps(v, ensure_ascii=False, indent=2)] *)
Fixpoint dump (level : nat) (v : json) : string :=
  match v with
  | JNull => "null"
  | JBool true => "true"
  | JBool false => "false"
  | JInt n => pretty n
  | JStr s => dump_string s
  | JArr [] => "[]"
  | JArr items =>
      "[" +:+ nl +:+ indent (S level) +:+
      (fix go (l : list json) : string :=
         match l with
         | [] => EmptyString
         | x :: r =>
             dump (S level) x +:+
             match r with
             | [] => EmptyString
             | _ => "," +:+ nl +:+ indent (S level) +:+ go r
             end
         end) items
      +:+ nl +:+ indent level +:+ "]"
  | JObj [] => "{}"
  | JObj fields =>
      "{" +:+ nl +:+ indent (S level) +:+
      (fix go (l : list (string * json)) : string :=
         match l with
         | [] => EmptyString
         | (k, x) :: r =>
             dump_string k +:+ ": " +:+ dump (S level) x +:+
             match r with
             | [] => EmptyString
             | _ => "," +:+ nl +:+ indent (S level) +:+ go r
             end
         end) fields
      +:+ nl +:+ indent level +:+ "}"
  end.

Definition dumps (v : json) : string := dump 0 v.

(** The netloc of a URL after [scheme://]: up to the first of [/?#] *)
Fixpoint netloc_of (s : string) : string :=
  match s with
  | EmptyString => EmptyString
  | String c r =>
      if Ascii.eqb c "/" || Ascii.eqb c "?" || Ascii.eqb c "#"
      then EmptyString
      else String c (netloc_of r)
  end.

Definition split_url (u : string) : option (string * string) :=
  if Py.startswith u "https://" then
    Some ("https", netloc_of (String.substring 8 (String.length u - 8) u))
  else if Py.startswith u "http://" then
    Some ("http", netloc_of (String.substring 7 (String.length u - 7) u))
  else Some (EmptyString, EmptyString).

Definition is_space (c : ascii) : bool :=
  let n := nat_of_ascii c in
  (((9 <=? n) && (n <=? 13)) || ((28 <=? n) && (n <=? 32)))%nat.

Fixpoint lstrip (s : list ascii) : list ascii :=
  match s with
  | c :: r => if is_space c then lstrip r else s
  | [] => []
  end.

Definition strip (s : string) : string :=
  string_of_list_ascii
    (rev (lstrip (rev (lstrip (list_ascii_of_string s))))).

Definition lib : PyLib :=
  {| urlparse := split_url; json_loads := loads; json_dumps := dumps;
     str_strip := strip; urlparse_no_host := eq_refl |}.

End RefLib.

(** A world to run examples in: no file, every path writable, clocks that
    count, a network that answers 200 to every request. *)
Definition example_world : World :=
  {| files := ∅; readonly := ∅;
     iso_clock := λ n, "2024-01-01T00:00:0" +:+ pretty n; iso_ticks := 0;
     unix_clock := λ n, (1700000000 + Z.of_nat n)%Z; unix_ticks := 0;
     network := λ _ u, Response 200 u false; requests := [] |}.

(** ** Notions used to state the properties *)

(** A run of [k] slashes *)
Fixpoint slashes (k : nat) : string :=
  match k with
  | O => EmptyString
  | S k => String "/" (slashes k)
  end.

(** [s.endswith('/')] *)
Fixpoint ends_with_slash (s : string) : bool :=
  match s with
  | EmptyString => false
  | String c EmptyString => Ascii.eqb c "/"
  | String _ r => ends_with_slash r
  end.

(** The invariant of the counters of an entity *)
Definition counters_ok (d : DomainInfo.t) : Prop :=
  (0 ≤ DomainInfo.error_count d ≤ DomainInfo.check_count d)%Z.

(** A sequence of check outcomes applied to one entity *)
Fixpoint apply_checks (outcomes : list (bool * option string))
    (d : DomainInfo.t) : M DomainInfo.t :=
  match outcomes with
  | [] => mret d
  | (is_active, error_msg) :: rest =>
      d ← DomainInfo.update_check_result d is_active error_msg;
      apply_checks rest d
  end.

(** The entity [find_domain(u)] returns, with its index in the store *)
Definition lookup_url (self : DomainManager.t) (u : string)
    : option (nat * DomainInfo.t) :=
  list_find (λ d, DomainInfo.url d = DomainInfo._normalize_url u)
    (DomainManager.domains self).

(** The clock after one reading *)
Definition tick (w : World) : World := set_iso_ticks (S (iso_ticks w)) w.

(** The world after the domains file was written *)
Definition saved `{PyLib} (self : DomainManager.t) (w : World) : World :=
  set_files
    (<[Config.DOMAINS_FILE := Utf8 (json_dumps (JArr (DomainManager.dicts self)))]>
       (files w)) w.

(** The domains file cannot be written *)
Definition save_fails (w : World) : Prop := Config.DOMAINS_FILE ∈ readonly w.

(** A sequence of [add_domain] calls *)
Fixpoint add_all `{PyLib} (urls : list string) (self : DomainManager.t)
    : M DomainManager.t :=
  match urls with
  | [] => mret self
  | u :: rest =>
      '(_, self) ← DomainManager.add_domain self u;
      add_all rest self
  end.

(** [validate_domain(u)] accepts [u] *)
Definition valid `{PyLib} (self : DomainManager.t) (u : string) (w : World)
    : bool :=
  (DomainManager.validate_domain self u w).1.1.

(** The entity [DomainInfo(u)] creates at clock reading [t] *)
Definition fresh (u t : string) : DomainInfo.t :=
  {| DomainInfo.url := DomainInfo._normalize_url u;
     DomainInfo.added_time := t;
     DomainInfo.last_check := None; DomainInfo.status := "unknown";
     DomainInfo.check_count := 0; DomainInfo.error_count := 0 |}.

(** The store after [u] went to the front, before the limit is enforced:
    the entity found is refreshed and moved, or a fresh one is inserted. *)
Definition to_front (self : DomainManager.t) (u t_new t_refresh : string)
    : list DomainInfo.t :=
  match lookup_url self u with
  | Some (i, d) =>
      DomainInfo.set_added_time t_refresh d
        :: delete i (DomainManager.domains self)
  | None => fresh u t_new :: DomainManager.domains self
  end.

(** Entities and stores to run examples on *)
Definition entity (u st : string) (checks errors : Z) : DomainInfo.t :=
  {| DomainInfo.url := u; DomainInfo.added_time := "2023-12-31T08:00:00";
     DomainInfo.last_check := None; DomainInfo.status := st;
     DomainInfo.check_count := checks; DomainInfo.error_count := errors |}.

Definition two_domains : DomainManager.t :=
  {| DomainManager.domains :=
       [ entity "https://a.example" "active" 3 0;
         entity "https://b.example" "error" 4 2 ];
     DomainManager.max_domains := Config.MAX_DOMAINS |}.

Definition ten_domains : DomainManager.t :=
  {| DomainManager.domains :=
       map (λ u, entity u "unknown" 0 0)
         [ "https://d9.example"; "https://d8.example"; "https://d7.example";
           "https://d6.example"; "https://d5.example"; "https://d4.example";
           "https://d3.example"; "https://d2.example"; "https://d1.example";
           "https://d0.example" ];
     DomainManager.max_domains := Config.MAX_DOMAINS |}.

(** A world in which the domains file cannot be written *)
Definition readonly_world : World :=
  {| files := files example_world; readonly := {[ Config.DOMAINS_FILE ]};
     iso_clock := iso_clock example_world; iso_ticks := 0;
     unix_clock := unix_clock example_world; unix_ticks := 0;
     network := network example_world; requests := [] |}.

(** The domains file is missing, is not UTF-8 text, or holds text that
    [json.loads] rejects once stripped and rid of its byte-order mark *)
Definition no_domains_data `{PyLib} (w : World) : Prop :=
  match files w !! Config.DOMAINS_FILE with
  | None => True
  | Some NotUtf8 => True
  | Some (Utf8 text) =>
      json_loads (DataManager.remove_bom (str_strip text)) = None
  end.

(** The store a new [DomainManager] starts from *)
Definition empty_store : DomainManager.t :=
  {| DomainManager.domains := []; DomainManager.max_domains := Config.MAX_DOMAINS |}.

(** A world whose domains file holds text that is not JSON *)
Definition corrupt_world : World :=
  {| files := {[ Config.DOMAINS_FILE := Utf8 "{not json" ]};
     readonly := ∅;
     iso_clock := iso_clock example_world; iso_ticks := 0;
     unix_clock := unix_clock example_world; unix_ticks := 0;
     network := network example_world; requests := [] |}.

(** The boolean a probe outcome is cached as *)
Definition outcome_bool (o : head_outcome) : bool :=
  match o with
  | Response status_code _ _ => bool_decide (status_code < 400)%Z
  | _ => false
  end.

(** The cache entry for [u] is present and younger than [cache_duration]
    at the next reading of the clock *)
Definition cache_fresh (self : NetworkChecker.t) (u : string) (w : World)
    : Prop :=
  ∃ b ts, NetworkChecker.check_cache self !! u = Some (b, ts)
          ∧ (unix_clock w (unix_ticks w) - ts
             < NetworkChecker.cache_duration self)%Z.

(** The statuses the code gives names to *)
Definition known_status (st : string) : Prop :=
  st = "active" ∨ st = "inactive" ∨ st = "error" ∨ st = "unknown".

(** An entity as [DomainInfo.__init__] leaves it: URL in normal form,
    [added_time] set *)
Definition well_formed (d : DomainInfo.t) : Prop :=
  DomainInfo._normalize_url (DomainInfo.url d) = DomainInfo.url d
  ∧ DomainInfo.added_time d ≠ EmptyString.

(** The order [sort_domains_by_priority] sorts by *)
Definition key_order (timestamp : string → option Z) (a b : DomainInfo.t)
    : Prop :=
  DomainManager.key_le (DomainManager.sort_key timestamp a)
    (DomainManager.sort_key timestamp b) = true.

(** A world that holds an export of two entities, one of them with the
    URL of an entity of [two_domains] *)
Definition backup_world : World :=
  {| files :=
       {[ "backup.json" :=
            Utf8 (RefLib.dumps
                    (JObj [ ("export_time", JStr "2024-01-01T00:00:00");
                            ("app_version", JStr "1.0.0");
                            ("domains",
                             JArr [ DomainInfo.to_dict
                                      (entity "https://c.example" "active" 1 0);
                                    DomainInfo.to_dict
                                      (entity "https://a.example" "error" 9 9) ]) ])) ]};
     readonly := ∅;
     iso_clock := iso_clock example_world; iso_ticks := 0;
     unix_clock := unix_clock example_world; unix_ticks := 0;
     network := network example_world; requests := [] |}.

(** What [check_domain_simple(u)] returns after a probe with outcome [o] *)
Definition probe_result (u : string) (o : head_outcome)
    : bool * string * option string :=
  match o with
  | Response status_code response_url has_history =>
      (bool_decide (status_code < 400)%Z, "HTTP " +:+ pretty status_code,
       Some (if has_history then response_url else u))
  | Timeout => (false, Config.timeout_error, None)
  | ConnectionError => (false, Config.network_error, None)
  | RequestException text => (false, "请求异常: " +:+ text, None)
  | OtherException text => (false, "未知错误: " +:+ text, None)
  end.

(** A JSON value is a dictionary whose [url] is [u] *)
Definition record_has_url (u : string) (item : json) : Prop :=
  match item with
  | JObj fields => DataManager.has_url u fields = true
  | _ => False
  end.

#[global] Instance record_has_url_dec (u : string) (item : json) :
  Decision (record_has_url u item).
Proof. destruct item; simpl; try (right; tauto). apply _. Defined.

Definition is_record (item : json) : Prop :=
  match item with JObj _ => True | _ => False end.

(** The record [DataManager.add_domain] writes for a new URL *)
Definition new_record (u st last_check added_time : string) : json :=
  JObj [ ("url", JStr u); ("status", JStr st);
         ("last_check", JStr last_check); ("response_time", JInt 0);
         ("added_time", JStr added_time) ].

(** Two records with the same URL and one with another *)
Definition records : list json :=
  [ JObj [("url", JStr "https://a.example"); ("status", JStr "active")];
    JObj [("url", JStr "https://b.example")];
    JObj [("url", JStr "https://a.example"); ("status", JStr "error")] ].

(** A world whose domains file holds [records] *)
Definition records_world : World :=
  {| files := {[ Config.DOMAINS_FILE := Utf8 (RefLib.dumps (JArr records)) ]};
     readonly := ∅;
     iso_clock := iso_clock example_world; iso_ticks := 0;
     unix_clock := unix_clock example_world; unix_ticks := 0;
     network := network example_world; requests := [] |}.

(** The keys of a dictionary *)
Definition keys (d : list (string * json)) : list string := map fst d.

(** The settings file cannot be written *)
Definition settings_readonly (w : World) : Prop :=
  DataManager.settings_file ∈ readonly w.

(** A world whose settings file overrides one default and adds a key *)
Definition settings_world : World :=
  {| files :=
       {[ DataManager.settings_file :=
            Utf8 (RefLib.dumps (JObj [ ("theme", JStr "dark");
                                       ("font_size", JInt 12) ])) ]};
     readonly := ∅;
     iso_clock := iso_clock example_world; iso_ticks := 0;
     unix_clock := unix_clock example_world; unix_ticks := 0;
     network := network example_world; requests := [] |}.

(** [n] failed checks of one URL in a row, as the monitor reports them *)
Fixpoint fail_times `{PyLib} (n : nat) (self : DomainManager.t) (u : string)
    (error_msg : option string) : M DomainManager.t :=
  match n with
  | O => mret self
  | S n =>
      '(_, self) ← DomainManager.update_domain_status self u false error_msg;
      fail_times n self u error_msg
  end.

(** Two worlds with the same files and the same write permissions *)
Definition same_disk (w w' : World) : Prop :=
  files w' = files w ∧ readonly w' = readonly w.

(** A world whose domains file holds a list with a number in it *)
Definition bad_record_world : World :=
  {| files :=
       {[ Config.DOMAINS_FILE :=
            Utf8 (RefLib.dumps
                    (JArr [ DomainInfo.to_dict
                              (entity "https://a.example" "active" 3 0);
                            JInt 5 ])) ]};
     readonly := ∅;
     iso_clock := iso_clock example_world; iso_ticks := 0;
     unix_clock := unix_clock example_world; unix_ticks := 0;
     network := network example_world; requests := [] |}.

(** The characters the host pattern lets through: letters, digits, the
    hyphen, the dot between labels, and a newline [$] tolerates at the end *)
Definition host_char (c : ascii) : Prop :=
  DomainManager.is_label_char c = true ∨ c = "."%char
  ∨ c = DomainManager.newline.

(** The URLs a GET outcome went through: the history and the final URL *)
Definition visited (outcome : NetworkChecker.get_outcome) : list string :=
  match outcome with
  | NetworkChecker.GetResponse _ response_url history _ _ =>
      (history ++ [response_url])%list
  | _ => []
  end.

(** A request for [https://a.example] that is redirected to a page of the
    same host *)
Definition same_host_redirect : NetworkChecker.get_outcome :=
  NetworkChecker.GetResponse 200 "https://a.example/home"
    [ "https://a.example/" ] "text/html" "nginx".

(** [datetime.fromisoformat(text).timestamp()] on the time stamps of the
    examples, in UTC; any other text does not parse *)
Definition example_timestamp (text : string) : option Z :=
  if String.eqb text "2023-12-31T08:00:00" then Some 1704009600%Z
  else if String.eqb text "2024-01-01T00:00:00" then Some 1704067200%Z
  else None.

(** A store that is not in priority order: an error entity first, and two
    active entities with the older one in front *)
Definition unsorted_domains : DomainManager.t :=
  {| DomainManager.domains :=
       [ entity "https://b.example" "error" 4 2;
         entity "https://a.example" "active" 3 0;
         {| DomainInfo.url := "https://c.example";
            DomainInfo.added_time := "2024-01-01T00:00:00";
            DomainInfo.last_check := None; DomainInfo.status := "active";
            DomainInfo.check_count := 0; DomainInfo.error_count := 0 |} ];
     DomainManager.max_domains := Config.MAX_DOMAINS |}.

(** A dictionary that does not have the URL: the loops of [DataManager]
    pass over it *)
Definition other_record (u : string) (item : json) : Prop :=
  is_record item ∧ ¬ record_has_url u item.

(** What [import_domains] appends: of the entities read from the file, in
    order, each one whose URL [find_domain] does not find in the store as
    it has grown so far *)
Fixpoint imported (self : DomainManager.t) (read : list DomainInfo.t)
    : list DomainInfo.t :=
  match read with
  | [] => []
  | d :: rest =>
      match lookup_url self (DomainInfo.url d) with
      | Some _ => imported self rest
      | None =>
          d :: imported
                 (DomainManager.set_domains (DomainManager.domains self ++ [d]) self)
                 rest
      end
  end.

(** The entities [from_dict] builds from the records of a list, in order;
    a record on which it raises gives none.  The reading of the clock that
    [from_dict] takes for a record without [added_time] is left open. *)
Inductive read_from : list json → list DomainInfo.t → Prop :=
  | read_nil : read_from [] []
  | read_entity (item : json) (d : DomainInfo.t) (w : World)
      (items : list json) (ds : list DomainInfo.t) :
      (DomainInfo.from_dict item w).1 = Returns d →
      read_from items ds → read_from (item :: items) (d :: ds)
  | read_skip (item : json) (w : World) (items : list json)
      (ds : list DomainInfo.t) :
      (DomainInfo.from_dict item w).1 = Raises →
      read_from items ds → read_from (item :: items) ds.

(** A world whose domains file holds the given text *)
Definition text_world (text : string) : World :=
  {| files := {[ Config.DOMAINS_FILE := Utf8 text ]};
     readonly := ∅;
     iso_clock := iso_clock example_world; iso_ticks := 0;
     unix_clock := unix_clock example_world; unix_ticks := 0;
     network := network example_world; requests := [] |}.

(** Three records whose first one does not have the URL the two others
    share *)
Definition later_records : list json :=
  [ JObj [("url", JStr "https://b.example")];
    JObj [("url", JStr "https://a.example"); ("status", JStr "active")];
    JObj [("url", JStr "https://a.example"); ("status", JStr "error")] ].
(** * Properties *)

#[local] Arguments String.append !_ _ / : simpl nomatch.
#[local] Open Scope nat_scope.

(** ** Strings *)

Section Strings.
Import Py.

Lemma rstrip_slash_nil_inv (s : string) :
  rstrip_slash s = EmptyString → ∃ k, s = slashes k.
Proof.
  induction s as [|c r IH]; simpl.
  - intros _. by exists 0.
  - destruct (rstrip_slash r) eqn:E; [|discriminate].
    destruct (Ascii.eqb_spec c "/") as [->|]; [|discriminate].
    intros _. destruct IH as [k ->]; [done|]. by exists (S k).
Qed.

Lemma rstrip_slash_slashes (k : nat) : rstrip_slash (slashes k) = EmptyString.
Proof. induction k as [|k IH]; simpl; [done|]. by rewrite IH. Qed.


(** [rstrip('/')] removes a run of slashes at the end and leaves a text
    that does not end in a slash. *)
Lemma rstrip_slash_spec (s : string) :
  (∃ k, s = rstrip_slash s +:+ slashes k)
  ∧ ends_with_slash (rstrip_slash s) = false.
Proof.
  induction s as [|c r [[k Hk] Hend]]; simpl.
  - split; [by exists 0 | done].
  - destruct (rstrip_slash r) as [|d r'] eqn:E; simpl in Hk.
    + destruct (Ascii.eqb_spec c "/") as [->|Hc].
      * split; [|done]. exists (S k). simpl. by f_equal.
      * split; [exists k; simpl; by f_equal|].
        simpl. by apply Ascii.eqb_neq.
    + split; [exists k; simpl; by f_equal|]. done.
Qed.

Lemma rstrip_slash_idemp (s : string) :
  rstrip_slash (rstrip_slash s) = rstrip_slash s.
Proof.
  induction s as [|c r IH]; simpl; [done|].
  destruct (rstrip_slash r) as [|d r'] eqn:E.
  - destruct (Ascii.eqb_spec c "/") as [->|Hc]; simpl; [done|].
    by apply Ascii.eqb_neq in Hc as ->.
  - change (rstrip_slash (String c (String d r')) = String c (String d r')).
    simpl in *. rewrite IH. done.
Qed.

Lemma rstrip_slash_app (p s : string) :
  rstrip_slash s ≠ EmptyString →
  rstrip_slash (p +:+ s) = p +:+ rstrip_slash s.
Proof.
  intros Hs. induction p as [|c p IH]; simpl; [done|].
  rewrite IH. destruct (p +:+ rstrip_slash s) eqn:E; [|done].
  destruct p; simpl in E; [done | discriminate].
Qed.

Lemma prefix_rstrip_slash (s p : string) :
  String.prefix p (rstrip_slash s) = true → String.prefix p s = true.
Proof.
  revert p. induction s as [|c r IH]; intros p; simpl; [done|].
  destruct (rstrip_slash r) as [|d r'] eqn:E.
  - destruct (Ascii.eqb c "/").
    + destruct p; simpl; [done | discriminate].
    + destruct p as [|a p]; simpl; [done|].
      destruct (ascii_dec a c); [|done]. apply IH.
  - destruct p as [|a p]; [done|].
    change (String.prefix (String a p) (String c (String d r')))
      with (if ascii_dec a c then String.prefix p (String d r') else false).
    simpl. destruct (ascii_dec a c); [|done]. apply IH.
Qed.

Lemma prefix_app (p s : string) : String.prefix p (p +:+ s) = true.
Proof.
  induction p as [|c p IH]; simpl; [by destruct s|].
  destruct (ascii_dec c c); [done | congruence].
Qed.

Lemma has_scheme_rstrip_slash (u : string) :
  DomainInfo.has_scheme u = false →
  DomainInfo.has_scheme (rstrip_slash u) = false.
Proof.
  unfold DomainInfo.has_scheme, startswith. intros Hu.
  apply orb_false_iff in Hu as [H1 H2]. apply orb_false_iff. split.
  - destruct (String.prefix "http://" (rstrip_slash u)) eqn:E; [|done].
    apply prefix_rstrip_slash in E. congruence.
  - destruct (String.prefix "https://" (rstrip_slash u)) eqn:E; [|done].
    apply prefix_rstrip_slash in E. congruence.
Qed.

Lemma has_scheme_app (scheme rest : string) :
  scheme = "http://" ∨ scheme = "https://" →
  DomainInfo.has_scheme (scheme +:+ rest) = true.
Proof.
  unfold DomainInfo.has_scheme, startswith.
  intros [-> | ->]; rewrite prefix_app; [done | by rewrite orb_true_r].
Qed.

Lemma falsy_false (u : string) : u ≠ EmptyString → falsy u = false.
Proof. by destruct u. Qed.

(** Normalizing twice changes nothing unless the text is made of slashes
    only. *)
Lemma normalize_url_idemp (u : string) :
  u = EmptyString ∨ rstrip_slash u ≠ EmptyString →
  DomainInfo._normalize_url (DomainInfo._normalize_url u)
  = DomainInfo._normalize_url u.
Proof.
  intros [-> | Hr]; [done|].
  assert (u ≠ EmptyString) as Hu by (intros ->; done).
  assert (DomainInfo._normalize_url u
          = if negb (DomainInfo.has_scheme (rstrip_slash u))
            then "https://" +:+ rstrip_slash u else rstrip_slash u) as ->
    by (unfold DomainInfo._normalize_url; by rewrite falsy_false).
  destruct (DomainInfo.has_scheme (rstrip_slash u)) eqn:Hs; simpl negb; cbv iota.
  - unfold DomainInfo._normalize_url.
    by rewrite (falsy_false _ Hr), rstrip_slash_idemp, Hs.
  - unfold DomainInfo._normalize_url.
    rewrite falsy_false by done.
    rewrite rstrip_slash_app by (by rewrite rstrip_slash_idemp).
    rewrite rstrip_slash_idemp.
    by rewrite (has_scheme_app "https://") by auto.
Qed.

End Strings.

(** ** DomainInfo *)

(** C9. A non-empty text without [http://] or [https://] in front is
    normalized to ["https://"] followed by the text without its trailing
    slashes; a text that has one of the two schemes in front of a host
    loses its trailing slashes only; the empty text is returned as it is.
    What [rstrip] removes is exactly a run of slashes at the end. *)
Theorem normalize_url_correct (u : string) :
  (u = EmptyString → DomainInfo._normalize_url u = u)
  ∧ (u ≠ EmptyString → DomainInfo.has_scheme u = false →
     DomainInfo._normalize_url u = "https://" +:+ Py.rstrip_slash u)
  ∧ (∀ scheme host,
       u = scheme +:+ host →
       scheme = "http://" ∨ scheme = "https://" →
       Py.rstrip_slash host ≠ EmptyString →
       DomainInfo._normalize_url u = scheme +:+ Py.rstrip_slash host)
  ∧ (∃ k, u = Py.rstrip_slash u +:+ slashes k)
  ∧ ends_with_slash (Py.rstrip_slash u) = false.
Proof.
  split; [by intros ->|]. split; [|split; [|apply rstrip_slash_spec]].
  - intros Hu Hs. unfold DomainInfo._normalize_url.
    rewrite (falsy_false u Hu), (has_scheme_rstrip_slash u Hs). done.
  - intros scheme host -> Hscheme Hhost.
    unfold DomainInfo._normalize_url.
    rewrite falsy_false by (destruct Hscheme as [-> | ->]; done).
    rewrite (rstrip_slash_app scheme host Hhost).
    by rewrite (has_scheme_app scheme _ Hscheme).
Qed.

Lemma normalize_url_correct_witness :
  DomainInfo._normalize_url "example.com/" = "https://example.com"
  ∧ DomainInfo._normalize_url "http://example.com//" = "http://example.com".
Proof.
  split.
  - exact (proj1 (proj2 (normalize_url_correct "example.com/"))
             ltac:(discriminate) eq_refl).
  - exact (proj1 (proj2 (proj2 (normalize_url_correct "http://example.com//")))
             "http://" "example.com//" eq_refl (or_introl eq_refl)
             ltac:(discriminate)).
Defined.

Lemma new_eq (u : string) (w : World) :
  DomainInfo.new u w =
  ({| DomainInfo.url := DomainInfo._normalize_url u;
      DomainInfo.added_time := iso_clock w (iso_ticks w);
      DomainInfo.last_check := None; DomainInfo.status := "unknown";
      DomainInfo.check_count := 0; DomainInfo.error_count := 0 |},
   set_iso_ticks (S (iso_ticks w)) w).
Proof. reflexivity. Qed.

Lemma update_check_result_counters (d : DomainInfo.t) (is_active : bool)
    (error_msg : option string) (w : World) :
  let d' := (DomainInfo.update_check_result d is_active error_msg w).1 in
  DomainInfo.check_count d' = (DomainInfo.check_count d + 1)%Z
  ∧ DomainInfo.error_count d' =
      (if is_active then 0 else DomainInfo.error_count d + 1)%Z.
Proof. by destruct is_active. Qed.

Lemma update_check_result_ok (d : DomainInfo.t) (is_active : bool)
    (error_msg : option string) (w : World) :
  counters_ok d →
  counters_ok (DomainInfo.update_check_result d is_active error_msg w).1.
Proof.
  unfold counters_ok. intros Hd.
  destruct (update_check_result_counters d is_active error_msg w) as [-> ->].
  destruct is_active; lia.
Qed.

Lemma apply_checks_ok (outcomes : list (bool * option string))
    (d : DomainInfo.t) (w : World) :
  counters_ok d → counters_ok (apply_checks outcomes d w).1.
Proof.
  revert d w. induction outcomes as [|[a m] rest IH]; intros d w Hd; [done|].
  simpl. unfold mbind, M_bind.
  pose proof (update_check_result_ok d a m w Hd) as Hd'.
  destruct (DomainInfo.update_check_result d a m w) as [d' w'].
  by apply IH.
Qed.

(** The counters an entity built by [from_dict] gets are those of the
    dictionary, 0 for a missing key. *)
Lemma from_dict_counters (fields : list (string * json)) (w w' : World)
    (d : DomainInfo.t) :
  DomainInfo.from_dict (JObj fields) w = (Returns d, w') →
  DomainInfo.int_arg (Json.get "check_count" fields) 0
    = Some (DomainInfo.check_count d)
  ∧ DomainInfo.int_arg (Json.get "error_count" fields) 0
    = Some (DomainInfo.error_count d).
Proof.
  unfold DomainInfo.from_dict.
  destruct (default (JStr EmptyString) (Json.get "url" fields)) as [|b|n|u|l|l];
    try (by destruct (Json.truthy _)).
  destruct (DomainInfo.added_time_arg _) as [a|]; [|done].
  destruct (DomainInfo.opt_str_arg _) as [l|]; [|done].
  destruct (DomainInfo.str_arg _ _) as [s|]; [|done].
  destruct (DomainInfo.int_arg (Json.get "check_count" fields) 0) as [c|]; [|done].
  destruct (DomainInfo.int_arg (Json.get "error_count" fields) 0) as [e|]; [|done].
  unfold mbind, M_bind, mret, M_ret, DomainInfo.init.
  destruct a as [a|]; [destruct (Py.falsy a)|]; simpl; by intros [= <- _].
Qed.

(** C4, as the code has it.  An entity created by [DomainInfo(url)], as
    [add_domain] does, satisfies [check_count >= error_count >= 0]; any
    sequence of check outcomes keeps it; [from_dict] copies the counters of
    the dictionary unchecked, so its entity satisfies it exactly when the
    dictionary does. *)
Theorem counters_invariant :
  (∀ u w, counters_ok (DomainInfo.new u w).1)
  ∧ (∀ outcomes d w, counters_ok d → counters_ok (apply_checks outcomes d w).1)
  ∧ (∀ fields w w' d,
       DomainInfo.from_dict (JObj fields) w = (Returns d, w') →
       ∃ c e,
         DomainInfo.int_arg (Json.get "check_count" fields) 0 = Some c
         ∧ DomainInfo.int_arg (Json.get "error_count" fields) 0 = Some e
         ∧ (counters_ok d ↔ (0 ≤ e ≤ c)%Z)).
Proof.
  split; [|split].
  - intros u w. rewrite new_eq. unfold counters_ok. simpl. lia.
  - apply apply_checks_ok.
  - intros fields w w' d Hd.
    destruct (from_dict_counters fields w w' d Hd) as [Hc He].
    exists (DomainInfo.check_count d), (DomainInfo.error_count d).
    split; [done|]. split; [done|]. unfold counters_ok. tauto.
Qed.

Lemma counters_invariant_witness :
  counters_ok
    (apply_checks [(false, Some "timeout"); (true, None); (false, None)]
       (DomainInfo.new "a.example" example_world).1 example_world).1
  ∧ ∃ c e,
      DomainInfo.int_arg (Json.get "check_count" [("url", JStr "a.example")]) 0
        = Some c
      ∧ DomainInfo.int_arg (Json.get "error_count" [("url", JStr "a.example")]) 0
        = Some e
      ∧ (counters_ok
           (DomainInfo.new "a.example" example_world).1 ↔ (0 ≤ e ≤ c)%Z).
Proof.
  split.
  - apply (proj1 (proj2 counters_invariant)).
    apply (proj1 counters_invariant).
  - exact (proj2 (proj2 counters_invariant) [("url", JStr "a.example")]
             example_world _ _ eq_refl).
Defined.

(** C4, counterexample.  A dictionary with [check_count = 0] and
    [error_count = 5] is loaded into an entity with these counters. *)
Lemma from_dict_counters_unchecked :
  ∃ d w',
    DomainInfo.from_dict
      (JObj [ ("url", JStr "https://a.example");
              ("added_time", JStr "2024-01-01T00:00:00");
              ("last_check", JNull); ("status", JStr "error");
              ("check_count", JInt 0); ("error_count", JInt 5) ])
      example_world = (Returns d, w')
    ∧ DomainInfo.check_count d = 0%Z
    ∧ DomainInfo.error_count d = 5%Z
    ∧ ¬ counters_ok d.
Proof.
  eexists _, _. split; [reflexivity|]. repeat split.
  unfold counters_ok. simpl. lia.
Qed.

(** ** DomainManager *)

Section Store.
Context `{PyLib}.
Import DomainManager.

Lemma find_domain_eq (self : t) (u : string) (w : World) :
  find_domain self u w = (lookup_url self u, tick w).
Proof. reflexivity. Qed.

Lemma save_domains_eq (self : t) (w : World) :
  DataManager.save_domains (dicts self) w =
  if bool_decide (save_fails w) then (false, w) else (true, saved self w).
Proof. reflexivity. Qed.

Lemma lookup_url_Some (self : t) (u : string) (i : nat) (d : DomainInfo.t) :
  lookup_url self u = Some (i, d) →
  domains self !! i = Some d
  ∧ DomainInfo.url d = DomainInfo._normalize_url u
  ∧ i < length (domains self).
Proof.
  intros Hf. apply list_find_Some in Hf as (Hi & Hu & _).
  repeat split; [done..|]. by eapply lookup_lt_Some.
Qed.

Lemma enforce_limit_domains (self : t) :
  domains (enforce_limit self) = take (max_domains self) (domains self)
  ∧ max_domains (enforce_limit self) = max_domains self.
Proof.
  unfold enforce_limit.
  destruct (Nat.ltb_spec (max_domains self) (length (domains self))); simpl.
  - done.
  - by rewrite take_ge.
Qed.

Lemma validate_domain_world (self : t) (u : string) (w : World) :
  u ≠ EmptyString → (validate_domain self u w).2 = tick w.
Proof.
  intros Hu. unfold validate_domain. rewrite (falsy_false u Hu).
  unfold mbind, M_bind. rewrite new_eq.
  repeat case_match; reflexivity.
Qed.

Lemma validate_domain_empty (self : t) (w : World) :
  valid self EmptyString w = false.
Proof. reflexivity. Qed.

Lemma normalize_slashes (u : string) :
  u ≠ EmptyString → Py.rstrip_slash u = EmptyString →
  DomainInfo._normalize_url u = "https://".
Proof.
  intros Hu Hr. unfold DomainInfo._normalize_url.
  by rewrite (falsy_false u Hu), Hr.
Qed.

(** A text made of slashes only is rejected: it has no host. *)
Lemma validate_domain_slashes (self : t) (u : string) (w : World) :
  Py.rstrip_slash u = EmptyString → valid self u w = false.
Proof.
  intros Hr. destruct (decide (u = EmptyString)) as [-> | Hu]; [done|].
  unfold valid, validate_domain. rewrite (falsy_false u Hu).
  unfold mbind, M_bind. rewrite new_eq.
  cbn [DomainInfo.url]. rewrite (normalize_slashes u Hu Hr).
  rewrite urlparse_no_host. reflexivity.
Qed.

Lemma valid_normalize_idemp (self : t) (u : string) (w : World) :
  valid self u w = true →
  DomainInfo._normalize_url (DomainInfo._normalize_url u)
  = DomainInfo._normalize_url u.
Proof.
  intros Hv. apply normalize_url_idemp. right. intros Hr.
  by rewrite (validate_domain_slashes self u w Hr) in Hv.
Qed.

Lemma valid_nonempty (self : t) (u : string) (w : World) :
  valid self u w = true → u ≠ EmptyString.
Proof. by intros Hv ->. Qed.

End Store.

Section AddDomain.
Context `{PyLib}.
Import DomainManager.

Lemma add_domain_invalid (self : t) (u : string) (w : World) :
  valid self u w = false →
  ∃ msg w', add_domain self u w = ((false, msg), self, w').
Proof.
  unfold valid, add_domain, mbind, M_bind.
  destruct (validate_domain self u w) as [[b msg] w1]. simpl.
  intros ->. simpl. by eexists _, _.
Qed.

Lemma add_domain_valid (self : t) (u : string) (w : World) :
  valid self u w = true →
  ∃ msg self' w',
    add_domain self u w
      = ((negb (bool_decide (save_fails w)), msg), self', w')
    ∧ domains self'
      = take (max_domains self)
          (to_front self u (iso_clock w (1 + iso_ticks w))
             (iso_clock w (3 + iso_ticks w)))
    ∧ max_domains self' = max_domains self.
Proof.
  intros Hv.
  pose proof (valid_normalize_idemp self u w Hv) as Hidem.
  pose proof (validate_domain_world self u w (valid_nonempty self u w Hv)) as Hw.
  unfold valid in Hv. unfold add_domain, mbind, M_bind.
  destruct (validate_domain self u w) as [[b msg] w1]. simpl in Hv, Hw.
  subst b w1. cbn [negb]. rewrite new_eq, find_domain_eq.
  cbn [DomainInfo.url]. unfold to_front.
  replace (lookup_url self (DomainInfo._normalize_url u))
    with (lookup_url self u) by (unfold lookup_url; by rewrite Hidem).
  destruct (lookup_url self u) as [[i d]|].
  - unfold now_isoformat, mret, M_ret. cbn beta iota.
    rewrite save_domains_eq.
    destruct (enforce_limit_domains
      (set_domains (DomainInfo.set_added_time
         (iso_clock (tick (tick (tick w))) (iso_ticks (tick (tick (tick w))))) d
         :: delete i (domains self)) self)) as [Hd Hm].
    case_bool_decide as Hs; simpl in *;
      (eexists _, _, _; split;
       [ unfold save_fails in *; simpl in *;
         rewrite ?bool_decide_eq_true_2, ?bool_decide_eq_false_2 by done;
         reflexivity
       | split; [exact Hd | exact Hm] ]).
  - unfold mret, M_ret. cbn beta iota.
    rewrite save_domains_eq.
    destruct (enforce_limit_domains
      (set_domains (fresh u (iso_clock (tick w) (iso_ticks (tick w)))
         :: domains self) self)) as [Hd Hm].
    case_bool_decide as Hs; simpl in *;
      (eexists _, _, _; split;
       [ unfold save_fails in *; simpl in *;
         rewrite ?bool_decide_eq_true_2, ?bool_decide_eq_false_2 by done;
         reflexivity
       | split; [exact Hd | exact Hm] ]).
Qed.

End AddDomain.

Section AddDomainProperties.
Context `{PyLib}.
Import DomainManager.

Lemma to_front_cons (self : t) (u t_new t_refresh : string) :
  ∃ d' rest,
    to_front self u t_new t_refresh = d' :: rest
    ∧ DomainInfo.url d' = DomainInfo._normalize_url u
    ∧ rest = match lookup_url self u with
             | Some (i, _) => delete i (domains self)
             | None => domains self
             end.
Proof.
  unfold to_front. destruct (lookup_url self u) as [[i d]|] eqn:Hf.
  - apply lookup_url_Some in Hf as (_ & Hu & _). by eexists _, _.
  - by eexists _, _.
Qed.

Lemma add_domain_length (self : t) (u : string) (w : World) :
  length (domains self) ≤ max_domains self →
  length (domains (add_domain self u w).1.2) ≤ max_domains self
  ∧ max_domains (add_domain self u w).1.2 = max_domains self.
Proof.
  intros Hlen. destruct (valid self u w) eqn:Hv.
  - destruct (add_domain_valid self u w Hv) as (msg & self' & w' & -> & Hd & Hm).
    simpl. rewrite Hd, Hm, length_take. split; [lia | done].
  - destruct (add_domain_invalid self u w Hv) as (msg & w' & ->). done.
Qed.

Lemma add_all_length (urls : list string) (self : t) (w : World) :
  length (domains self) ≤ max_domains self →
  length (domains (add_all urls self w).1) ≤ max_domains self
  ∧ max_domains (add_all urls self w).1 = max_domains self.
Proof.
  revert self w. induction urls as [|u rest IH]; intros self w Hlen; [done|].
  simpl. unfold mbind, M_bind.
  destruct (add_domain_length self u w Hlen) as [Hl Hm].
  destruct (add_domain self u w) as [[r self1] w1]. simpl in Hl, Hm.
  destruct (IH self1 w1) as [Hl' Hm']; [lia|]. split; [lia | congruence].
Qed.

(** C5. Starting from a store within its limit, no sequence of [add_domain]
    calls makes the store longer than [max_domains] (10 by default).  An
    accepted URL ends at index 0, the entities that were there follow it in
    their previous order and the tail beyond the limit is cut.  When the
    store is full and the URL is new, exactly the last entity is dropped. *)
Theorem add_domain_limit :
  (∀ urls self w,
     length (domains self) ≤ max_domains self →
     length (domains (add_all urls self w).1) ≤ max_domains self
     ∧ max_domains (add_all urls self w).1 = max_domains self)
  ∧ (∀ self u w,
       valid self u w = true → 0 < max_domains self →
       ∃ d' rest,
         domains (add_domain self u w).1.2
           = d' :: take (max_domains self - 1) rest
         ∧ DomainInfo.url d' = DomainInfo._normalize_url u
         ∧ rest = match lookup_url self u with
                  | Some (i, _) => delete i (domains self)
                  | None => domains self
                  end
         ∧ length (domains (add_domain self u w).1.2) ≤ max_domains self)
  ∧ (∀ self u w,
       valid self u w = true → lookup_url self u = None →
       0 < max_domains self → length (domains self) = max_domains self →
       ∃ kept oldest,
         domains self = (kept ++ [oldest])%list
         ∧ domains (add_domain self u w).1.2
           = fresh u (iso_clock w (1 + iso_ticks w)) :: kept).
Proof.
  split; [apply add_all_length|]. split.
  - intros self u w Hv Hmax.
    destruct (add_domain_valid self u w Hv) as (msg & self' & w' & -> & Hd & Hm).
    simpl. rewrite Hd.
    destruct (to_front_cons self u (iso_clock w (1 + iso_ticks w))
                (iso_clock w (3 + iso_ticks w))) as (d' & rest & -> & Hu & Hr).
    exists d', rest. destruct (max_domains self) as [|n]; [lia|].
    simpl. rewrite Nat.sub_0_r. repeat split; [done..|].
    rewrite length_take. lia.
  - intros self u w Hv Hnone Hmax Hfull.
    destruct (add_domain_valid self u w Hv) as (msg & self' & w' & -> & Hd & Hm).
    simpl. rewrite Hd. unfold to_front. rewrite Hnone.
    destruct (domains self) as [|x l] using rev_ind; [simpl in Hfull; lia|].
    exists l, x. split; [done|].
    rewrite length_app in Hfull. simpl in Hfull.
    destruct (max_domains self) as [|n]; [lia|]. simpl. f_equal.
    apply take_app_length'. lia.
Qed.

(** C10. Adding a URL the store already holds creates no entity and keeps
    the size of a store within its limit.  When the URL is accepted the
    entity found goes to index 0 with a new [added_time] and its [status],
    [check_count], [error_count] and [last_check] as they were, the others
    keep their order; when it is rejected the store is left as it is. *)
Theorem add_existing_domain (self : t) (u : string) (w : World) (i : nat)
    (d : DomainInfo.t) :
  length (domains self) ≤ max_domains self →
  lookup_url self u = Some (i, d) →
  ∃ flag msg self' w',
    add_domain self u w = ((flag, msg), self', w')
    ∧ length (domains self') = length (domains self)
    ∧ if valid self u w then
        ∃ d', domains self' = d' :: delete i (domains self)
              ∧ DomainInfo.added_time d' = iso_clock w (3 + iso_ticks w)
              ∧ DomainInfo.url d' = DomainInfo.url d
              ∧ DomainInfo.status d' = DomainInfo.status d
              ∧ DomainInfo.check_count d' = DomainInfo.check_count d
              ∧ DomainInfo.error_count d' = DomainInfo.error_count d
              ∧ DomainInfo.last_check d' = DomainInfo.last_check d
      else self' = self.
Proof.
  intros Hlen Hf. pose proof (lookup_url_Some self u i d Hf) as (Hi & Hu & Hlt).
  destruct (valid self u w) eqn:Hv.
  - destruct (add_domain_valid self u w Hv) as (msg & self' & w' & -> & Hd & Hm).
    unfold to_front in Hd. rewrite Hf in Hd.
    assert (length (delete i (domains self)) = length (domains self) - 1) as Hdel
      by (apply length_delete; eauto).
    rewrite take_ge in Hd by (simpl; lia).
    eexists _, _, _, _. split; [reflexivity|]. rewrite Hd. split.
    + simpl. lia.
    + eexists. split; [reflexivity|]. done.
  - destruct (add_domain_invalid self u w Hv) as (msg & w' & ->).
    by eexists _, _, _, _.
Qed.

End AddDomainProperties.

Section AddDomainExamples.
#[local] Existing Instance RefLib.lib.
Import DomainManager.

Lemma add_domain_limit_witness :
  (length (domains (add_all ["x.example"; "d3.example/"; "y.example"]
                      ten_domains example_world).1) ≤ 10
   ∧ max_domains (add_all ["x.example"; "d3.example/"; "y.example"]
                    ten_domains example_world).1 = 10)
  ∧ (∃ d' rest,
       domains (add_domain two_domains "b.example" example_world).1.2
         = d' :: take (10 - 1) rest
       ∧ DomainInfo.url d' = "https://b.example"
       ∧ rest = [entity "https://a.example" "active" 3 0]
       ∧ length (domains (add_domain two_domains "b.example" example_world).1.2)
           ≤ 10)
  ∧ (∃ kept oldest,
       domains ten_domains = (kept ++ [oldest])%list
       ∧ domains (add_domain ten_domains "new.example" example_world).1.2
         = fresh "new.example" "2024-01-01T00:00:01" :: kept).
Proof.
  split; [|split].
  - apply (proj1 add_domain_limit
             ["x.example"; "d3.example/"; "y.example"] ten_domains example_world).
    vm_compute. lia.
  - apply (proj1 (proj2 add_domain_limit) two_domains "b.example" example_world).
    + vm_compute. reflexivity.
    + vm_compute. lia.
  - apply (proj2 (proj2 add_domain_limit) ten_domains "new.example" example_world).
    + vm_compute. reflexivity.
    + vm_compute. reflexivity.
    + vm_compute. lia.
    + reflexivity.
Defined.

(** The eleventh domain: the store keeps ten entities, the new one first,
    and loses the one that was last. *)
Example add_eleventh_domain :
  map DomainInfo.url
    (domains (add_domain ten_domains "d10.example" example_world).1.2)
  = [ "https://d10.example"; "https://d9.example"; "https://d8.example";
      "https://d7.example"; "https://d6.example"; "https://d5.example";
      "https://d4.example"; "https://d3.example"; "https://d2.example";
      "https://d1.example" ].
Proof. vm_compute. reflexivity. Qed.

Lemma add_existing_domain_witness :
  let d := entity "https://b.example" "error" 4 2 in
  lookup_url two_domains "b.example/" = Some (1, d)
  ∧ ∃ flag msg self' w',
      add_domain two_domains "b.example/" example_world
        = ((flag, msg), self', w')
      ∧ length (domains self') = length (domains two_domains)
      ∧ if valid two_domains "b.example/" example_world then
          ∃ d', domains self' = d' :: delete 1 (domains two_domains)
                ∧ DomainInfo.added_time d'
                  = iso_clock example_world (3 + iso_ticks example_world)
                ∧ DomainInfo.url d' = DomainInfo.url d
                ∧ DomainInfo.status d' = DomainInfo.status d
                ∧ DomainInfo.check_count d' = DomainInfo.check_count d
                ∧ DomainInfo.error_count d' = DomainInfo.error_count d
                ∧ DomainInfo.last_check d' = DomainInfo.last_check d
        else self' = two_domains.
Proof.
  split; [vm_compute; reflexivity|].
  apply (add_existing_domain two_domains "b.example/" example_world 1
           (entity "https://b.example" "error" 4 2)).
  - vm_compute. lia.
  - vm_compute. reflexivity.
Defined.

(** Adding [b.example/] to a store that holds [https://b.example] *)
Example add_existing_domain_run :
  (add_domain two_domains "b.example/" example_world).1
  = ((true, "域名添加成功"),
     {| domains :=
          [ DomainInfo.set_added_time "2024-01-01T00:00:03"
              (entity "https://b.example" "error" 4 2);
            entity "https://a.example" "active" 3 0 ];
        max_domains := 10 |}).
Proof. vm_compute. reflexivity. Qed.

End AddDomainExamples.

Section UpdateStatus.
Context `{PyLib}.
Import DomainManager.

Lemma update_domain_status_eq (self : t) (u : string) (is_active : bool)
    (error_msg : option string) (w : World) (i : nat) (d : DomainInfo.t) :
  lookup_url self u = Some (i, d) →
  ∃ w',
    update_domain_status self u is_active error_msg w
    = ((negb (bool_decide (save_fails w)),
        set_domains
          (<[i := (DomainInfo.update_check_result d is_active error_msg (tick w)).1]>
             (domains self)) self), w').
Proof.
  intros Hf. unfold update_domain_status, mbind, M_bind.
  rewrite find_domain_eq, Hf.
  destruct (DomainInfo.update_check_result d is_active error_msg (tick w))
    as [d' w1] eqn:Hd'.
  assert (save_fails w1 ↔ save_fails w) as Hs.
  { destruct is_active; injection Hd' as _ <-; done. }
  rewrite save_domains_eq. unfold mret, M_ret. simpl.
  rewrite (bool_decide_ext _ _ Hs).
  case_bool_decide; by eexists.
Qed.

(** C6. [update_domain_status(url, True, ...)] leaves the entity found for
    the URL with [error_count = 0] and [status = 'active'], whatever its
    error count was, with [last_check] the clock reading of the call and
    [check_count] one higher. *)
Theorem update_status_active (self : t) (u : string)
    (error_msg : option string) (w : World) (i : nat) (d : DomainInfo.t) :
  lookup_url self u = Some (i, d) →
  ∃ success self' w' d',
    update_domain_status self u true error_msg w = ((success, self'), w')
    ∧ domains self' !! i = Some d'
    ∧ DomainInfo.error_count d' = 0%Z
    ∧ DomainInfo.status d' = "active"
    ∧ DomainInfo.last_check d' = Some (iso_clock w (1 + iso_ticks w))
    ∧ DomainInfo.check_count d' = (DomainInfo.check_count d + 1)%Z
    ∧ DomainInfo.url d' = DomainInfo.url d
    ∧ DomainInfo.added_time d' = DomainInfo.added_time d.
Proof.
  intros Hf. destruct (update_domain_status_eq self u true error_msg w i d Hf)
    as [w' ->].
  apply lookup_url_Some in Hf as (_ & _ & Hlt).
  eexists _, _, _, _. split; [reflexivity|]. split.
  - simpl. by apply list_lookup_insert_eq.
  - done.
Qed.

(** C7. [update_domain_status(url, False, msg)] raises the [error_count]
    of the entity found for the URL by exactly 1, sets its status to
    ['error'] when a message was given and to ['inactive'] otherwise, and
    leaves every other entity of the store as it was. *)
Theorem update_status_inactive (self : t) (u : string)
    (error_msg : option string) (w : World) (i : nat) (d : DomainInfo.t) :
  lookup_url self u = Some (i, d) →
  ∃ success self' w' d',
    update_domain_status self u false error_msg w = ((success, self'), w')
    ∧ domains self' !! i = Some d'
    ∧ DomainInfo.error_count d' = (DomainInfo.error_count d + 1)%Z
    ∧ DomainInfo.status d'
      = (if DomainInfo.msg_given error_msg then "error" else "inactive")
    ∧ DomainInfo.check_count d' = (DomainInfo.check_count d + 1)%Z
    ∧ (∀ j, j ≠ i → domains self' !! j = domains self !! j)
    ∧ length (domains self') = length (domains self).
Proof.
  intros Hf. destruct (update_domain_status_eq self u false error_msg w i d Hf)
    as [w' ->].
  apply lookup_url_Some in Hf as (_ & _ & Hlt).
  eexists _, _, _, _. split; [reflexivity|]. split.
  - simpl. by apply list_lookup_insert_eq.
  - repeat split.
    + intros j Hj. simpl. by apply list_lookup_insert_ne.
    + simpl. apply length_insert.
Qed.

Lemma remove_domain_save_fails (self : t) (u : string) (w : World) (i : nat)
    (d : DomainInfo.t) :
  lookup_url self u = Some (i, d) → save_fails w →
  (remove_domain self u w).1
  = (false, set_domains (delete i (domains self) ++ [d]) self).
Proof.
  intros Hf Hs. unfold remove_domain, mbind, M_bind.
  rewrite find_domain_eq, Hf, save_domains_eq.
  rewrite bool_decide_eq_true_2 by done. reflexivity.
Qed.

Lemma remove_domain_saved (self : t) (u : string) (w : World) (i : nat)
    (d : DomainInfo.t) :
  lookup_url self u = Some (i, d) → ¬ save_fails w →
  (remove_domain self u w).1 = (true, set_domains (delete i (domains self)) self).
Proof.
  intros Hf Hs. unfold remove_domain, mbind, M_bind.
  rewrite find_domain_eq, Hf, save_domains_eq.
  rewrite bool_decide_eq_false_2 by done. reflexivity.
Qed.

End UpdateStatus.

Section UpdateStatusExamples.
#[local] Existing Instance RefLib.lib.
Import DomainManager.

Lemma update_status_active_witness :
  let d := entity "https://b.example" "error" 4 2 in
  lookup_url two_domains "b.example" = Some (1, d)
  ∧ ∃ success self' w' d',
      update_domain_status two_domains "b.example" true None example_world
        = ((success, self'), w')
      ∧ domains self' !! 1 = Some d'
      ∧ DomainInfo.error_count d' = 0%Z
      ∧ DomainInfo.status d' = "active"
      ∧ DomainInfo.last_check d'
        = Some (iso_clock example_world (1 + iso_ticks example_world))
      ∧ DomainInfo.check_count d' = (DomainInfo.check_count d + 1)%Z
      ∧ DomainInfo.url d' = DomainInfo.url d
      ∧ DomainInfo.added_time d' = DomainInfo.added_time d.
Proof.
  split; [vm_compute; reflexivity|].
  apply (update_status_active two_domains "b.example" None example_world 1
           (entity "https://b.example" "error" 4 2)).
  vm_compute. reflexivity.
Defined.

Lemma update_status_inactive_witness :
  let d := entity "https://a.example" "active" 3 0 in
  lookup_url two_domains "a.example" = Some (0, d)
  ∧ ∃ success self' w' d',
      update_domain_status two_domains "a.example" false (Some "timeout")
        example_world = ((success, self'), w')
      ∧ domains self' !! 0 = Some d'
      ∧ DomainInfo.error_count d' = (DomainInfo.error_count d + 1)%Z
      ∧ DomainInfo.status d'
        = (if DomainInfo.msg_given (Some "timeout") then "error" else "inactive")
      ∧ DomainInfo.check_count d' = (DomainInfo.check_count d + 1)%Z
      ∧ (∀ j, j ≠ 0 → domains self' !! j = domains two_domains !! j)
      ∧ length (domains self') = length (domains two_domains).
Proof.
  split; [vm_compute; reflexivity|].
  apply (update_status_inactive two_domains "a.example" (Some "timeout")
           example_world 0 (entity "https://a.example" "active" 3 0)).
  vm_compute. reflexivity.
Defined.

(** C3, on the code.  The store holds [a] then [b]; [a] is removed while
    the domains file cannot be written.  [remove_domain] returns [False]
    and the store holds [b] then [a]: the entity is back, at the end. *)
Theorem remove_domain_rollback_order :
  (remove_domain two_domains "a.example" readonly_world).1
  = (false,
     {| domains := [ entity "https://b.example" "error" 4 2;
                     entity "https://a.example" "active" 3 0 ];
        max_domains := 10 |})
  ∧ domains (remove_domain two_domains "a.example" readonly_world).1.2
    ≠ domains two_domains.
Proof. split; [vm_compute; reflexivity | vm_compute; discriminate]. Qed.

End UpdateStatusExamples.

(** ** Loading, export and import *)

Section Load.
Context `{PyLib}.

Lemma data_load_domains_empty (w : World) :
  no_domains_data w → DataManager.load_domains w = (JArr [], w).
Proof.
  unfold no_domains_data, DataManager.load_domains, mbind, M_bind,
    path_exists, read_text, DataManager.domains_file, mret, M_ret.
  destruct (files w !! Config.DOMAINS_FILE) as [[text|]|] eqn:E;
    cbn; rewrite ?E; try done.
  by intros ->.
Qed.

Lemma initialize_default_domains_eq (self : DomainManager.t) (w : World) :
  ∃ w',
    DomainManager._initialize_default_domains self w
    = (DomainManager.set_domains
         (DomainManager.domains self ++
            [ fresh "https://www.k8w4w.com" (iso_clock w (iso_ticks w));
              fresh "https://www.z6r0j.com" (iso_clock w (1 + iso_ticks w)) ])
         self, w').
Proof.
  unfold DomainManager._initialize_default_domains.
  cbn. unfold mbind, M_bind, mret, M_ret, now_isoformat. cbn.
  unfold DomainManager.set_domains. cbn. rewrite <- app_assoc. cbn.
  match goal with |- context [DomainManager.save_domains ?s ?w1] =>
    destruct (DomainManager.save_domains s w1) as [b w'] end.
  by eexists.
Qed.

(** C2, as the code has it.  When the domains file is missing or does not
    parse, [DataManager.load_domains] returns the empty list without
    raising and leaves the world as it is; [DomainManager.load_domains]
    then returns [True] with the two default domains appended to the
    store, which is therefore not empty. *)
Theorem load_domains_without_data (self : DomainManager.t) (w : World) :
  no_domains_data w →
  DataManager.load_domains w = (JArr [], w)
  ∧ ∃ w',
      DomainManager.load_domains self w
      = (Returns
           (true,
            DomainManager.set_domains
              (DomainManager.domains self ++
                 [ fresh "https://www.k8w4w.com" (iso_clock w (iso_ticks w));
                   fresh "https://www.z6r0j.com"
                     (iso_clock w (1 + iso_ticks w)) ])
              self), w').
Proof.
  intros Hw. pose proof (data_load_domains_empty w Hw) as Hload.
  split; [done|].
  unfold DomainManager.load_domains, mbind, M_bind. rewrite Hload. simpl.
  destruct (initialize_default_domains_eq self w) as [w' ->].
  by eexists.
Qed.

(** [Config] has no attribute [APP_VERSION]. *)
Lemma getattr_app_version : Config.getattr "APP_VERSION" = Raises.
Proof. vm_compute. reflexivity. Qed.

(** [export_domains] returns [False] and writes no file, whatever the
    store, the path and the world. *)
Lemma export_domains_fails (self : DomainManager.t) (file_path : string)
    (w : World) :
  DomainManager.export_domains self file_path w = (Returns false, tick w).
Proof.
  unfold DomainManager.export_domains, mbind, M_bind.
  by rewrite getattr_app_version.
Qed.

Lemma import_domains_missing (self : DomainManager.t) (file_path : string)
    (w : World) :
  files w !! file_path = None →
  DomainManager.import_domains self file_path w
  = (Returns ((false, DomainManager.ImportFailed), self), w).
Proof.
  intros Hnone. unfold DomainManager.import_domains, mbind, M_bind, read_text.
  by rewrite Hnone.
Qed.

End Load.

Section LoadExamples.
#[local] Existing Instance RefLib.lib.

Lemma load_domains_without_data_witness :
  no_domains_data corrupt_world
  ∧ DataManager.load_domains corrupt_world = (JArr [], corrupt_world)
  ∧ ∃ w',
      DomainManager.load_domains empty_store corrupt_world
      = (Returns
           (true,
            DomainManager.set_domains
              (DomainManager.domains empty_store ++
                 [ fresh "https://www.k8w4w.com"
                     (iso_clock corrupt_world (iso_ticks corrupt_world));
                   fresh "https://www.z6r0j.com"
                     (iso_clock corrupt_world (1 + iso_ticks corrupt_world)) ])
              empty_store), w').
Proof.
  split; [vm_compute; reflexivity|].
  apply (load_domains_without_data empty_store corrupt_world).
  vm_compute. reflexivity.
Defined.

(** C2, counterexample.  The domains file holds [{not json], which does
    not parse; the store of the new [DomainManager] holds two entities. *)
Lemma load_corrupt_file_not_empty :
  json_loads (DataManager.remove_bom (str_strip "{not json")) = None
  ∧ (DomainManager.init corrupt_world).1
    = Returns
        (true,
         {| DomainManager.domains :=
              [ fresh "https://www.k8w4w.com" "2024-01-01T00:00:00";
                fresh "https://www.z6r0j.com" "2024-01-01T00:00:01" ];
            DomainManager.max_domains := 10 |})
  ∧ ∀ self, (DomainManager.init corrupt_world).1 = Returns (true, self) →
            DomainManager.domains self ≠ [].
Proof.
  assert ((DomainManager.init corrupt_world).1
          = Returns
              (true,
               {| DomainManager.domains :=
                    [ fresh "https://www.k8w4w.com" "2024-01-01T00:00:00";
                      fresh "https://www.z6r0j.com" "2024-01-01T00:00:01" ];
                  DomainManager.max_domains := 10 |})) as Hinit
    by (vm_compute; reflexivity).
  split; [vm_compute; reflexivity|]. split; [exact Hinit|].
  intros self Hself. rewrite Hinit in Hself. by injection Hself as <-.
Qed.

(** C1, on the code.  A store with two entities is exported to a path that
    does not exist: [export_domains] returns [False] and the path still
    does not exist; importing it into an empty store fails and leaves the
    store empty. *)
Theorem export_then_import_loses_domains :
  let exported :=
    DomainManager.export_domains two_domains "backup.json" example_world in
  exported.1 = Returns false
  ∧ files exported.2 !! "backup.json" = None
  ∧ (DomainManager.import_domains empty_store "backup.json" exported.2).1
    = Returns ((false, DomainManager.ImportFailed), empty_store).
Proof.
  intros exported. subst exported. rewrite export_domains_fails.
  split; [done|]. split; [done|].
  by rewrite import_domains_missing.
Qed.

End LoadExamples.

(** ** NetworkChecker *)

Section Cache.
Import NetworkChecker.

(** A call that finds a fresh entry returns its boolean and sends nothing. *)
Lemma check_domain_simple_hit (self : t) (u : string) (w : World) (b : bool)
    (ts : Z) :
  check_cache self !! u = Some (b, ts) →
  (unix_clock w (unix_ticks w) - ts < cache_duration self)%Z →
  check_domain_simple self u w
  = ((b, "缓存结果", None), self, set_unix_ticks (S (unix_ticks w)) w).
Proof.
  intros Hc Ht.
  unfold check_domain_simple, _get_cached_result, _is_cache_valid,
    mbind, M_bind, mret, M_ret, time_time.
  rewrite Hc. cbn. rewrite bool_decide_eq_true_2 by done. reflexivity.
Qed.

(** A call that finds no fresh entry sends one HEAD request and caches the
    boolean of its outcome. *)
Lemma check_domain_simple_miss (self : t) (u : string) (w : World) :
  ¬ cache_fresh self u w →
  ∃ msg final ts w1,
    check_domain_simple self u w
    = ((outcome_bool (network w (length (requests w)) u), msg, final),
       set_check_cache
         (<[u := (outcome_bool (network w (length (requests w)) u), ts)]>
            (check_cache self)) self, w1)
    ∧ requests w1 = (requests w ++ [u])%list.
Proof.
  intros Hstale.
  unfold check_domain_simple, _get_cached_result, _is_cache_valid,
    mbind, M_bind, mret, M_ret, time_time, session_head, _cache_result.
  destruct (check_cache self !! u) as [[b0 ts0]|] eqn:Hc; cbn.
  - rewrite bool_decide_eq_false_2
      by (intros Ht; apply Hstale; by exists b0, ts0).
    cbn. destruct (network w (length (requests w)) u);
      unfold mbind, M_bind, mret, M_ret, time_time; cbn;
      by eexists _, _, _, _.
  - destruct (network w (length (requests w)) u);
      unfold mbind, M_bind, mret, M_ret, time_time; cbn;
      by eexists _, _, _, _.
Qed.

Lemma cache_fresh_dec (self : t) (u : string) (w : World) :
  cache_fresh self u w ∨ ¬ cache_fresh self u w.
Proof.
  unfold cache_fresh.
  destruct (check_cache self !! u) as [[b ts]|]; [|right; by intros (?&?&?&?)].
  destruct (decide (unix_clock w (unix_ticks w) - ts < cache_duration self)%Z).
  - left. by exists b, ts.
  - right. intros (b' & ts' & [= <- <-] & ?). done.
Qed.

(** The time stamp a probe caches: the clock is read once before it when
    the URL has a stale entry, and not at all when it has none. *)
Lemma check_domain_simple_probe (self : t) (u : string) (w : World) :
  ¬ cache_fresh self u w →
  ∃ b msg final w1,
    check_domain_simple self u w
    = ((b, msg, final),
       set_check_cache
         (<[u := (b, unix_clock w
                       match check_cache self !! u with
                       | Some _ => S (unix_ticks w)
                       | None => unix_ticks w
                       end)]> (check_cache self)) self, w1)
    ∧ requests w1 = (requests w ++ [u])%list
    ∧ match network w (length (requests w)) u with
      | Response status_code _ _ => b = bool_decide (status_code < 400)%Z
      | Timeout | ConnectionError | RequestException _ | OtherException _ =>
          b = false
      end.
Proof.
  intros Hstale.
  unfold check_domain_simple, _get_cached_result, _is_cache_valid,
    mbind, M_bind, mret, M_ret, time_time, session_head, _cache_result.
  destruct (check_cache self !! u) as [[b0 ts0]|] eqn:Hc; cbn.
  - rewrite bool_decide_eq_false_2
      by (intros Ht; apply Hstale; by exists b0, ts0).
    cbn. destruct (network w (length (requests w)) u);
      unfold mbind, M_bind, mret, M_ret, time_time; cbn;
      by eexists _, _, _, _.
  - destruct (network w (length (requests w)) u);
      unfold mbind, M_bind, mret, M_ret, time_time; cbn;
      by eexists _, _, _, _.
Qed.

(** C8. After every call of [check_domain_simple] the cache holds, for the
    URL, the boolean the call returned.  A call that finds no fresh entry
    sends exactly one HEAD request, for the URL, and caches its outcome
    with the clock reading taken after it: [status_code < 400] for a
    response, [False] for a timeout, a connection error and any other
    exception; nothing else in the cache changes.  A call that finds a
    fresh entry returns its boolean, sends nothing and leaves the cache as
    it is.  A second call whose clock reading is less than
    [cache_duration] after the time stamp of the entry returns the cached
    boolean and sends nothing, so the two calls send at most one request. *)
Theorem check_domain_simple_cached (self : t) (u : string) (w : World) :
  ∃ b msg final self1 w1 ts,
    check_domain_simple self u w = ((b, msg, final), self1, w1)
    ∧ check_cache self1 !! u = Some (b, ts)
    ∧ cache_duration self1 = cache_duration self
    ∧ (requests w1 = requests w
       ∨ requests w1 = (requests w ++ [u])%list
         ∧ b = outcome_bool (network w (length (requests w)) u))
    ∧ (cache_fresh self u w →
       check_cache self !! u = Some (b, ts) ∧ self1 = self
       ∧ requests w1 = requests w)
    ∧ (¬ cache_fresh self u w →
       requests w1 = (requests w ++ [u])%list
       ∧ check_cache self1 = <[u := (b, ts)]> (check_cache self)
       ∧ ts = unix_clock w match check_cache self !! u with
                           | Some _ => S (unix_ticks w)
                           | None => unix_ticks w
                           end
       ∧ match network w (length (requests w)) u with
         | Response status_code _ _ => b = bool_decide (status_code < 400)%Z
         | Timeout | ConnectionError | RequestException _ | OtherException _ =>
             b = false
         end)
    ∧ ∀ w2,
        (unix_clock w2 (unix_ticks w2) - ts < cache_duration self1)%Z →
        ∃ w2',
          check_domain_simple self1 u w2 = ((b, "缓存结果", None), self1, w2')
          ∧ requests w2' = requests w2
          ∧ length (requests w1) + length (requests w2')
            ≤ length (requests w) + length (requests w2) + 1.
Proof.
  destruct (cache_fresh_dec self u w) as [Hfresh | Hstale].
  - destruct Hfresh as (b & ts & Hc & Ht).
    exists b, "缓存结果", None, self, (set_unix_ticks (S (unix_ticks w)) w), ts.
    split; [exact (check_domain_simple_hit self u w b ts Hc Ht)|].
    split; [done|]. split; [done|]. split; [by left|].
    split; [done|]. split.
    { intros Hstale. destruct Hstale. by exists b, ts. }
    intros w2 Ht2. rewrite (check_domain_simple_hit self u w2 b ts Hc Ht2).
    eexists. split; [reflexivity|]. split; [done|]. simpl. lia.
  - destruct (check_domain_simple_probe self u w Hstale)
      as (b & msg & final & w1 & Hrun & Hreq & Hb).
    eexists b, msg, final, _, w1, _. split; [exact Hrun|].
    split; [apply lookup_insert_eq|]. split; [done|].
    split.
    { right. split; [done|]. unfold outcome_bool.
      by destruct (network w (length (requests w)) u). }
    split; [done|]. split; [done|].
    intros w2 Ht2.
    rewrite (check_domain_simple_hit _ u w2 b _ (lookup_insert_eq _ _ _) Ht2).
    eexists. split; [reflexivity|]. split; [done|]. simpl.
    rewrite Hreq, length_app. simpl. lia.
Qed.

Lemma check_domain_simple_cached_witness :
  let w2 := set_requests ["https://a.example"]
              (set_unix_ticks 1 example_world) in
  (unix_clock w2 (unix_ticks w2) - 1700000000 < 300)%Z
  ∧ ¬ cache_fresh init "https://a.example" example_world
  ∧ ∃ b msg final self1 w1 ts,
      check_domain_simple init "https://a.example" example_world
        = ((b, msg, final), self1, w1)
      ∧ check_cache self1 !! "https://a.example" = Some (b, ts)
      ∧ cache_duration self1 = cache_duration init
      ∧ (requests w1 = requests example_world
         ∨ requests w1 = (requests example_world ++ ["https://a.example"])%list
           ∧ b = outcome_bool
                   (network example_world (length (requests example_world))
                      "https://a.example"))
      ∧ (cache_fresh init "https://a.example" example_world →
         check_cache init !! "https://a.example" = Some (b, ts) ∧ self1 = init
         ∧ requests w1 = requests example_world)
      ∧ (¬ cache_fresh init "https://a.example" example_world →
         requests w1 = (requests example_world ++ ["https://a.example"])%list
         ∧ check_cache self1
           = <["https://a.example" := (b, ts)]> (check_cache init)
         ∧ ts = unix_clock example_world
                  match check_cache init !! "https://a.example" with
                  | Some _ => S (unix_ticks example_world)
                  | None => unix_ticks example_world
                  end
         ∧ match network example_world (length (requests example_world))
                   "https://a.example" with
           | Response status_code _ _ => b = bool_decide (status_code < 400)%Z
           | Timeout | ConnectionError | RequestException _ | OtherException _ =>
               b = false
           end)
      ∧ ∀ w2,
          (unix_clock w2 (unix_ticks w2) - ts < cache_duration self1)%Z →
          ∃ w2',
            check_domain_simple self1 "https://a.example" w2
              = ((b, "缓存结果", None), self1, w2')
            ∧ requests w2' = requests w2
            ∧ length (requests w1) + length (requests w2')
              ≤ length (requests example_world) + length (requests w2) + 1.
Proof.
  split; [vm_compute; reflexivity|].
  split; [by intros (b & ts & Hc & _)|].
  apply (check_domain_simple_cached init "https://a.example" example_world).
Defined.

(** Two calls in a row on an empty cache: one request, the second answer
    comes from the cache. *)
Example check_twice :
  let '(r1, self1, w1) :=
    check_domain_simple init "https://a.example" example_world in
  let '(r2, self2, w2) := check_domain_simple self1 "https://a.example" w1 in
  r1 = (true, "HTTP 200", Some "https://a.example")
  ∧ r2 = (true, "缓存结果", None)
  ∧ requests w2 = ["https://a.example"].
Proof. vm_compute. done. Qed.

End Cache.

(** ** More on DomainInfo *)

(** What [to_dict] writes, [from_dict] reads back: an entity whose URL is
    in normal form and whose [added_time] is not empty is rebuilt as it
    was, without reading the clock. *)
Theorem from_dict_to_dict (d : DomainInfo.t) (w : World) :
  DomainInfo._normalize_url (DomainInfo.url d) = DomainInfo.url d →
  DomainInfo.added_time d ≠ EmptyString →
  DomainInfo.from_dict (DomainInfo.to_dict d) w = (Returns d, w).
Proof.
  intros Hu Ha. destruct d as [u a l s c e]. simpl in Hu, Ha.
  unfold DomainInfo.to_dict, DomainInfo.from_dict. cbn.
  unfold DomainInfo.init, mbind, M_bind, mret, M_ret.
  rewrite (falsy_false a Ha). destruct l; cbn; by rewrite Hu.
Qed.

Lemma from_dict_to_dict_witness :
  DomainInfo.from_dict
    (DomainInfo.to_dict (entity "https://b.example" "error" 4 2)) example_world
  = (Returns (entity "https://b.example" "error" 4 2), example_world).
Proof.
  apply (from_dict_to_dict (entity "https://b.example" "error" 4 2)
           example_world); [reflexivity | discriminate].
Defined.

(** Normalizing is idempotent on every text that is not made of slashes
    only; a non-empty run of slashes becomes ["https://"], which a second
    pass turns into ["https://https:"]. *)
Theorem normalize_url_twice (u : string) :
  (u = EmptyString ∨ Py.rstrip_slash u ≠ EmptyString →
   DomainInfo._normalize_url (DomainInfo._normalize_url u)
   = DomainInfo._normalize_url u)
  ∧ (u ≠ EmptyString → Py.rstrip_slash u = EmptyString →
     DomainInfo._normalize_url u = "https://"
     ∧ DomainInfo._normalize_url (DomainInfo._normalize_url u)
       = "https://https:").
Proof.
  split; [apply normalize_url_idemp|].
  intros Hu Hr. rewrite (normalize_slashes u Hu Hr). by split.
Qed.

Lemma normalize_url_twice_witness :
  DomainInfo._normalize_url (DomainInfo._normalize_url "a.example//")
  = DomainInfo._normalize_url "a.example//"
  ∧ DomainInfo._normalize_url "//" = "https://"
  ∧ DomainInfo._normalize_url (DomainInfo._normalize_url "//")
    = "https://https:".
Proof.
  split.
  - apply (proj1 (normalize_url_twice "a.example//")). right. discriminate.
  - apply (proj2 (normalize_url_twice "//")); [discriminate | reflexivity].
Defined.

Lemma apply_checks_app (xs ys : list (bool * option string))
    (d : DomainInfo.t) (w : World) :
  apply_checks (xs ++ ys) d w
  = apply_checks ys (apply_checks xs d w).1 (apply_checks xs d w).2.
Proof.
  revert d w. induction xs as [|[a m] xs IH]; intros d w; [done|].
  simpl. unfold mbind, M_bind.
  destruct (DomainInfo.update_check_result d a m w) as [d' w']. apply IH.
Qed.

Lemma apply_checks_check_count (outcomes : list (bool * option string))
    (d : DomainInfo.t) (w : World) :
  DomainInfo.check_count (apply_checks outcomes d w).1
  = (DomainInfo.check_count d + Z.of_nat (length outcomes))%Z.
Proof.
  revert d w. induction outcomes as [|[a m] rest IH]; intros d w; simpl.
  - lia.
  - unfold mbind, M_bind.
    pose proof (update_check_result_counters d a m w) as [Hc _].
    destruct (DomainInfo.update_check_result d a m w) as [d' w'].
    simpl in Hc. rewrite IH, Hc. lia.
Qed.

Lemma apply_checks_failures (fails : list (bool * option string))
    (d : DomainInfo.t) (w : World) :
  Forall (λ o, o.1 = false) fails →
  DomainInfo.error_count (apply_checks fails d w).1
  = (DomainInfo.error_count d + Z.of_nat (length fails))%Z.
Proof.
  intros Hf. revert d w.
  induction Hf as [|[a m] rest Ha _ IH]; intros d w; simpl.
  - lia.
  - simpl in Ha. subst a. unfold mbind, M_bind.
    pose proof (update_check_result_counters d false m w) as [_ He].
    destruct (DomainInfo.update_check_result d false m w) as [d' w'].
    simpl in He. rewrite IH, He. lia.
Qed.

(** [error_count] counts the failed checks since the last successful one:
    after any checks, one success and then [n] failures it is [n]; with no
    success at all it has grown by the number of checks.  [check_count]
    grows by one per check. *)
Theorem error_count_consecutive (before fails : list (bool * option string))
    (msg : option string) (d : DomainInfo.t) (w : World) :
  Forall (λ o, o.1 = false) fails →
  DomainInfo.error_count
    (apply_checks (before ++ (true, msg) :: fails) d w).1
  = Z.of_nat (length fails)
  ∧ DomainInfo.error_count (apply_checks fails d w).1
    = (DomainInfo.error_count d + Z.of_nat (length fails))%Z
  ∧ DomainInfo.check_count
      (apply_checks (before ++ (true, msg) :: fails) d w).1
    = (DomainInfo.check_count d
       + Z.of_nat (length before + 1 + length fails))%Z.
Proof.
  intros Hf. split; [|split].
  - rewrite apply_checks_app.
    destruct (apply_checks before d w) as [d1 w1]. simpl.
    unfold mbind, M_bind.
    pose proof (update_check_result_counters d1 true msg w1) as [_ He].
    destruct (DomainInfo.update_check_result d1 true msg w1) as [d2 w2].
    simpl in He. rewrite (apply_checks_failures fails d2 w2 Hf), He. lia.
  - by apply apply_checks_failures.
  - rewrite apply_checks_check_count, length_app. simpl. lia.
Qed.

Lemma error_count_consecutive_witness :
  DomainInfo.error_count
    (apply_checks
       ([(false, None)] ++ (true, None) :: [(false, Some "timeout"); (false, None)])
       (entity "https://b.example" "error" 4 2) example_world).1
  = Z.of_nat (length [(false, Some "timeout"); (false, @None string)]).
Proof.
  apply (error_count_consecutive [(false, None)]
           [(false, Some "timeout"); (false, None)] None
           (entity "https://b.example" "error" 4 2) example_world).
  repeat constructor.
Defined.

(** ** More on the store *)

Section StoreOperations.
Context `{PyLib}.
Import DomainManager.

(** After an accepted [add_domain(u)], [find_domain(u)] returns the entity
    at index 0, its URL is the normalized [u], and it is the current
    domain. *)
Theorem add_then_find (self : t) (u : string) (w : World) :
  valid self u w = true → 0 < max_domains self →
  ∃ d,
    (∀ w2, (find_domain (add_domain self u w).1.2 u w2).1 = Some (0, d))
    ∧ DomainInfo.url d = DomainInfo._normalize_url u
    ∧ get_current_domain (add_domain self u w).1.2 = Some d.
Proof.
  intros Hv Hmax.
  destruct (add_domain_valid self u w Hv) as (msg & self' & w' & -> & Hd & Hm).
  destruct (to_front_cons self u (iso_clock w (1 + iso_ticks w))
              (iso_clock w (3 + iso_ticks w))) as (d' & rest & Hfront & Hu & _).
  rewrite Hfront in Hd. destruct (max_domains self) as [|n]; [lia|].
  simpl in Hd. exists d'. cbn [fst snd]. split; [|split; [done|]].
  - intros w2. rewrite find_domain_eq. cbn [fst]. unfold lookup_url. rewrite Hd.
    apply list_find_Some. split; [done|]. split; [done|]. intros j y _ Hj. lia.
  - unfold get_current_domain. by rewrite Hd.
Qed.

(** [add_domain] keeps the URLs of the store pairwise distinct. *)
Theorem add_domain_unique_urls (self : t) (u : string) (w : World) :
  NoDup (map DomainInfo.url (domains self)) →
  NoDup (map DomainInfo.url (domains (add_domain self u w).1.2)).
Proof.
  intros Hnd. destruct (valid self u w) eqn:Hv.
  - destruct (add_domain_valid self u w Hv) as (msg & self' & w' & -> & Hd & Hm).
    simpl. rewrite Hd.
    change (map DomainInfo.url) with (fmap (M:=list) DomainInfo.url).
    rewrite fmap_take. eapply sublist_NoDup; [|apply sublist_take].
    unfold to_front. destruct (lookup_url self u) as [[i d]|] eqn:Hf.
    + apply lookup_url_Some in Hf as (Hi & Hu & Hlt).
      assert (NoDup (DomainInfo.url <$> (d :: delete i (domains self)))) as Hnd'
        by (by rewrite <- (delete_Permutation (domains self) i d Hi)).
      exact Hnd'.
    + rewrite fmap_cons. apply NoDup_cons. split; [|done].
      unfold lookup_url in Hf. apply list_find_None in Hf.
      intros Hin. apply list_elem_of_fmap in Hin as (y & Hy & Hin).
      rewrite Forall_forall in Hf. apply (Hf y Hin). by rewrite <- Hy.
  - destruct (add_domain_invalid self u w Hv) as (msg & w' & ->). done.
Qed.

(** [remove_domain] on a URL the store does not hold returns [False],
    leaves the store as it is and writes nothing. *)
Theorem remove_domain_absent (self : t) (u : string) (w : World) :
  lookup_url self u = None →
  remove_domain self u w = ((false, self), tick w)
  ∧ files (tick w) = files w.
Proof.
  intros Hf. unfold remove_domain, mbind, M_bind.
  by rewrite find_domain_eq, Hf.
Qed.

(** A [remove_domain] that can save takes out the first entity with the
    URL and nothing else, and the domains file then holds the store as it
    is after the removal; when the URLs of the store are pairwise distinct
    the URL is no longer found. *)
Theorem remove_domain_removes (self : t) (u : string) (w : World) (i : nat)
    (d : DomainInfo.t) :
  lookup_url self u = Some (i, d) → ¬ save_fails w →
  ∃ self' w',
    remove_domain self u w = ((true, self'), w')
    ∧ domains self' = delete i (domains self)
    ∧ files w' !! Config.DOMAINS_FILE
      = Some (Utf8 (json_dumps (JArr (dicts self'))))
    ∧ (NoDup (map DomainInfo.url (domains self)) → lookup_url self' u = None).
Proof.
  intros Hf Hs. unfold remove_domain, mbind, M_bind.
  rewrite find_domain_eq, Hf, save_domains_eq.
  rewrite bool_decide_eq_false_2 by done.
  eexists _, _. split; [reflexivity|]. split; [done|]. split.
  - simpl. apply lookup_insert_eq.
  - intros Hnd. apply lookup_url_Some in Hf as (Hi & Hu & Hlt).
    unfold lookup_url. simpl. apply list_find_None, Forall_forall.
    intros y Hy Hyu.
    pose proof (delete_Permutation (domains self) i d Hi) as Hp.
    assert (NoDup (DomainInfo.url <$> (d :: delete i (domains self)))) as Hnd'
      by (by rewrite <- Hp).
    rewrite fmap_cons in Hnd'. apply NoDup_cons in Hnd' as [Hnotin _].
    apply Hnotin. rewrite Hu, <- Hyu. by apply list_elem_of_fmap_2.
Qed.

End StoreOperations.

Section StoreOperationsExamples.
#[local] Existing Instance RefLib.lib.
Import DomainManager.

Lemma add_then_find_witness :
  ∃ d,
    (∀ w2, (find_domain (add_domain two_domains "new.example/" example_world).1.2
              "new.example/" w2).1 = Some (0, d))
    ∧ DomainInfo.url d = DomainInfo._normalize_url "new.example/"
    ∧ get_current_domain (add_domain two_domains "new.example/" example_world).1.2
      = Some d.
Proof.
  apply (add_then_find two_domains "new.example/" example_world).
  - vm_compute. reflexivity.
  - vm_compute. lia.
Defined.

Lemma add_domain_unique_urls_witness :
  NoDup (map DomainInfo.url
           (domains (add_domain two_domains "b.example" example_world).1.2)).
Proof.
  apply (add_domain_unique_urls two_domains "b.example" example_world).
  apply (bool_decide_unpack _). vm_compute. exact I.
Defined.

Lemma remove_domain_absent_witness :
  remove_domain two_domains "c.example" example_world
  = ((false, two_domains), tick example_world)
  ∧ files (tick example_world) = files example_world.
Proof.
  apply (remove_domain_absent two_domains "c.example" example_world).
  vm_compute. reflexivity.
Defined.

Lemma remove_domain_removes_witness :
  ∃ self' w',
    remove_domain two_domains "a.example" example_world = ((true, self'), w')
    ∧ domains self' = delete 0 (domains two_domains)
    ∧ files w' !! Config.DOMAINS_FILE
      = Some (Utf8 (json_dumps (JArr (dicts self'))))
    ∧ (NoDup (map DomainInfo.url (domains two_domains)) →
       lookup_url self' "a.example" = None).
Proof.
  apply (remove_domain_removes two_domains "a.example" example_world 0
           (entity "https://a.example" "active" 3 0)).
  - vm_compute. reflexivity.
  - vm_compute. set_solver.
Defined.

End StoreOperationsExamples.

Section Cleanup.
Context `{PyLib}.
Import DomainManager.

Lemma filter_all {A : Type} (P : A → Prop) `{!∀ x, Decision (P x)}
    (l : list A) :
  Forall P l → filter P l = l.
Proof.
  induction 1 as [|x l Hx _ IH]; [done|].
  by rewrite filter_cons, decide_True, IH.
Qed.

Lemma filter_none {A : Type} (P : A → Prop) `{!∀ x, Decision (P x)}
    (l : list A) :
  filter P l = [] → Forall (λ x, ¬ P x) l.
Proof.
  induction l as [|x l IH]; [done|]. rewrite filter_cons.
  destruct (decide (P x)); [done|]. intros Hl. constructor; auto.
Qed.

Lemma length_filter_split {A : Type} (P : A → Prop) `{!∀ x, Decision (P x)}
    (l : list A) :
  length (filter P l) + length (filter (λ x, ¬ P x) l) = length l.
Proof.
  induction l as [|x l IH]; [done|]. rewrite !filter_cons.
  destruct (decide (P x)); [rewrite decide_False by tauto
                           | rewrite decide_True by done]; simpl; lia.
Qed.

Lemma cleanup_invalid_domains_fst (self : t) (max_error_count : Z) (w : World) :
  (cleanup_invalid_domains self max_error_count w).1
  = (map DomainInfo.url
       (filter (λ d, (max_error_count ≤ DomainInfo.error_count d)%Z)
          (domains self)),
     set_domains
       (filter (λ d, ¬ (max_error_count ≤ DomainInfo.error_count d)%Z)
          (domains self)) self).
Proof.
  unfold cleanup_invalid_domains.
  destruct (map DomainInfo.url _) as [|x removed]; [done|].
  unfold mbind, M_bind. by destruct (save_domains _ w).
Qed.

(** [cleanup_invalid_domains(m)] keeps, in their order, exactly the
    entities with [error_count < m] and returns the URLs of the others in
    store order; no entity is added or changed.  When nothing is removed
    the store is as before and nothing is written. *)
Theorem cleanup_invalid_domains_spec (self : t) (max_error_count : Z)
    (w : World) :
  ∃ removed self' w',
    cleanup_invalid_domains self max_error_count w = ((removed, self'), w')
    ∧ (∀ d, d ∈ domains self' ↔
            d ∈ domains self ∧ (DomainInfo.error_count d < max_error_count)%Z)
    ∧ domains self' `sublist_of` domains self
    ∧ removed
      = map DomainInfo.url
          (filter (λ d, (max_error_count ≤ DomainInfo.error_count d)%Z)
             (domains self))
    ∧ length removed + length (domains self') = length (domains self)
    ∧ max_domains self' = max_domains self
    ∧ (removed = [] → self' = self ∧ w' = w).
Proof.
  unfold cleanup_invalid_domains.
  set (gone := filter (λ d, (max_error_count ≤ DomainInfo.error_count d)%Z)
                 (domains self)).
  set (kept := filter (λ d, ¬ (max_error_count ≤ DomainInfo.error_count d)%Z)
                 (domains self)).
  assert (∀ d, d ∈ kept ↔
               d ∈ domains self ∧ (DomainInfo.error_count d < max_error_count)%Z)
    as Hkept.
  { intros d. unfold kept. rewrite list_elem_of_filter. split.
    - intros [Hd Hin]. split; [done | lia].
    - intros [Hin Hd]. split; [lia | done]. }
  assert (length (map DomainInfo.url gone) + length kept = length (domains self))
    as Hlen.
  { rewrite length_map. apply length_filter_split. }
  destruct (map DomainInfo.url gone) as [|x removed] eqn:Hgone.
  - exists [], (set_domains kept self), w. unfold mret, M_ret.
    split; [done|]. split; [done|]. split; [apply sublist_filter|].
    split; [done|]. split; [done|]. split; [done|]. intros _.
    split; [|done]. unfold set_domains. destruct self as [ds m]. simpl in *.
    f_equal. unfold kept. apply filter_all.
    destruct gone eqn:Hg; [|done]. unfold gone in Hg.
    apply filter_none in Hg. done.
  - unfold mbind, M_bind.
    destruct (save_domains (set_domains kept self) w) as [b w'].
    exists (x :: removed), (set_domains kept self), w'. unfold mret, M_ret.
    split; [done|]. split; [done|]. split; [apply sublist_filter|].
    split; [done|]. split; [done|]. split; [done|]. done.
Qed.

Lemma status_filter_length (l : list DomainInfo.t) :
  length (filter (λ d, DomainInfo.status d = "active") l)
  + length (filter (λ d, DomainInfo.status d = "inactive") l)
  + length (filter (λ d, DomainInfo.status d = "error") l)
  + length (filter (λ d, DomainInfo.status d = "unknown") l)
  + length (filter (λ d, ¬ known_status (DomainInfo.status d)) l)
  = length l.
Proof.
  induction l as [|d l IH]; [done|]. rewrite !filter_cons.
  destruct (decide (DomainInfo.status d = "active")) as [Ha|Ha];
  destruct (decide (DomainInfo.status d = "inactive")) as [Hi|Hi];
  destruct (decide (DomainInfo.status d = "error")) as [He|He];
  destruct (decide (DomainInfo.status d = "unknown")) as [Hu|Hu];
  destruct (decide (¬ known_status (DomainInfo.status d))) as [Hk|Hk];
  try congruence;
  try (exfalso; unfold known_status in Hk; tauto);
  simpl; lia.
Qed.

(** In [get_domain_statistics] the four status counts never add up to more
    than [total], and they add up to [total] exactly when every entity has
    one of the four statuses; [from_dict] and a changed domains file can
    bring in others. *)
Theorem statistics_total (self : t) :
  let s := get_domain_statistics self in
  active s + inactive s + error s + unknown s ≤ total s
  ∧ (active s + inactive s + error s + unknown s = total s
     ↔ Forall (λ d, known_status (DomainInfo.status d)) (domains self)).
Proof.
  simpl. unfold get_domains_by_status.
  pose proof (status_filter_length (domains self)) as Hsum.
  split; [lia|]. split.
  - intros Heq.
    assert (length (filter (λ d, ¬ known_status (DomainInfo.status d))
                      (domains self)) = 0) as Hz by lia.
    apply length_zero_iff_nil, filter_none in Hz.
    eapply Forall_impl; [exact Hz|]. intros d Hd. simpl in Hd.
    by destruct (decide (known_status (DomainInfo.status d))).
  - intros Hall.
    assert (filter (λ d, ¬ known_status (DomainInfo.status d)) (domains self)
            = []) as Hnil.
    { induction Hall as [|d l Hd _ IH]; [done|].
      rewrite filter_cons, decide_False by tauto. apply IH.
      rewrite <- (status_filter_length l). reflexivity. }
    rewrite Hnil in Hsum. simpl in Hsum. lia.
Qed.

End Cleanup.

Section CleanupExamples.
#[local] Existing Instance RefLib.lib.
Import DomainManager.

Lemma cleanup_invalid_domains_spec_witness :
  ∃ removed self' w',
    cleanup_invalid_domains two_domains 2 example_world = ((removed, self'), w')
    ∧ (∀ d, d ∈ domains self' ↔
            d ∈ domains two_domains ∧ (DomainInfo.error_count d < 2)%Z)
    ∧ domains self' `sublist_of` domains two_domains
    ∧ removed
      = map DomainInfo.url
          (filter (λ d, (2 ≤ DomainInfo.error_count d)%Z) (domains two_domains))
    ∧ length removed + length (domains self') = length (domains two_domains)
    ∧ max_domains self' = max_domains two_domains
    ∧ (removed = [] → self' = two_domains ∧ w' = example_world).
Proof. apply (cleanup_invalid_domains_spec two_domains 2 example_world). Defined.

(** The entity with two errors goes, the other stays. *)
Example cleanup_two_errors :
  (cleanup_invalid_domains two_domains 2 example_world).1
  = ([ "https://b.example" ],
     {| domains := [ entity "https://a.example" "active" 3 0 ];
        max_domains := 10 |}).
Proof. vm_compute. reflexivity. Qed.

Lemma statistics_total_witness :
  let s := get_domain_statistics two_domains in
  active s + inactive s + error s + unknown s ≤ total s
  ∧ (active s + inactive s + error s + unknown s = total s
     ↔ Forall (λ d, known_status (DomainInfo.status d)) (domains two_domains)).
Proof. apply (statistics_total two_domains). Defined.

End CleanupExamples.

(** ** Sorting the store *)

Section SortProperties.
Context `{PyLib}.
Variable timestamp : string → option Z.
Import DomainManager.

Lemma key_le_total (k1 k2 : nat * Z) : key_le k1 k2 = false → key_le k2 k1 = true.
Proof.
  unfold key_le. destruct k1 as [p1 t1], k2 as [p2 t2]. simpl.
  rewrite orb_false_iff, andb_false_iff, orb_true_iff, andb_true_iff.
  rewrite !Nat.ltb_lt, !Nat.ltb_ge, !Nat.eqb_eq, !Nat.eqb_neq,
    Z.leb_le, Z.leb_gt. lia.
Qed.

Lemma key_le_trans (k1 k2 k3 : nat * Z) :
  key_le k1 k2 = true → key_le k2 k3 = true → key_le k1 k3 = true.
Proof.
  unfold key_le. destruct k1 as [p1 t1], k2 as [p2 t2], k3 as [p3 t3]. simpl.
  rewrite !orb_true_iff, !andb_true_iff.
  rewrite !Nat.ltb_lt, !Nat.eqb_eq, !Z.leb_le. lia.
Qed.

Lemma key_le_priority (a b : DomainInfo.t) :
  key_order timestamp a b → priority a ≤ priority b.
Proof.
  unfold key_order, key_le, sort_key. simpl.
  rewrite orb_true_iff, andb_true_iff, Nat.ltb_lt, Nat.eqb_eq. lia.
Qed.

Lemma insert_by_key_perm (x : DomainInfo.t) (l : list DomainInfo.t) :
  insert_by_key timestamp x l ≡ₚ x :: l.
Proof.
  induction l as [|y l IH]; simpl; [done|].
  destruct (key_le _ _); [done|]. by rewrite IH, Permutation_swap.
Qed.

Lemma insert_by_key_sorted (x : DomainInfo.t) (l : list DomainInfo.t) :
  StronglySorted (key_order timestamp) l →
  StronglySorted (key_order timestamp) (insert_by_key timestamp x l).
Proof.
  induction 1 as [|y l Hl IH Hy]; simpl.
  - repeat constructor.
  - destruct (key_le (sort_key timestamp x) (sort_key timestamp y)) eqn:Hxy.
    + constructor; [by constructor|]. constructor; [done|].
      eapply Forall_impl; [exact Hy|]. intros z Hz.
      by eapply key_le_trans.
    + constructor; [done|]. rewrite insert_by_key_perm.
      constructor; [|done]. by apply key_le_total.
Qed.

Lemma insert_by_key_filter (k : nat * Z) (x : DomainInfo.t)
    (l : list DomainInfo.t) :
  filter (λ d, sort_key timestamp d = k) (insert_by_key timestamp x l)
  = filter (λ d, sort_key timestamp d = k) (x :: l).
Proof.
  induction l as [|y l IH]; simpl; [done|].
  destruct (key_le (sort_key timestamp x) (sort_key timestamp y)) eqn:Hxy;
    [done|].
  rewrite (filter_cons _ y), IH, !filter_cons.
  destruct (decide (sort_key timestamp x = k)) as [Hx|Hx];
    destruct (decide (sort_key timestamp y = k)) as [Hy|Hy]; try done.
  exfalso. rewrite <- Hy in Hx. rewrite Hx in Hxy.
  assert (key_le (sort_key timestamp y) (sort_key timestamp y) = true) as Hrefl.
  { destruct (key_le (sort_key timestamp y) (sort_key timestamp y)) eqn:E;
      [done | pose proof (key_le_total _ _ E); congruence]. }
  congruence.
Qed.

Lemma sort_by_key_perm (l : list DomainInfo.t) : sort_by_key timestamp l ≡ₚ l.
Proof.
  induction l as [|x l IH]; simpl; [done|].
  by rewrite insert_by_key_perm, IH.
Qed.

Lemma sort_by_key_sorted (l : list DomainInfo.t) :
  StronglySorted (key_order timestamp) (sort_by_key timestamp l).
Proof.
  induction l as [|x l IH]; simpl; [constructor|].
  by apply insert_by_key_sorted.
Qed.

Lemma sort_by_key_filter (k : nat * Z) (l : list DomainInfo.t) :
  filter (λ d, sort_key timestamp d = k) (sort_by_key timestamp l)
  = filter (λ d, sort_key timestamp d = k) l.
Proof.
  induction l as [|x l IH]; simpl; [done|].
  by rewrite insert_by_key_filter, !filter_cons, IH.
Qed.

Lemma strongly_sorted_lookup {A : Type} (R : A → A → Prop) (l : list A)
    (i j : nat) (a b : A) :
  StronglySorted R l → i < j → l !! i = Some a → l !! j = Some b → R a b.
Proof.
  intros Hl. revert i j. induction Hl as [|x l Hl IH Hx]; intros i j Hij Hi Hj.
  - done.
  - destruct j as [|j]; [lia|]. destruct i as [|i]; simpl in *.
    + injection Hi as <-. rewrite Forall_forall in Hx. apply Hx.
      by eapply list_elem_of_lookup_2.
    + apply (IH i j); [lia | done..].
Qed.

(** [sort_domains_by_priority] loses and adds no entity and leaves the
    store sorted by [sort_key], the pair of the status rank and of minus
    the time stamp of [added_time] (0 when [added_time] does not parse):
    the status ranks never go down along the list (active, unknown,
    inactive, then the rest), within one rank an entity added later comes
    first, and the sort is stable: entities with the same key keep their
    order. *)
Theorem sort_domains_by_priority_spec (self : t) (w : World) :
  let self' := (sort_domains_by_priority timestamp self w).1 in
  domains self' ≡ₚ domains self
  ∧ StronglySorted (key_order timestamp) (domains self')
  ∧ (∀ i j a b, i < j → domains self' !! i = Some a →
                domains self' !! j = Some b → priority a ≤ priority b)
  ∧ (∀ i j a b ta tb,
       i < j → domains self' !! i = Some a → domains self' !! j = Some b →
       priority a = priority b →
       timestamp (DomainInfo.added_time a) = Some ta →
       timestamp (DomainInfo.added_time b) = Some tb → (tb ≤ ta)%Z)
  ∧ (∀ k, filter (λ d, sort_key timestamp d = k) (domains self')
          = filter (λ d, sort_key timestamp d = k) (domains self))
  ∧ max_domains self' = max_domains self.
Proof.
  unfold sort_domains_by_priority, mbind, M_bind, mret, M_ret.
  destruct (save_domains _ w) as [b w']. simpl.
  split; [apply sort_by_key_perm|]. split; [apply sort_by_key_sorted|].
  split; [|split; [|split; [intros k; apply sort_by_key_filter | done]]].
  - intros i j a b' Hij Hi Hj. apply key_le_priority.
    by eapply (strongly_sorted_lookup _ _ i j); [apply sort_by_key_sorted|..].
  - intros i j a b' ta tb Hij Hi Hj Hp Ha Hb.
    assert (key_order timestamp a b') as Hle
      by (by eapply (strongly_sorted_lookup _ _ i j);
            [apply sort_by_key_sorted|..]).
    revert Hle. unfold key_order, key_le, sort_key, time_priority. simpl.
    rewrite Ha, Hb, Hp.
    rewrite orb_true_iff, andb_true_iff, Nat.ltb_lt, Nat.eqb_eq, Z.leb_le. lia.
Qed.

End SortProperties.

Section SortExamples.
#[local] Existing Instance RefLib.lib.
Import DomainManager.

Lemma sort_domains_by_priority_spec_witness :
  let self' :=
    (sort_domains_by_priority example_timestamp unsorted_domains
       example_world).1 in
  map DomainInfo.url (domains self')
  = [ "https://c.example"; "https://a.example"; "https://b.example" ]
  ∧ domains self' ≡ₚ domains unsorted_domains
  ∧ StronglySorted (key_order example_timestamp) (domains self')
  ∧ (∀ i j a b, i < j → domains self' !! i = Some a →
                domains self' !! j = Some b → priority a ≤ priority b)
  ∧ (∀ i j a b ta tb,
       i < j → domains self' !! i = Some a → domains self' !! j = Some b →
       priority a = priority b →
       example_timestamp (DomainInfo.added_time a) = Some ta →
       example_timestamp (DomainInfo.added_time b) = Some tb → (tb ≤ ta)%Z)
  ∧ (∀ k, filter (λ d, sort_key example_timestamp d = k) (domains self')
          = filter (λ d, sort_key example_timestamp d = k)
              (domains unsorted_domains))
  ∧ max_domains self' = max_domains unsorted_domains.
Proof.
  split; [vm_compute; reflexivity|].
  apply (sort_domains_by_priority_spec example_timestamp unsorted_domains
           example_world).
Defined.

(** An error entity in front of an active one: sorting puts the active one
    first. *)
Example sort_active_before_error :
  map DomainInfo.url
    (domains
       (sort_domains_by_priority (λ _, None)
          {| domains := [ entity "https://b.example" "error" 4 2;
                          entity "https://a.example" "active" 3 0 ];
             max_domains := 10 |} example_world).1)
  = [ "https://a.example"; "https://b.example" ].
Proof. vm_compute. reflexivity. Qed.

End SortExamples.

(** ** Import, and saving and loading the store *)

Section ImportAndReload.
Context `{PyLib}.
Import DomainManager.

Lemma from_dict_well_formed (d : DomainInfo.t) (w : World) :
  well_formed d → DomainInfo.from_dict (DomainInfo.to_dict d) w = (Returns d, w).
Proof.
  intros [Hu Ha]. destruct d as [u a l s c e]. simpl in Hu, Ha.
  unfold DomainInfo.to_dict, DomainInfo.from_dict. cbn.
  unfold DomainInfo.init, mbind, M_bind, mret, M_ret.
  rewrite (falsy_false a Ha). destruct l; cbn; by rewrite Hu.
Qed.

Lemma set_domains_app (self : t) (d : DomainInfo.t) (l : list DomainInfo.t) :
  set_domains (domains (set_domains (domains self ++ [d]) self) ++ l)
    (set_domains (domains self ++ [d]) self)
  = set_domains (domains self ++ d :: l) self.
Proof. unfold set_domains. simpl. by rewrite <- app_assoc. Qed.

Lemma set_domains_nil (self : t) : set_domains (domains self ++ []) self = self.
Proof. destruct self. unfold set_domains. simpl. by rewrite app_nil_r. Qed.

Lemma import_loop_reads (items : list json) (self : t) (n : nat) (w : World) :
  match (import_loop items self n w).1 with
  | Returns (self', n') =>
      ∃ read, read_from items read
              ∧ self' = set_domains (domains self ++ imported self read) self
              ∧ n' = n + length (imported self read)
  | Raises => False
  | OutsideModel => True
  end.
Proof.
  revert self n w. induction items as [|item rest IH]; intros self n w.
  - simpl. exists []. split; [constructor|]. simpl.
    by rewrite set_domains_nil, Nat.add_0_r.
  - simpl. unfold mbind, M_bind.
    destruct (DomainInfo.from_dict item w) as [[d| |] w1] eqn:Hd; [| |done].
    + rewrite find_domain_eq.
      destruct (lookup_url self (DomainInfo.url d)) as [[i e]|] eqn:Hfind.
      * specialize (IH self n (tick w1)).
        destruct (import_loop rest self n (tick w1)) as [[[self' n']| |] w2];
          simpl in *; try done.
        destruct IH as (read & Hread & Hs & Hn).
        exists (d :: read). split; [|by simpl; rewrite Hfind].
        apply (read_entity item d w); [by rewrite Hd | done].
      * specialize (IH (set_domains (domains self ++ [d]) self) (S n) (tick w1)).
        destruct (import_loop rest _ (S n) (tick w1)) as [[[self' n']| |] w2];
          simpl in *; try done.
        destruct IH as (read & Hread & Hs & Hn).
        exists (d :: read). split.
        { apply (read_entity item d w); [by rewrite Hd | done]. }
        simpl. rewrite Hfind. simpl. subst self' n'. split; [|lia].
        unfold set_domains. simpl. by rewrite <- app_assoc.
    + specialize (IH self n w1).
      destruct (import_loop rest self n w1) as [[[self' n']| |] w2];
        simpl in *; try done.
      destruct IH as (read & Hread & Hs & Hn).
      exists read. split; [|done].
      apply (read_skip item w); [by rewrite Hd | done].
Qed.

Lemma import_loop_to_dicts (ds : list DomainInfo.t) (self : t) (n : nat)
    (w : World) :
  Forall well_formed ds →
  (import_loop (map DomainInfo.to_dict ds) self n w).1
  = Returns (set_domains (domains self ++ imported self ds) self,
             n + length (imported self ds)).
Proof.
  intros Hwf. revert self n w.
  induction Hwf as [|d ds Hd _ IH]; intros self n w.
  - simpl. by rewrite set_domains_nil, Nat.add_0_r.
  - cbn [map import_loop imported]. unfold mbind, M_bind.
    rewrite (from_dict_well_formed d w Hd). cbv beta iota.
    rewrite find_domain_eq.
    destruct (lookup_url self (DomainInfo.url d)) as [[i e]|]; [apply IH|].
    rewrite IH, set_domains_app. simpl. do 2 f_equal. lia.
Qed.

Lemma imported_sublist (self : t) (read : list DomainInfo.t) :
  imported self read `sublist_of` read.
Proof.
  revert self. induction read as [|d rest IH]; intros self; simpl; [done|].
  destruct (lookup_url self (DomainInfo.url d)).
  - by apply sublist_cons.
  - by apply sublist_skip.
Qed.

Lemma imported_absent (self : t) (read : list DomainInfo.t) :
  Forall (λ d, lookup_url self (DomainInfo.url d) = None) (imported self read).
Proof.
  revert self. induction read as [|d rest IH]; intros self; simpl; [done|].
  destruct (lookup_url self (DomainInfo.url d)) eqn:Hd; [apply IH|].
  constructor; [done|].
  eapply Forall_impl; [apply IH|]. intros x. unfold lookup_url. simpl.
  rewrite !list_find_None, Forall_app. tauto.
Qed.

Lemma imported_found (self : t) (read : list DomainInfo.t) (d : DomainInfo.t) :
  Forall well_formed read → d ∈ read →
  ∃ x, x ∈ (domains self ++ imported self read)%list
       ∧ DomainInfo.url x = DomainInfo._normalize_url (DomainInfo.url d).
Proof.
  intros Hwf. revert self.
  induction Hwf as [|d0 rest Hd0 _ IH]; intros self Hin.
  - by apply elem_of_nil in Hin.
  - simpl. apply elem_of_cons in Hin.
    destruct (lookup_url self (DomainInfo.url d0)) as [[i e]|] eqn:Hfind.
    + destruct Hin as [-> | Hin]; [|by apply IH].
      apply lookup_url_Some in Hfind as (Hi & Hu & _).
      exists e. split; [|done]. apply elem_of_app. left.
      by eapply list_elem_of_lookup_2.
    + destruct Hin as [-> | Hin].
      * exists d0. split; [set_solver|]. by destruct Hd0 as [-> _].
      * destruct (IH (set_domains (domains self ++ [d0]) self) Hin)
          as (x & Hx & Hu).
        exists x. split; [|done]. simpl in Hx. by rewrite <- app_assoc in Hx.
Qed.

Lemma enforce_limit_set_domains (self : t) (l : list DomainInfo.t) :
  enforce_limit (set_domains l self)
  = set_domains (take (max_domains self) l) self.
Proof.
  unfold enforce_limit, set_domains. simpl.
  destruct (max_domains self <? length l) eqn:Hlen; [done|].
  apply Nat.ltb_ge in Hlen. by rewrite take_ge.
Qed.

(** [import_domains] never raises.  When it reports a failure the store is
    as before.  When it succeeds, the file held a document whose
    [domains] could be visited, and the store is the old one followed by
    what was imported, cut to [max_domains]: the entities [from_dict]
    built from the records, in file order, without those whose URL
    [find_domain] found in the store as it had grown so far; the reported
    count is their number, none of them has a URL the old store had, and
    in a store within its limit no earlier entity moves or is lost.  For a
    document of records written by [to_dict] the result is determined, and
    before the cut every URL of the file is found in the store. *)
Theorem import_domains_spec (self : t) (file_path : string) (w : World) :
  match (import_domains self file_path w).1 with
  | Returns ((true, msg), self') =>
      ∃ text data v items read,
        files w !! file_path = Some (Utf8 text)
        ∧ json_loads text = Some data
        ∧ get_domains data = Some v
        ∧ Json.iter v = Some items
        ∧ read_from items read
        ∧ domains self'
          = take (max_domains self) (domains self ++ imported self read)
        ∧ msg = Imported (length (imported self read))
        ∧ max_domains self' = max_domains self
        ∧ (length (domains self) ≤ max_domains self →
           ∃ kept, domains self' = (domains self ++ kept)%list)
  | Returns ((false, msg), self') => self' = self
  | Raises => False
  | OutsideModel => True
  end
  ∧ (∀ read,
       imported self read `sublist_of` read
       ∧ Forall (λ d, lookup_url self (DomainInfo.url d) = None)
           (imported self read))
  ∧ ∀ text fields ds,
      files w !! file_path = Some (Utf8 text) →
      json_loads text = Some (JObj fields) →
      Json.get "domains" fields = Some (JArr (map DomainInfo.to_dict ds)) →
      Forall well_formed ds →
      (import_domains self file_path w).1
      = Returns
          ((true, Imported (length (imported self ds))),
           set_domains
             (take (max_domains self) (domains self ++ imported self ds)) self)
      ∧ ∀ d, d ∈ ds →
             is_Some
               (lookup_url (set_domains (domains self ++ imported self ds) self)
                  (DomainInfo.url d)).
Proof.
  split; [|split].
  - unfold import_domains, import_failed, mbind, M_bind, mret, M_ret, read_text.
    destruct (files w !! file_path) as [[text|]|] eqn:Hfile; try done.
    destruct (json_loads text) as [data|] eqn:Hdata; [|done].
    destruct (has_domains data) as [[|]|]; try done.
    destruct (get_domains data) as [v|] eqn:Hv; cbn [option_bind]; [|done].
    destruct (Json.iter v) as [items|] eqn:Hitems; [|done].
    pose proof (import_loop_reads items self 0 w) as Hloop.
    destruct (import_loop items self 0 w) as [[[self1 n]| |] w2];
      simpl in Hloop; try done.
    destruct Hloop as (read & Hread & -> & ->).
    rewrite enforce_limit_set_domains.
    destruct (save_domains _ w2) as [b w3]. simpl.
    exists text, data, v, items, read. repeat split; try done.
    intros Hlen.
    exists (take (max_domains self - length (domains self)) (imported self read)).
    by rewrite take_app_ge.
  - intros read. split; [apply imported_sublist | apply imported_absent].
  - intros text fields ds Hfile Hdata Hget Hwf. split.
    + unfold import_domains, import_failed, mbind, M_bind, mret, M_ret,
        read_text.
      rewrite Hfile, Hdata. unfold has_domains, get_domains. rewrite Hget.
      rewrite bool_decide_eq_true_2 by done. cbn [option_bind Json.iter].
      pose proof (import_loop_to_dicts ds self 0 w Hwf) as Hloop.
      destruct (import_loop (map DomainInfo.to_dict ds) self 0 w)
        as [r w2]. simpl in Hloop. subst r.
      rewrite enforce_limit_set_domains.
      by destruct (save_domains _ w2) as [b w3].
    + intros d Hd. destruct (imported_found self ds d Hwf Hd) as (x & Hx & Hu).
      unfold lookup_url. simpl. by eapply list_find_elem_of.
Qed.

Lemma from_dicts_to_dicts (ds : list DomainInfo.t) (w : World) :
  Forall well_formed ds →
  from_dicts (map DomainInfo.to_dict ds) w = (Returns ds, w).
Proof.
  induction 1 as [|d ds [Hu Ha] _ IH]; [done|].
  cbn [map from_dicts]. unfold mbind, M_bind.
  rewrite (from_dict_well_formed d w (conj Hu Ha)). cbv beta iota.
  rewrite IH. done.
Qed.

Lemma load_after_save (self : t) (w : World) :
  ¬ save_fails w →
  json_loads (DataManager.remove_bom (str_strip (json_dumps (JArr (dicts self)))))
    = Some (JArr (dicts self)) →
  save_domains self w = (true, saved self w)
  ∧ DataManager.load_domains (saved self w) = (JArr (dicts self), saved self w).
Proof.
  intros Hs Hj. split.
  - unfold save_domains. rewrite save_domains_eq.
    by rewrite bool_decide_eq_false_2.
  - unfold DataManager.load_domains, mbind, M_bind, mret, M_ret, path_exists,
      read_text, DataManager.domains_file, saved. cbn [files set_files].
    rewrite lookup_insert_eq. cbn. rewrite lookup_insert_eq. cbn.
    by rewrite Hj.
Qed.

(** A store that is not empty, saved and loaded again, comes back as it
    was, entity by entity and in order, provided [json.loads] reads back
    what [json.dump] wrote. *)
Theorem save_then_load (self other : t) (w : World) :
  domains self ≠ [] → Forall well_formed (domains self) → ¬ save_fails w →
  json_loads (DataManager.remove_bom (str_strip (json_dumps (JArr (dicts self)))))
    = Some (JArr (dicts self)) →
  ∃ w1,
    save_domains self w = (true, w1)
    ∧ load_domains other w1
      = (Returns (true, set_domains (domains self) other), w1).
Proof.
  intros Hne Hwf Hs Hj. destruct (load_after_save self w Hs Hj) as [Hsave Hload].
  exists (saved self w). split; [done|].
  unfold load_domains, mbind, M_bind. rewrite Hload.
  unfold dicts. destruct (domains self) as [|d ds] eqn:Hds; [done|].
  change (Json.truthy (JArr (map DomainInfo.to_dict (d :: ds)))) with true.
  cbn iota. cbn [Json.iter]. rewrite (from_dicts_to_dicts (d :: ds) _ Hwf).
  done.
Qed.

(** An empty store, saved and loaded again, comes back with the two
    default domains: the empty list the file holds counts as no data. *)
Theorem save_empty_then_load (self other : t) (w : World) :
  domains self = [] → ¬ save_fails w →
  json_loads (DataManager.remove_bom (str_strip (json_dumps (JArr []))))
    = Some (JArr []) →
  ∃ w1 w2,
    save_domains self w = (true, w1)
    ∧ load_domains other w1
      = (Returns
           (true,
            set_domains
              (domains other ++
                 [ fresh "https://www.k8w4w.com" (iso_clock w (iso_ticks w));
                   fresh "https://www.z6r0j.com" (iso_clock w (1 + iso_ticks w)) ])
              other), w2).
Proof.
  intros Hempty Hs Hj.
  assert (dicts self = []) as Hd by (unfold dicts; by rewrite Hempty).
  rewrite <- Hd in Hj.
  destruct (load_after_save self w Hs Hj) as [Hsave Hload]. rewrite Hd in Hload.
  destruct (initialize_default_domains_eq other (saved self w)) as [w2 Hinit].
  exists (saved self w), w2. split; [done|].
  unfold load_domains, mbind, M_bind. rewrite Hload. simpl.
  by rewrite Hinit.
Qed.

End ImportAndReload.

Section ImportAndReloadExamples.
#[local] Existing Instance RefLib.lib.
Import DomainManager.

(** Importing two records of which one has a URL already in the store *)
Example import_skips_present :
  (import_domains two_domains "backup.json" backup_world).1
  = Returns
      ((true, Imported 1),
       {| domains := [ entity "https://a.example" "active" 3 0;
                       entity "https://b.example" "error" 4 2;
                       entity "https://c.example" "active" 1 0 ];
          max_domains := 10 |}).
Proof. vm_compute. reflexivity. Qed.

Lemma import_domains_spec_witness :
  let ds := [ entity "https://c.example" "active" 1 0;
              entity "https://a.example" "error" 9 9 ] in
  imported two_domains ds = [ entity "https://c.example" "active" 1 0 ]
  ∧ (import_domains two_domains "backup.json" backup_world).1
    = Returns
        ((true, Imported (length (imported two_domains ds))),
         set_domains
           (take (max_domains two_domains)
              (domains two_domains ++ imported two_domains ds)) two_domains)
  ∧ ∀ d, d ∈ ds →
         is_Some
           (lookup_url
              (set_domains (domains two_domains ++ imported two_domains ds)
                 two_domains)
              (DomainInfo.url d)).
Proof.
  intros ds. split; [vm_compute; reflexivity|].
  apply (proj2 (proj2 (import_domains_spec two_domains "backup.json"
                         backup_world))
           (RefLib.dumps
              (JObj [ ("export_time", JStr "2024-01-01T00:00:00");
                      ("app_version", JStr "1.0.0");
                      ("domains", JArr (map DomainInfo.to_dict ds)) ]))
           [ ("export_time", JStr "2024-01-01T00:00:00");
             ("app_version", JStr "1.0.0");
             ("domains", JArr (map DomainInfo.to_dict ds)) ]
           ds).
  - reflexivity.
  - vm_compute. reflexivity.
  - reflexivity.
  - repeat constructor; discriminate.
Defined.

Lemma save_then_load_witness :
  ∃ w1,
    save_domains two_domains example_world = (true, w1)
    ∧ load_domains empty_store w1
      = (Returns (true, set_domains (domains two_domains) empty_store), w1).
Proof.
  apply (save_then_load two_domains empty_store example_world).
  - discriminate.
  - repeat constructor; discriminate.
  - vm_compute. set_solver.
  - vm_compute. reflexivity.
Defined.

Lemma save_empty_then_load_witness :
  ∃ w1 w2,
    save_domains empty_store example_world = (true, w1)
    ∧ load_domains empty_store w1
      = (Returns
           (true,
            set_domains
              (domains empty_store ++
                 [ fresh "https://www.k8w4w.com"
                     (iso_clock example_world (iso_ticks example_world));
                   fresh "https://www.z6r0j.com"
                     (iso_clock example_world (1 + iso_ticks example_world)) ])
              empty_store), w2).
Proof.
  apply (save_empty_then_load empty_store empty_store example_world).
  - reflexivity.
  - vm_compute. set_solver.
  - vm_compute. reflexivity.
Defined.

End ImportAndReloadExamples.

(** ** The cache of the checker *)

Section CacheCleanup.
Import NetworkChecker.

Lemma check_domain_simple_stale (self : t) (u : string) (w : World) :
  ¬ cache_fresh self u w →
  (check_domain_simple self u w).1.1
    = probe_result u (network w (length (requests w)) u)
  ∧ requests (check_domain_simple self u w).2 = (requests w ++ [u])%list.
Proof.
  intros Hstale.
  unfold check_domain_simple, _get_cached_result, _is_cache_valid,
    mbind, M_bind, mret, M_ret, time_time, session_head, _cache_result.
  destruct (check_cache self !! u) as [[b0 ts0]|] eqn:Hc; cbn.
  - rewrite bool_decide_eq_false_2
      by (intros Ht; apply Hstale; by exists b0, ts0).
    cbn. destruct (network w (length (requests w)) u);
      unfold mbind, M_bind, mret, M_ret, time_time; cbn; done.
  - destruct (network w (length (requests w)) u);
      unfold mbind, M_bind, mret, M_ret, time_time; cbn; done.
Qed.

Lemma cleanup_cache_lookup (self : t) (w : World) (u : string) (b : bool)
    (ts : Z) :
  check_cache (cleanup_cache self w).1 !! u = Some (b, ts)
  ↔ check_cache self !! u = Some (b, ts)
    ∧ (unix_clock w (unix_ticks w) - ts ≤ cache_duration self)%Z.
Proof.
  unfold cleanup_cache, mbind, M_bind, mret, M_ret, time_time. simpl.
  rewrite map_lookup_filter_Some. simpl. split; intros [? ?]; split; (done || lia).
Qed.

(** [cleanup_cache] keeps exactly the entries that are not older than
    [cache_duration] at its reading of the clock, changes none of them and
    not the duration.  With a clock that does not go back, a later
    [check_domain_simple] returns the same answer and sends the same
    requests as it would have without the cleanup. *)
Theorem cleanup_cache_spec (self : t) (w : World) :
  let self' := (cleanup_cache self w).1 in
  (∀ u b ts,
     check_cache self' !! u = Some (b, ts)
     ↔ check_cache self !! u = Some (b, ts)
       ∧ (unix_clock w (unix_ticks w) - ts ≤ cache_duration self)%Z)
  ∧ cache_duration self' = cache_duration self
  ∧ requests (cleanup_cache self w).2 = requests w
  ∧ ∀ u w2,
      (unix_clock w (unix_ticks w) ≤ unix_clock w2 (unix_ticks w2))%Z →
      (check_domain_simple self' u w2).1.1 = (check_domain_simple self u w2).1.1
      ∧ requests (check_domain_simple self' u w2).2
        = requests (check_domain_simple self u w2).2.
Proof.
  split; [intros u b ts; apply cleanup_cache_lookup|].
  split; [done|]. split; [done|]. intros u w2 Hmono.
  destruct (cache_fresh_dec self u w2) as [(b & ts & Hc & Ht) | Hstale].
  - assert (check_cache (cleanup_cache self w).1 !! u = Some (b, ts)) as Hc'
      by (apply cleanup_cache_lookup; split; [done | lia]).
    rewrite (check_domain_simple_hit self u w2 b ts Hc Ht).
    by rewrite (check_domain_simple_hit _ u w2 b ts Hc' Ht).
  - assert (¬ cache_fresh (cleanup_cache self w).1 u w2) as Hstale'.
    { intros (b & ts & Hc' & Ht). apply Hstale. exists b, ts.
      apply cleanup_cache_lookup in Hc' as [Hc' _]. done. }
    destruct (check_domain_simple_stale self u w2 Hstale) as [-> ->].
    by destruct (check_domain_simple_stale _ u w2 Hstale') as [-> ->].
Qed.

Lemma cleanup_cache_spec_witness :
  let self :=
    set_check_cache
      {[ "https://a.example" := (true, 1700000000%Z);
         "https://b.example" := (false, 1699990000%Z) ]} init in
  let self' := (cleanup_cache self example_world).1 in
  (∀ u b ts,
     check_cache self' !! u = Some (b, ts)
     ↔ check_cache self !! u = Some (b, ts)
       ∧ (unix_clock example_world (unix_ticks example_world) - ts
          ≤ cache_duration self)%Z)
  ∧ cache_duration self' = cache_duration self
  ∧ requests (cleanup_cache self example_world).2 = requests example_world
  ∧ ∀ u w2,
      (unix_clock example_world (unix_ticks example_world)
       ≤ unix_clock w2 (unix_ticks w2))%Z →
      (check_domain_simple self' u w2).1.1 = (check_domain_simple self u w2).1.1
      ∧ requests (check_domain_simple self' u w2).2
        = requests (check_domain_simple self u w2).2.
Proof.
  intros self.
  apply (cleanup_cache_spec self example_world).
Defined.

(** The entry written 10000 seconds ago goes, the fresh one stays. *)
Example cleanup_cache_run :
  check_cache
    (cleanup_cache
       (set_check_cache
          {[ "https://a.example" := (true, 1700000000%Z);
             "https://b.example" := (false, 1699990000%Z) ]} init)
       example_world).1
  = {[ "https://a.example" := (true, 1700000000%Z) ]}.
Proof. vm_compute. reflexivity. Qed.

End CacheCleanup.

(** ** The data layer *)

Section DataLayer.
Context `{PyLib}.

Lemma data_load_domains_world (w : World) : (DataManager.load_domains w).2 = w.
Proof.
  unfold DataManager.load_domains, mbind, M_bind, mret, M_ret, path_exists,
    read_text.
  destruct (files w !! DataManager.domains_file) as [[text|]|] eqn:E;
    cbn; rewrite ?E; try done.
  by destruct (json_loads _).
Qed.

Lemma data_load_domains_eq (w : World) (data : json) :
  (DataManager.load_domains w).1 = data → DataManager.load_domains w = (data, w).
Proof.
  intros <-. rewrite <- (data_load_domains_world w) at 3.
  by destruct (DataManager.load_domains w).
Qed.

Lemma data_save_domains_eq (items : list json) (w : World) :
  DataManager.save_domains items w =
  if bool_decide (save_fails w) then (false, w)
  else (true,
        set_files (<[Config.DOMAINS_FILE := Utf8 (json_dumps (JArr items))]>
                     (files w)) w).
Proof. reflexivity. Qed.

Lemma find_url_None (u : string) (items : list json) :
  DataManager.find_url u items = Returns None →
  Forall (λ item, is_record item ∧ ¬ record_has_url u item) items.
Proof.
  induction items as [|item rest IH]; [done|]. simpl.
  destruct item as [| | | |l|fields]; try done.
  destruct (DataManager.has_url u fields) eqn:Hu; [done|].
  destruct (DataManager.find_url u rest) as [[i|]| |]; try done.
  intros _. constructor; [|by apply IH]. simpl. rewrite Hu. split; [done|]. done.
Qed.

Lemma find_url_Some (u : string) (items : list json) (i : nat) :
  DataManager.find_url u items = Returns (Some i) →
  ∃ item, items !! i = Some item ∧ record_has_url u item.
Proof.
  revert i. induction items as [|item rest IH]; intros i; [done|]. simpl.
  destruct item as [| | | |l|fields]; try done.
  destruct (DataManager.has_url u fields) eqn:Hu.
  - intros [= <-]. exists (JObj fields). by split.
  - destruct (DataManager.find_url u rest) as [[j|]| |]; try done.
    intros [= <-]. apply (IH j). done.
Qed.

Lemma record_has_url_iff (u : string) (item : json) :
  record_has_url u item
  ↔ ∃ fields, item = JObj fields ∧ Json.get "url" fields = Some (JStr u).
Proof.
  destruct item as [| | | | |fields]; simpl;
    try (split; [done | by intros (? & ? & _)]).
  unfold DataManager.has_url. split.
  - intros Hu. exists fields. split; [done|].
    destruct (Json.get "url" fields) as [[| | |s| |]|]; try done.
    by apply String.eqb_eq in Hu as ->.
  - intros (fields' & [= <-] & ->). apply String.eqb_refl.
Qed.

Lemma find_url_absent (u : string) (items : list json) :
  Forall (other_record u) items → DataManager.find_url u items = Returns None.
Proof.
  induction 1 as [|item rest [Hrec Hu] _ IH]; [done|]. simpl.
  destruct item as [| | | | |fields]; try done. simpl in Hu.
  destruct (DataManager.has_url u fields); [done|]. by rewrite IH.
Qed.

Lemma find_url_first (u : string) (items : list json) (i : nat) (item : json) :
  items !! i = Some item → record_has_url u item →
  Forall (other_record u) (take i items) →
  DataManager.find_url u items = Returns (Some i).
Proof.
  revert i. induction items as [|x rest IH]; intros i Hi Hu Hbefore; [done|].
  destruct i as [|i]; simpl in *.
  - injection Hi as ->. destruct item as [| | | | |fields]; try done.
    simpl in Hu. by rewrite Hu.
  - apply Forall_cons in Hbefore as [[Hrec Hx] Hbefore].
    destruct x as [| | | | |fields]; try done. simpl in Hx.
    destruct (DataManager.has_url u fields); [done|].
    by rewrite (IH i Hi Hu Hbefore).
Qed.

Lemma find_url_raises (u : string) (items : list json) (i : nat) (item : json) :
  items !! i = Some item → ¬ is_record item →
  Forall (other_record u) (take i items) →
  DataManager.find_url u items = Raises.
Proof.
  revert i. induction items as [|x rest IH]; intros i Hi Hrec Hbefore; [done|].
  destruct i as [|i]; simpl in *.
  - injection Hi as ->. by destruct item.
  - apply Forall_cons in Hbefore as [[Hx Hxu] Hbefore].
    destruct x as [| | | | |fields]; try done. simpl in Hxu.
    destruct (DataManager.has_url u fields); [done|].
    by rewrite (IH i Hi Hrec Hbefore).
Qed.

Lemma first_with_url (u : string) (items : list json) :
  Forall is_record items → Exists (record_has_url u) items →
  ∃ i item, items !! i = Some item ∧ record_has_url u item
            ∧ Forall (other_record u) (take i items).
Proof.
  induction 1 as [|x rest Hx _ IH]; intros Hex; [by apply Exists_nil in Hex|].
  destruct (decide (record_has_url u x)) as [Hu|Hu].
  - exists 0, x. by repeat split.
  - apply Exists_cons in Hex as [Hex|Hex]; [done|].
    destruct (IH Hex) as (i & item & Hi & Hitem & Hbefore).
    exists (S i), item. repeat split; try done. simpl. by constructor.
Qed.

(** [DataManager.add_domain] on a domains file that holds a list.  When a
    record has the URL and the items before it are dictionaries, it
    returns [False], writes nothing and reads no clock; so it does on a
    list of dictionaries one of which has the URL.  When every item is a
    dictionary and none has the URL, the new record goes in front of the
    records there were, with [response_time] 0 and two successive clock
    readings as [last_check] and [added_time], and the result is that of
    the write.  An item that is not a dictionary, met before any record
    with the URL, makes it raise. *)
Theorem data_add_domain_spec (u st : string) (w : World) (items : list json) :
  (DataManager.load_domains w).1 = JArr items →
  (∀ i item,
     items !! i = Some item → record_has_url u item →
     Forall (other_record u) (take i items) →
     DataManager.add_domain u st w = (Returns false, w))
  ∧ (Forall is_record items → Exists (record_has_url u) items →
     DataManager.add_domain u st w = (Returns false, w))
  ∧ (Forall (other_record u) items → ¬ save_fails w →
     ∃ w',
       DataManager.add_domain u st w = (Returns true, w')
       ∧ files w' !! Config.DOMAINS_FILE
         = Some (Utf8 (json_dumps
              (JArr (new_record u st (iso_clock w (iso_ticks w))
                       (iso_clock w (1 + iso_ticks w)) :: items))))
       ∧ iso_ticks w' = 2 + iso_ticks w)
  ∧ (Forall (other_record u) items → save_fails w →
     DataManager.add_domain u st w = (Returns false, tick (tick w)))
  ∧ (∀ i item,
       items !! i = Some item → ¬ is_record item →
       Forall (other_record u) (take i items) →
       DataManager.add_domain u st w = (Raises, w)).
Proof.
  intros Hload. apply data_load_domains_eq in Hload.
  assert (∀ i item,
            items !! i = Some item → record_has_url u item →
            Forall (other_record u) (take i items) →
            DataManager.add_domain u st w = (Returns false, w)) as Hfirst.
  { intros i item Hi Hu Hbefore.
    unfold DataManager.add_domain, mbind, M_bind. rewrite Hload.
    by rewrite (find_url_first u items i item Hi Hu Hbefore). }
  split; [exact Hfirst|]. split; [|split; [|split]].
  - intros Hrec Hex.
    destruct (first_with_url u items Hrec Hex) as (i & item & Hi & Hu & Hb).
    by apply (Hfirst i item).
  - intros Hnone Hs.
    unfold DataManager.add_domain, mbind, M_bind. rewrite Hload.
    rewrite (find_url_absent u items Hnone).
    unfold mret, M_ret, now_isoformat. cbn beta iota.
    rewrite data_save_domains_eq.
    rewrite bool_decide_eq_false_2 by done.
    eexists. split; [reflexivity|]. simpl. split; [apply lookup_insert_eq|done].
  - intros Hnone Hs.
    unfold DataManager.add_domain, mbind, M_bind. rewrite Hload.
    rewrite (find_url_absent u items Hnone).
    unfold mret, M_ret, now_isoformat. cbn beta iota.
    rewrite data_save_domains_eq.
    by rewrite bool_decide_eq_true_2 by done.
  - intros i item Hi Hrec Hbefore.
    unfold DataManager.add_domain, mbind, M_bind. rewrite Hload.
    by rewrite (find_url_raises u items i item Hi Hrec Hbefore).
Qed.

Lemma data_load_domains_text (w : World) (text : string) (data : json) :
  files w !! Config.DOMAINS_FILE = Some (Utf8 text) →
  json_loads (DataManager.remove_bom (str_strip text)) = Some data →
  DataManager.load_domains w = (data, w).
Proof.
  intros Hfile Hdata.
  unfold DataManager.load_domains, mbind, M_bind, mret, M_ret, path_exists,
    read_text, DataManager.domains_file.
  rewrite Hfile. cbn. rewrite Hfile. cbn. by rewrite Hdata.
Qed.

(** A domains file that parses to something that is not a list.
    [DataManager.add_domain] has no [try] and never returns on it, and it
    writes nothing.  On an empty dictionary and on an empty string its loop
    has nothing to visit: the clock is read twice for the new record before
    [insert] raises, while [remove_domain] and [update_domain_status]
    return [False] on the same file.  On every other value the three of
    them raise before any effect. *)
Theorem data_add_domain_raises (u st : string) (response_time : json)
    (w : World) (text : string) (data : json) :
  files w !! Config.DOMAINS_FILE = Some (Utf8 text) →
  json_loads (DataManager.remove_bom (str_strip text)) = Some data →
  (∀ items, data ≠ JArr items) →
  (DataManager.add_domain u st w).1 = Raises
  ∧ files (DataManager.add_domain u st w).2 = files w
  ∧ (data = JObj [] ∨ data = JStr EmptyString →
     DataManager.add_domain u st w = (Raises, tick (tick w))
     ∧ DataManager.remove_domain u w = (Returns false, w)
     ∧ DataManager.update_domain_status u st response_time w
       = (Returns false, w))
  ∧ (data ≠ JObj [] → data ≠ JStr EmptyString →
     DataManager.add_domain u st w = (Raises, w)
     ∧ DataManager.remove_domain u w = (Raises, w)
     ∧ DataManager.update_domain_status u st response_time w = (Raises, w)).
Proof.
  intros Hfile Hdata Hlist.
  pose proof (data_load_domains_text w text data Hfile Hdata) as Hload.
  unfold DataManager.add_domain, DataManager.remove_domain,
    DataManager.update_domain_status, mbind, M_bind.
  rewrite Hload.
  destruct data as [|b|n|s|items|fields]; [| | |destruct s|
                                           by destruct (Hlist items)|
                                           destruct fields];
    (split; [done|]); (split; [done|]);
    (split;
     [ intros [Hd|Hd]; try discriminate Hd; by repeat split
     | intros H1 H2; try (by destruct H1); try (by destruct H2);
       by repeat split ]).
Qed.



End DataLayer.

Section DataLayerExamples.
#[local] Existing Instance RefLib.lib.

Lemma records_world_load :
  (DataManager.load_domains records_world).1 = JArr records.
Proof. vm_compute. reflexivity. Qed.

Lemma later_records_load :
  (DataManager.load_domains (text_world (RefLib.dumps (JArr later_records)))).1
  = JArr later_records.
Proof. vm_compute. reflexivity. Qed.

Lemma data_add_domain_spec_witness :
  DataManager.add_domain "https://a.example" "active"
    (text_world (RefLib.dumps (JArr later_records)))
  = (Returns false, text_world (RefLib.dumps (JArr later_records)))
  ∧ ∃ w',
      DataManager.add_domain "https://c.example" "active" records_world
        = (Returns true, w')
      ∧ files w' !! Config.DOMAINS_FILE
        = Some (Utf8 (json_dumps
             (JArr (new_record "https://c.example" "active"
                      (iso_clock records_world (iso_ticks records_world))
                      (iso_clock records_world (1 + iso_ticks records_world))
                    :: records))))
      ∧ iso_ticks w' = 2 + iso_ticks records_world.
Proof.
  split.
  - apply (proj1 (data_add_domain_spec "https://a.example" "active"
                    (text_world (RefLib.dumps (JArr later_records)))
                    later_records later_records_load)
             1 (JObj [("url", JStr "https://a.example");
                      ("status", JStr "active")])).
    + reflexivity.
    + reflexivity.
    + repeat constructor. simpl. discriminate.
  - apply (proj1 (proj2 (proj2
             (data_add_domain_spec "https://c.example" "active" records_world
                records records_world_load)))).
    + repeat constructor; simpl; discriminate.
    + vm_compute. set_solver.
Defined.

Lemma data_add_domain_raises_witness :
  let w := text_world "{}" in
  files (DataManager.add_domain "https://c.example" "active" w).2 = files w
  ∧ DataManager.add_domain "https://c.example" "active" w
    = (Raises, tick (tick w))
  ∧ DataManager.remove_domain "https://c.example" w = (Returns false, w)
  ∧ DataManager.update_domain_status "https://c.example" "active" (JInt 0) w
    = (Returns false, w).
Proof.
  intros w.
  assert (json_loads (DataManager.remove_bom (str_strip "{}")) = Some (JObj []))
    as Hdata by (vm_compute; reflexivity).
  assert (∀ items, JObj [] ≠ JArr items) as Hlist by discriminate.
  destruct (data_add_domain_raises "https://c.example" "active" (JInt 0) w "{}"
              (JObj []) eq_refl Hdata Hlist) as (_ & Hfiles & Hempty & _).
  split; [exact Hfiles|]. apply Hempty. by left.
Defined.


End DataLayerExamples.

(** ** Settings *)

Section Dictionaries.

Lemma get_set_eq (k : string) (v : json) (d : list (string * json)) :
  Json.get k (Json.set k v d) = Some v.
Proof.
  induction d as [|[k' v'] d IH]; simpl.
  - by rewrite String.eqb_refl.
  - destruct (String.eqb k' k) eqn:E; simpl; by rewrite E.
Qed.

Lemma get_set_ne (k k' : string) (v : json) (d : list (string * json)) :
  k' ≠ k → Json.get k' (Json.set k v d) = Json.get k' d.
Proof.
  intros Hne. induction d as [|[k1 v1] d IH]; simpl.
  - assert (String.eqb k k' = false) as -> by (apply String.eqb_neq; congruence).
    done.
  - destruct (String.eqb k1 k) eqn:E; simpl.
    + apply String.eqb_eq in E as ->.
      assert (String.eqb k k' = false) as -> by (apply String.eqb_neq; congruence).
      done.
    + by rewrite IH.
Qed.

Lemma keys_set (k : string) (v : json) (d : list (string * json)) :
  keys (Json.set k v d) = if bool_decide (k ∈ keys d) then keys d else (keys d ++ [k])%list.
Proof.
  induction d as [|[k1 v1] d IH]; simpl; [done|].
  destruct (String.eqb k1 k) eqn:E; simpl.
  - apply String.eqb_eq in E as ->. rewrite bool_decide_eq_true_2; [done|].
    apply list_elem_of_here.
  - apply String.eqb_neq in E. unfold keys in *. rewrite IH.
    destruct (bool_decide (k ∈ map fst d)) eqn:Hin.
    + apply bool_decide_eq_true in Hin.
      rewrite bool_decide_eq_true_2; [done|]. by apply list_elem_of_further.
    + apply bool_decide_eq_false in Hin.
      rewrite bool_decide_eq_false_2; [done|].
      intros [?|?]%elem_of_cons; [congruence | done].
Qed.

Lemma keys_set_NoDup (k : string) (v : json) (d : list (string * json)) :
  NoDup (keys d) → NoDup (keys (Json.set k v d)).
Proof.
  intros Hd. rewrite keys_set. case_bool_decide as Hin; [done|].
  apply NoDup_app. split; [done|]. split; [|apply NoDup_singleton].
  intros x Hx ->%list_elem_of_singleton. done.
Qed.

Lemma get_None_keys (k : string) (d : list (string * json)) :
  Json.get k d = None ↔ k ∉ keys d.
Proof.
  induction d as [|[k1 v1] d IH]; simpl.
  - split; [intros _; apply not_elem_of_nil | done].
  - destruct (String.eqb k1 k) eqn:E.
    + apply String.eqb_eq in E as ->. split; [done|].
      intros Hn. destruct Hn. apply list_elem_of_here.
    + apply String.eqb_neq in E. rewrite IH. unfold keys. simpl.
      rewrite not_elem_of_cons. split; [intros ?; split; [congruence | done]|].
      by intros [_ ?].
Qed.

Lemma update_NoDup (d other : list (string * json)) :
  NoDup (keys d) → NoDup (keys (Json.update d other)).
Proof.
  revert d. unfold Json.update.
  induction other as [|[k v] other IH]; intros d Hd; simpl; [done|].
  apply IH. by apply keys_set_NoDup.
Qed.

(** [d.update(other)] then [get]: the value of [other] when it has the
    key, that of [d] otherwise. *)
Lemma get_update (k : string) (d other : list (string * json)) :
  NoDup (keys other) →
  Json.get k (Json.update d other)
  = match Json.get k other with
    | Some v => Some v
    | None => Json.get k d
    end.
Proof.
  revert d. unfold Json.update.
  induction other as [|[k1 v1] other IH]; intros d Hnd; simpl; [done|].
  unfold keys in Hnd. simpl in Hnd. apply NoDup_cons in Hnd as [Hk1 Hnd].
  rewrite (IH _ Hnd). destruct (String.eqb k1 k) eqn:E.
  - apply String.eqb_eq in E as ->.
    apply get_None_keys in Hk1 as ->. apply get_set_eq.
  - apply String.eqb_neq in E.
    destruct (Json.get k other); [done|]. apply get_set_ne. congruence.
Qed.

End Dictionaries.

Section Settings.
Context `{PyLib}.

Lemma default_settings_NoDup : NoDup (keys DataManager.default_settings).
Proof. apply (bool_decide_unpack _). vm_compute. exact I. Qed.

Lemma load_settings_world (w : World) : (DataManager.load_settings w).2 = w.
Proof.
  unfold DataManager.load_settings, mbind, M_bind, mret, M_ret, path_exists,
    read_text.
  destruct (files w !! DataManager.settings_file) as [[text|]|] eqn:E;
    cbn; rewrite ?E; try done.
  destruct (json_loads text) as [[| | | |[|? ?]|]|]; done.
Qed.

Lemma load_settings_keys (w : World) (s : list (string * json)) :
  (DataManager.load_settings w).1 = Returns s →
  NoDup (keys s)
  ∧ ∀ k, k ∈ keys DataManager.default_settings → k ∈ keys s.
Proof.
  unfold DataManager.load_settings, mbind, M_bind, mret, M_ret, path_exists,
    read_text.
  assert (NoDup (keys DataManager.default_settings)
          ∧ ∀ k, k ∈ keys DataManager.default_settings
                 → k ∈ keys DataManager.default_settings) as Hdef
    by (split; [apply default_settings_NoDup | done]).
  destruct (files w !! DataManager.settings_file) as [[text|]|] eqn:E;
    cbn; rewrite ?E; cbn; try (by intros [= <-]).
  destruct (json_loads text) as [[| | | |[|? ?]|fields]|]; cbn;
    try (by intros [= <-]); try done.
  intros [= <-]. split; [apply update_NoDup, default_settings_NoDup|].
  intros k Hk. unfold Json.update.
  assert (∀ d, k ∈ keys d →
               k ∈ keys (fold_left (λ acc kv, Json.set kv.1 kv.2 acc) fields d))
    as Hfold.
  { induction fields as [|[k1 v1] fields IH]; intros d Hd; simpl; [done|].
    apply IH. rewrite keys_set. case_bool_decide; [done|].
    apply elem_of_app. by left. }
  by apply Hfold.
Qed.

Lemma load_settings_dict (w : World) (text : string)
    (fields : list (string * json)) :
  files w !! DataManager.settings_file = Some (Utf8 text) →
  json_loads text = Some (JObj fields) →
  DataManager.load_settings w
  = (Returns (Json.update DataManager.default_settings fields), w).
Proof.
  intros Hfile Hjson.
  unfold DataManager.load_settings, mbind, M_bind, mret, M_ret, path_exists,
    read_text. rewrite Hfile. cbn. rewrite Hfile. cbn. by rewrite Hjson.
Qed.

(** [load_settings] never raises and changes nothing; whatever the
    settings file holds, every key of the defaults is in the dictionary it
    returns, so [get_setting] on such a key never falls back to its
    [default] argument. *)
Theorem load_settings_defaults (w : World) :
  (DataManager.load_settings w).1 ≠ Raises
  ∧ (DataManager.load_settings w).2 = w
  ∧ ∀ s, (DataManager.load_settings w).1 = Returns s →
         ∀ k, k ∈ keys DataManager.default_settings →
              ∃ v, Json.get k s = Some v
                   ∧ ∀ fallback,
                       (DataManager.get_setting k fallback w).1 = Returns v.
Proof.
  split; [|split; [apply load_settings_world|]].
  - unfold DataManager.load_settings, mbind, M_bind, mret, M_ret, path_exists,
      read_text.
    destruct (files w !! DataManager.settings_file) as [[text|]|] eqn:E;
      cbn; rewrite ?E; cbn; try done.
    destruct (json_loads text) as [[| | | |[|? ?]|fields]|]; done.
  - intros s Hs k Hk.
    destruct (load_settings_keys w s Hs) as [_ Hkeys].
    destruct (Json.get k s) as [v|] eqn:Hget.
    + exists v. split; [done|]. intros fallback.
      unfold DataManager.get_setting, mbind, M_bind.
      destruct (DataManager.load_settings w) as [r w']. simpl in Hs. subst r.
      simpl. by rewrite Hget.
    + apply get_None_keys in Hget. destruct Hget. by apply Hkeys.
Qed.

(** A settings file that holds a dictionary overrides the defaults key by
    key: a key of the file has the value of the file, any other key the
    default, if there is one. *)
Theorem load_settings_override (w : World) (text : string)
    (fields : list (string * json)) (k : string) :
  files w !! DataManager.settings_file = Some (Utf8 text) →
  json_loads text = Some (JObj fields) → NoDup (keys fields) →
  ∃ s, DataManager.load_settings w = (Returns s, w)
       ∧ Json.get k s
         = match Json.get k fields with
           | Some v => Some v
           | None => Json.get k DataManager.default_settings
           end.
Proof.
  intros Hfile Hjson Hnd.
  exists (Json.update DataManager.default_settings fields). split.
  - by apply (load_settings_dict w text).
  - by apply get_update.
Qed.

(** After [set_setting(k, v)] has saved, [get_setting(k)] returns [v] and
    every other key reads as before, provided [json.load] reads back what
    [json.dump] wrote. *)
Theorem set_then_get_setting (w : World) (s : list (string * json))
    (k : string) (v : json) :
  (DataManager.load_settings w).1 = Returns s → ¬ settings_readonly w →
  json_loads (json_dumps (JObj (Json.set k v s))) = Some (JObj (Json.set k v s)) →
  ∃ w1,
    DataManager.set_setting k v w = (Returns true, w1)
    ∧ (∀ fallback, (DataManager.get_setting k fallback w1).1 = Returns v)
    ∧ ∀ k' fallback,
        k' ≠ k →
        (DataManager.get_setting k' fallback w1).1
        = (DataManager.get_setting k' fallback w).1.
Proof.
  intros Hs Hro Hjson.
  destruct (load_settings_keys w s Hs) as [Hnd Hkeys].
  pose proof (load_settings_world w) as Hw.
  unfold DataManager.set_setting, mbind, M_bind.
  destruct (DataManager.load_settings w) as [r w'] eqn:Hload.
  simpl in Hs, Hw. subst r w'.
  unfold DataManager.save_settings, write_text, mret, M_ret.
  rewrite bool_decide_eq_false_2 by done.
  set (w1 := set_files _ w). exists w1. split; [done|].
  assert (DataManager.load_settings w1
          = (Returns (Json.update DataManager.default_settings (Json.set k v s)),
             w1)) as Hload1.
  { apply (load_settings_dict w1 (json_dumps (JObj (Json.set k v s))));
      [|done]. unfold w1. simpl. apply lookup_insert_eq. }
  assert (∀ key, Json.get key (Json.update DataManager.default_settings
                                 (Json.set k v s))
                 = Json.get key (Json.set k v s)) as Hget.
  { intros key. rewrite get_update by (by apply keys_set_NoDup).
    destruct (Json.get key (Json.set k v s)) eqn:E; [done|].
    apply get_None_keys in E. apply get_None_keys. intros Hin. apply E.
    rewrite keys_set. case_bool_decide; [by apply Hkeys|].
    apply elem_of_app. left. by apply Hkeys. }
  split.
  - intros fallback. unfold DataManager.get_setting, mbind, M_bind.
    rewrite Hload1. simpl. by rewrite Hget, get_set_eq.
  - intros k' fallback Hne. unfold DataManager.get_setting, mbind, M_bind.
    rewrite Hload1, Hload. simpl. by rewrite Hget, get_set_ne.
Qed.

End Settings.

Section SettingsExamples.
#[local] Existing Instance RefLib.lib.

Lemma load_settings_defaults_witness :
  ∃ v, Json.get "check_interval"
         (Json.update DataManager.default_settings
            [ ("theme", JStr "dark"); ("font_size", JInt 12) ]) = Some v
       ∧ ∀ fallback,
           (DataManager.get_setting "check_interval" fallback settings_world).1
           = Returns v.
Proof.
  apply (proj2 (proj2 (load_settings_defaults settings_world))).
  - vm_compute. reflexivity.
  - apply (bool_decide_unpack _). vm_compute. exact I.
Defined.

Lemma load_settings_override_witness :
  ∃ s, DataManager.load_settings settings_world = (Returns s, settings_world)
       ∧ Json.get "theme" s
         = match Json.get "theme"
                   [ ("theme", JStr "dark"); ("font_size", JInt 12) ] with
           | Some v => Some v
           | None => Json.get "theme" DataManager.default_settings
           end.
Proof.
  apply (load_settings_override settings_world
           (RefLib.dumps (JObj [ ("theme", JStr "dark"); ("font_size", JInt 12) ]))).
  - vm_compute. reflexivity.
  - vm_compute. reflexivity.
  - apply (bool_decide_unpack _). vm_compute. exact I.
Defined.

Lemma set_then_get_setting_witness :
  ∃ w1,
    DataManager.set_setting "theme" (JStr "light") settings_world
      = (Returns true, w1)
    ∧ (∀ fallback,
         (DataManager.get_setting "theme" fallback w1).1 = Returns (JStr "light"))
    ∧ ∀ k' fallback,
        k' ≠ "theme" →
        (DataManager.get_setting k' fallback w1).1
        = (DataManager.get_setting k' fallback settings_world).1.
Proof.
  apply (set_then_get_setting settings_world
           (Json.update DataManager.default_settings
              [ ("theme", JStr "dark"); ("font_size", JInt 12) ])).
  - vm_compute. reflexivity.
  - vm_compute. set_solver.
  - vm_compute. reflexivity.
Defined.

End SettingsExamples.

(** ** Failing domains *)

Section FailingDomains.
Context `{PyLib}.
Import DomainManager.

(** [update_domain_status] on a URL the store does not hold returns
    [False], creates no entity and writes nothing. *)
Theorem update_domain_status_absent (self : t) (u : string) (is_active : bool)
    (error_msg : option string) (w : World) :
  lookup_url self u = None →
  update_domain_status self u is_active error_msg w = ((false, self), tick w)
  ∧ files (tick w) = files w.
Proof.
  intros Hf. unfold update_domain_status, mbind, M_bind.
  by rewrite find_domain_eq, Hf.
Qed.

Lemma lookup_url_insert (self : t) (u : string) (i : nat) (d d' : DomainInfo.t) :
  lookup_url self u = Some (i, d) → DomainInfo.url d' = DomainInfo.url d →
  lookup_url (set_domains (<[i := d']> (domains self)) self) u = Some (i, d').
Proof.
  intros Hf Hu. unfold lookup_url in *. simpl.
  apply list_find_Some in Hf as (Hi & Hd & Hbefore).
  apply list_find_Some. split; [|split].
  - apply list_lookup_insert_eq. by eapply lookup_lt_Some.
  - congruence.
  - intros j y Hj Hlt. apply (Hbefore j y); [|done].
    rewrite list_lookup_insert_ne in Hj by lia. done.
Qed.

Lemma fail_times_spec (n : nat) (self : t) (u : string)
    (error_msg : option string) (w : World) (i : nat) (d : DomainInfo.t) :
  lookup_url self u = Some (i, d) →
  ∃ d',
    lookup_url (fail_times n self u error_msg w).1 u = Some (i, d')
    ∧ DomainInfo.error_count d' = (DomainInfo.error_count d + Z.of_nat n)%Z
    ∧ DomainInfo.url d' = DomainInfo.url d
    ∧ length (domains (fail_times n self u error_msg w).1) = length (domains self).
Proof.
  revert self w d. induction n as [|n IH]; intros self w d Hf.
  - exists d. simpl. split; [done|]. split; [lia | done].
  - simpl. unfold mbind, M_bind.
    destruct (update_domain_status_eq self u false error_msg w i d Hf)
      as [w' ->].
    set (d1 := (DomainInfo.update_check_result d false error_msg (tick w)).1).
    assert (DomainInfo.url d1 = DomainInfo.url d) as Hu1 by done.
    assert (DomainInfo.error_count d1 = (DomainInfo.error_count d + 1)%Z)
      as He1 by done.
    destruct (IH _ w' d1 (lookup_url_insert self u i d d1 Hf Hu1))
      as (d' & Hf' & He' & Hu' & Hlen).
    exists d'. split; [done|]. split; [lia|]. split; [congruence|].
    rewrite Hlen. simpl. apply length_insert.
Qed.

(** A URL that fails [max_error_count] checks in a row, or more, is gone
    after the next [cleanup_invalid_domains]: its entity is removed, its
    URL is reported, and when the URLs of the store are pairwise distinct
    it is no longer found. *)
Theorem failing_domain_removed (n : nat) (self : t) (u : string)
    (error_msg : option string) (max_error_count : Z) (w w' : World) (i : nat)
    (d : DomainInfo.t) :
  lookup_url self u = Some (i, d) →
  (0 ≤ DomainInfo.error_count d)%Z → (max_error_count ≤ Z.of_nat n)%Z →
  let self1 := (fail_times n self u error_msg w).1 in
  let cleaned := (cleanup_invalid_domains self1 max_error_count w').1 in
  DomainInfo._normalize_url u ∈ cleaned.1
  ∧ (∀ d', lookup_url self1 u = Some (i, d') → d' ∉ domains cleaned.2)
  ∧ (NoDup (map DomainInfo.url (domains self1)) → lookup_url cleaned.2 u = None).
Proof.
  intros Hf Hec Hn self1 cleaned.
  destruct (fail_times_spec n self u error_msg w i d Hf)
    as (d' & Hf' & He' & Hu' & _).
  fold self1 in Hf'.
  subst cleaned. rewrite cleanup_invalid_domains_fst. simpl.
  apply lookup_url_Some in Hf' as Hd'. destruct Hd' as (Hi & Hurl & _).
  assert (d' ∈ domains self1) as Hin by (by eapply list_elem_of_lookup_2).
  split; [|split].
  - rewrite <- Hurl.
    change (map DomainInfo.url) with (fmap (M:=list) DomainInfo.url).
    apply list_elem_of_fmap_2. apply list_elem_of_filter. split; [lia | done].
  - intros d'' Hf''. rewrite Hf' in Hf''. injection Hf'' as <-.
    rewrite list_elem_of_filter. intros [Hlt _]. lia.
  - intros Hnd. unfold lookup_url. apply list_find_None, Forall_forall.
    intros y Hy Hyu. simpl in Hy. apply list_elem_of_filter in Hy as [Hlt Hy].
    assert (y = d') as ->; [|lia].
    apply list_elem_of_lookup in Hy as [j Hj].
    assert (j = i) as ->; [|congruence].
    eapply (NoDup_lookup _ j i); [exact Hnd | |].
    + change (map DomainInfo.url) with (fmap (M:=list) DomainInfo.url).
      rewrite list_lookup_fmap, Hj. simpl. reflexivity.
    + change (map DomainInfo.url) with (fmap (M:=list) DomainInfo.url).
      rewrite list_lookup_fmap, Hi. simpl. congruence.
Qed.

End FailingDomains.

Section FailingDomainsExamples.
#[local] Existing Instance RefLib.lib.
Import DomainManager.

Lemma update_domain_status_absent_witness :
  update_domain_status two_domains "c.example" true None example_world
  = ((false, two_domains), tick example_world)
  ∧ files (tick example_world) = files example_world.
Proof.
  apply (update_domain_status_absent two_domains "c.example" true None
           example_world).
  vm_compute. reflexivity.
Defined.

Lemma failing_domain_removed_witness :
  let self1 := (fail_times 5 two_domains "a.example" None example_world).1 in
  let cleaned := (cleanup_invalid_domains self1 5 example_world).1 in
  DomainInfo._normalize_url "a.example" ∈ cleaned.1
  ∧ (∀ d', lookup_url self1 "a.example" = Some (0, d') → d' ∉ domains cleaned.2)
  ∧ (NoDup (map DomainInfo.url (domains self1)) →
     lookup_url cleaned.2 "a.example" = None).
Proof.
  apply (failing_domain_removed 5 two_domains "a.example" None 5 example_world
           example_world 0 (entity "https://a.example" "active" 3 0)).
  - vm_compute. reflexivity.
  - vm_compute. discriminate.
  - vm_compute. discriminate.
Defined.

(** Five failed checks, then the cleanup with its default threshold *)
Example five_failures_then_cleanup :
  (cleanup_invalid_domains
     (fail_times 5 two_domains "a.example" None example_world).1 5
     example_world).1.1
  = [ "https://a.example" ].
Proof. vm_compute. reflexivity. Qed.

End FailingDomainsExamples.

(** ** Falling back to the default domains *)

Section Fallback.
Context `{PyLib}.
Import DomainManager.

Lemma same_disk_refl (w : World) : same_disk w w.
Proof. by split. Qed.

Lemma same_disk_trans (w1 w2 w3 : World) :
  same_disk w1 w2 → same_disk w2 w3 → same_disk w1 w3.
Proof. intros [? ?] [? ?]. split; congruence. Qed.

Lemma same_disk_tick (w : World) : same_disk w (tick w).
Proof. by split. Qed.

Lemma init_same_disk (u : string) (a l : option string) (s : string)
    (c e : Z) (w : World) :
  same_disk w (DomainInfo.init u a l s c e w).2.
Proof.
  unfold DomainInfo.init, mbind, M_bind, mret, M_ret, now_isoformat.
  destruct a as [a|]; [destruct (Py.falsy a)|]; by split.
Qed.

Lemma from_dict_same_disk (data : json) (w : World) :
  same_disk w (DomainInfo.from_dict data w).2.
Proof.
  unfold DomainInfo.from_dict.
  destruct data as [| | | | |fields]; try apply same_disk_refl.
  destruct (default (JStr EmptyString) (Json.get "url" fields))
    as [|b|n|u|l|l]; try (destruct (Json.truthy _); apply same_disk_refl).
  destruct (DomainInfo.added_time_arg _) as [a|]; [|apply same_disk_refl].
  destruct (DomainInfo.opt_str_arg _) as [l|]; [|apply same_disk_refl].
  destruct (DomainInfo.str_arg _ _) as [s|]; [|apply same_disk_refl].
  destruct (DomainInfo.int_arg (Json.get "check_count" fields) 0) as [c|];
    [|apply same_disk_refl].
  destruct (DomainInfo.int_arg (Json.get "error_count" fields) 0) as [e|];
    [|apply same_disk_refl].
  unfold mbind, M_bind, mret, M_ret.
  pose proof (init_same_disk u a l s c e w) as Hi.
  by destruct (DomainInfo.init u a l s c e w).
Qed.

Lemma from_dicts_same_disk (items : list json) (w : World) :
  same_disk w (from_dicts items w).2.
Proof.
  revert w. induction items as [|item rest IH]; intros w;
    [apply same_disk_refl|].
  cbn [from_dicts]. unfold mbind, M_bind.
  pose proof (from_dict_same_disk item w) as H1.
  destruct (DomainInfo.from_dict item w) as [[d| |] w1]; simpl in H1; try done.
  pose proof (IH w1) as H2.
  destruct (from_dicts rest w1) as [[ds| |] w2]; simpl in *;
    by eapply same_disk_trans.
Qed.

Lemma initialize_default_domains_saved (self : t) (w : World) :
  ¬ save_fails w →
  ∃ defaults w',
    _initialize_default_domains self w
    = (set_domains (domains self ++ defaults) self, w')
    ∧ map DomainInfo.url defaults = Config.DEFAULT_DOMAINS
    ∧ files w' !! Config.DOMAINS_FILE
      = Some (Utf8 (json_dumps
           (JArr (map DomainInfo.to_dict (domains self ++ defaults))))).
Proof.
  intros Hs. unfold _initialize_default_domains.
  cbn. unfold mbind, M_bind, mret, M_ret, now_isoformat. cbn.
  unfold set_domains. cbn. rewrite <- app_assoc. cbn.
  unfold save_domains. rewrite save_domains_eq.
  rewrite bool_decide_eq_false_2 by done.
  eexists _, _. split; [reflexivity|]. split; [reflexivity|].
  simpl. apply lookup_insert_eq.
Qed.

(** When [load_domains] finds no data, or a record of the file makes
    [from_dict] raise, it appends the default domains to the store and
    saves: the domains file is overwritten with the store and the
    defaults, and what it held is lost. *)
Theorem load_domains_fallback_overwrites (self : t) (w : World) :
  no_domains_data w
  ∨ (∃ items, (DataManager.load_domains w).1 = JArr items
              ∧ (from_dicts items w).1 = Raises) →
  ¬ save_fails w →
  ∃ flag defaults w',
    load_domains self w
    = (Returns (flag, set_domains (domains self ++ defaults) self), w')
    ∧ map DomainInfo.url defaults = Config.DEFAULT_DOMAINS
    ∧ files w' !! Config.DOMAINS_FILE
      = Some (Utf8 (json_dumps
           (JArr (map DomainInfo.to_dict (domains self ++ defaults))))).
Proof.
  intros [Hnone | (items & Hload & Hraise)] Hs.
  - unfold load_domains, mbind, M_bind.
    rewrite (data_load_domains_empty w Hnone). simpl.
    destruct (initialize_default_domains_saved self w Hs)
      as (defaults & w' & -> & Hu & Hfile).
    by eexists _, _, _.
  - apply data_load_domains_eq in Hload.
    unfold load_domains, mbind, M_bind. rewrite Hload.
    destruct items as [|item rest]; [done|].
    change (Json.truthy (JArr (item :: rest))) with true. cbn iota.
    cbn [Json.iter].
    pose proof (from_dicts_same_disk (item :: rest) w) as [Hf Hr].
    destruct (from_dicts (item :: rest) w) as [r w1]. simpl in Hraise, Hf, Hr.
    subst r.
    assert (¬ save_fails w1) as Hs1 by (unfold save_fails in *; by rewrite Hr).
    destruct (initialize_default_domains_saved self w1 Hs1)
      as (defaults & w' & -> & Hu & Hfile).
    by eexists _, _, _.
Qed.

End Fallback.

Section FallbackExamples.
#[local] Existing Instance RefLib.lib.
Import DomainManager.

Lemma load_domains_fallback_overwrites_witness :
  ∃ flag defaults w',
    load_domains empty_store bad_record_world
    = (Returns (flag, set_domains (domains empty_store ++ defaults) empty_store),
       w')
    ∧ map DomainInfo.url defaults = Config.DEFAULT_DOMAINS
    ∧ files w' !! Config.DOMAINS_FILE
      = Some (Utf8 (json_dumps
           (JArr (map DomainInfo.to_dict (domains empty_store ++ defaults))))).
Proof.
  apply (load_domains_fallback_overwrites empty_store bad_record_world).
  - right.
    exists [ DomainInfo.to_dict (entity "https://a.example" "active" 3 0);
             JInt 5 ].
    split; vm_compute; reflexivity.
  - vm_compute. set_solver.
Defined.

(** One record that is not a dictionary: the good record before it is not
    loaded either. *)
Example load_bad_record :
  (load_domains empty_store bad_record_world).1
  = Returns
      (false,
       {| domains := [ fresh "https://www.k8w4w.com" "2024-01-01T00:00:00";
                       fresh "https://www.z6r0j.com" "2024-01-01T00:00:01" ];
          max_domains := 10 |}).
Proof. vm_compute. reflexivity. Qed.

End FallbackExamples.

(** ** What [validate_domain] accepts *)

Section Validation.
Context `{PyLib}.
Import DomainManager.

Lemma label_matches_chars (l : list ascii) :
  label_matches l = true → Forall (λ c, is_label_char c = true) l.
Proof.
  destruct l as [|c rest]; [done|]. simpl.
  intros [Hc Hrest]%andb_true_iff.
  constructor; [unfold is_label_char; by rewrite Hc|].
  destruct rest as [|d rest]; [constructor|].
  apply andb_true_iff in Hrest as [[_ Hmid]%andb_true_iff Hlast].
  rewrite (app_removelast_last c (l:=d :: rest)) by done.
  apply Forall_app. split.
  - apply Forall_forall. intros x Hx. rewrite forallb_forall in Hmid.
    apply Hmid. by apply list_elem_of_In.
  - constructor; [|constructor]. unfold is_label_char. by rewrite Hlast.
Qed.

Lemma split_dot_chars (P : ascii → Prop) (s : list ascii) :
  Forall (Forall P) (split_dot s) → Forall (λ c, P c ∨ c = "."%char) s.
Proof.
  induction s as [|c r IH]; [constructor|]. simpl.
  destruct (Ascii.eqb_spec c "."%char) as [->|Hc].
  - intros [_ Hr]%Forall_cons. constructor; [by right | by apply IH].
  - destruct (split_dot r) as [|l ls].
    + intros [[Hc' _]%Forall_cons _]%Forall_cons.
      constructor; [by left|]. apply IH. constructor.
    + intros [[Hc' Hl]%Forall_cons Hls]%Forall_cons.
      constructor; [by left|]. apply IH. by constructor.
Qed.

Lemma all_labels_chars (s : list ascii) :
  all_labels s = true →
  Forall (λ c, is_label_char c = true ∨ c = "."%char) s.
Proof.
  unfold all_labels. intros Hall. apply split_dot_chars.
  apply Forall_forall. intros l Hl. apply label_matches_chars.
  rewrite forallb_forall in Hall. apply Hall. by apply list_elem_of_In.
Qed.

Lemma domain_pattern_match_chars (netloc : string) :
  domain_pattern_match netloc = true →
  Forall host_char (list_ascii_of_string netloc).
Proof.
  unfold domain_pattern_match.
  intros [Hall | Hnl]%orb_true_iff.
  - eapply Forall_impl; [by apply all_labels_chars|].
    intros c [?|?]; [by left | right; by left].
  - destruct (list_ascii_of_string netloc) as [|c r] eqn:Hs; [done|].
    apply andb_true_iff in Hnl as [Hlast Hall].
    rewrite (app_removelast_last c (l:=c :: r)) by done.
    apply Forall_app. split.
    + eapply Forall_impl; [by apply all_labels_chars|].
      intros x [?|?]; [by left | right; by left].
    + constructor; [|constructor]. right. right.
      by apply Ascii.eqb_eq in Hlast.
Qed.

(** [validate_domain] accepts a text exactly when it is not empty, its
    normal form has 4 to 253 characters, [urlparse] gives it the scheme
    [http] or [https] and a host that is not empty, matches the pattern
    and holds a dot.  Such a host is made of letters, digits, hyphens and
    dots (and at most a final newline): no port, no user name, no
    underscore gets through. *)
Theorem validate_domain_accepts (self : t) (u : string) (w : World) :
  (valid self u w = true ↔
   u ≠ EmptyString
   ∧ Config.min_length ≤ Py.py_len (DomainInfo._normalize_url u)
     ≤ Config.max_length
   ∧ ∃ scheme netloc,
       urlparse (DomainInfo._normalize_url u) = Some (scheme, netloc)
       ∧ (scheme = "http" ∨ scheme = "https")
       ∧ netloc ≠ EmptyString
       ∧ domain_pattern_match netloc = true
       ∧ Py.contains_char "." netloc = true)
  ∧ (valid self u w = true →
     ∃ scheme netloc,
       urlparse (DomainInfo._normalize_url u) = Some (scheme, netloc)
       ∧ Forall host_char (list_ascii_of_string netloc)).
Proof.
  assert (valid self u w = true ↔
   u ≠ EmptyString
   ∧ Config.min_length ≤ Py.py_len (DomainInfo._normalize_url u)
     ≤ Config.max_length
   ∧ ∃ scheme netloc,
       urlparse (DomainInfo._normalize_url u) = Some (scheme, netloc)
       ∧ (scheme = "http" ∨ scheme = "https")
       ∧ netloc ≠ EmptyString
       ∧ domain_pattern_match netloc = true
       ∧ Py.contains_char "." netloc = true) as Hiff.
  { unfold valid, validate_domain.
    destruct u as [|c u']; [simpl; split; [done | by intros [? _]]|].
    set (u := String c u'). change (Py.falsy u) with false. cbn iota.
    unfold mbind, M_bind. rewrite new_eq. cbn [DomainInfo.url].
    set (n := DomainInfo._normalize_url u).
    destruct (Nat.ltb_spec (Py.py_len n) Config.min_length) as [Hmin|Hmin];
      [simpl; split; [done | intros (_ & [? _] & _); lia]|].
    destruct (Nat.ltb_spec Config.max_length (Py.py_len n)) as [Hmax|Hmax];
      [simpl; split; [done | intros (_ & [_ ?] & _); lia]|].
    destruct (urlparse n) as [[scheme netloc]|];
      [|simpl; split; [done | by intros (_ & _ & ? & ? & ? & _)]].
    case_bool_decide as Hscheme; simpl;
      [|split; [done|]; intros (_ & _ & s & nl & [= <- <-] & Hs & _);
        destruct Hscheme; unfold Config.allowed_schemes;
        destruct Hs as [-> | ->]; set_solver].
    destruct netloc as [|c1 nl'];
      [simpl; split; [done | by intros (_ & _ & s & nl & [= <- <-] & _ & ? & _)]|].
    cbn [Py.falsy negb]. cbn iota.
    destruct (domain_pattern_match (String c1 nl')) eqn:Hpat; simpl negb;
      cbn iota;
      [|split; [done|]; intros (_ & _ & s & nl & [= <- <-] & _ & _ & Hp & _);
        congruence].
    destruct (Py.contains_char "." (String c1 nl')) eqn:Hdot;
      rewrite ?andb_true_r, ?andb_false_r; simpl negb; cbn iota;
      [|split; [done|]; intros (_ & _ & s & nl & [= <- <-] & _ & _ & _ & Hd);
        congruence].
    split; [|done]. intros _. split; [done|]. split; [lia|].
    exists scheme, (String c1 nl'). split; [done|]. split.
    - unfold Config.allowed_schemes in Hscheme.
      apply elem_of_cons in Hscheme as [?|Hscheme]; [by left|].
      apply elem_of_cons in Hscheme as [?|Hscheme]; [by right|].
      by apply elem_of_nil in Hscheme.
    - done. }
  split; [exact Hiff|].
  intros Hv. apply Hiff in Hv as (_ & _ & scheme & netloc & Hp & _ & _ & Hm & _).
  exists scheme, netloc. split; [done|]. by apply domain_pattern_match_chars.
Qed.

End Validation.

Section ValidationExamples.
#[local] Existing Instance RefLib.lib.
Import DomainManager.

Lemma validate_domain_accepts_witness :
  ∃ scheme netloc,
    urlparse (DomainInfo._normalize_url "www.a-b.example/") = Some (scheme, netloc)
    ∧ Forall host_char (list_ascii_of_string netloc).
Proof.
  apply (proj2 (validate_domain_accepts two_domains "www.a-b.example/"
                  example_world)).
  vm_compute. reflexivity.
Defined.

(** A host with a port, a host without a dot and a host that starts with a
    hyphen are rejected. *)
Example validate_domain_rejects :
  valid two_domains "a.example:8080" example_world = false
  ∧ valid two_domains "localhost" example_world = false
  ∧ valid two_domains "-a.example" example_world = false.
Proof. vm_compute. done. Qed.

End ValidationExamples.

(** ** Redirects *)

Section RedirectProperties.
Context `{PyLib}.
Import NetworkChecker.

Lemma scan_chain_spec (u : string) (chain : list string) (seen : gset string)
    (acc : list string) (P : string → Prop) :
  (∀ x, x ∈ seen ↔ x ∈ acc) → NoDup acc → Forall (λ x, x ≠ u) acc →
  Forall P acc → (∀ r x, r ∈ chain → origin r = Some x → P x) →
  NoDup (scan_chain u chain seen acc).2
  ∧ Forall (λ x, x ≠ u) (scan_chain u chain seen acc).2
  ∧ Forall P (scan_chain u chain seen acc).2.
Proof.
  revert seen acc. induction chain as [|r rest IH]; intros seen acc Hseen Hnd Hu HP Hchain.
  - done.
  - simpl. destruct (origin r) as [domain|] eqn:Hr; [|done].
    assert (∀ r' x, r' ∈ rest → origin r' = Some x → P x) as Hrest
      by (intros r' x Hin; apply Hchain; by apply list_elem_of_further).
    case_bool_decide as Hnew; [|by apply IH].
    destruct Hnew as [Hnotin Hne]. apply IH; [| | | |done].
    + intros x. rewrite elem_of_union, elem_of_singleton, elem_of_app,
        list_elem_of_singleton, Hseen. tauto.
    + apply NoDup_app. split; [done|]. split; [|apply NoDup_singleton].
      intros x Hx ->%list_elem_of_singleton. apply Hnotin. by apply Hseen.
    + apply Forall_app. split; [done|]. by repeat constructor.
    + apply Forall_app. split; [done|]. constructor; [|constructor].
      eapply Hchain; [apply list_elem_of_here | done].
Qed.

(** [find_redirected_domains] never lists a domain twice, and lists only
    [scheme://host] of URLs the request went through; it returns the empty
    list when the request failed.  The domains taken from the redirect
    chain all differ from the URL asked for; the one of the final URL,
    which comes last, may be that very URL. *)
Theorem find_redirected_domains_spec (self : t) (u : string)
    (outcome : get_outcome) (w : World) :
  let found := (find_redirected_domains self u outcome w).1 in
  NoDup found
  ∧ Forall (λ x, ∃ r, r ∈ visited outcome ∧ origin r = Some x) found
  ∧ (visited outcome = [] → found = [])
  ∧ ∃ front, Forall (λ x, x ≠ u) front
             ∧ (found = front ∨ ∃ final_domain, found = (front ++ [final_domain])%list).
Proof.
  unfold find_redirected_domains, check_domain_detailed, mbind, M_bind,
    mret, M_ret, time_time.
  destruct outcome as [code rurl history ct srv| | | |]; cbn;
    try (split; [constructor|]; split; [constructor|]; split; [done|];
         exists []; split; [constructor | by left]).
  set (chain := match history with [] => [] | _ => (history ++ [rurl])%list end).
  assert (∀ r, r ∈ chain → r ∈ (history ++ [rurl])%list) as Hchain.
  { unfold chain. destruct history; [intros r Hr; by apply elem_of_nil in Hr | done]. }
  destruct (scan_chain_spec u chain ∅ []
              (λ x, ∃ r, r ∈ (history ++ [rurl])%list ∧ origin r = Some x))
    as (Hnd & Hne & Hfrom).
  { intros x. rewrite elem_of_empty. split; [done | apply not_elem_of_nil]. }
  { constructor. }
  { constructor. }
  { constructor. }
  { intros r x Hin Hr. exists r. split; [by apply Hchain | done]. }
  destruct (scan_chain u chain ∅ []) as [raised l]. simpl in Hnd, Hne, Hfrom.
  assert (NoDup l
          ∧ Forall (λ x, ∃ r, r ∈ (history ++ [rurl])%list ∧ origin r = Some x) l
          ∧ (∃ front, Forall (λ x, x ≠ u) front
                      ∧ (l = front ∨ ∃ fd, l = (front ++ [fd])%list))) as Hl.
  { split; [done|]. split; [done|]. exists l. split; [done | by left]. }
  destruct raised; simpl.
  { destruct Hl as (? & ? & ?). split; [done|]. split; [done|].
    split; [|done]. intros Hv. by destruct history. }
  destruct (negb (Py.falsy rurl) && negb (String.eqb rurl u)); simpl;
    [|destruct Hl as (? & ? & ?); split; [done|]; split; [done|];
      split; [|done]; intros Hv; by destruct history].
  destruct (origin rurl) as [fd|] eqn:Hfd; simpl;
    [|destruct Hl as (? & ? & ?); split; [done|]; split; [done|];
      split; [|done]; intros Hv; by destruct history].
  case_bool_decide as Hin; simpl;
    [destruct Hl as (? & ? & ?); split; [done|]; split; [done|];
     split; [|done]; intros Hv; by destruct history|].
  split; [|split; [|split]].
  - apply NoDup_app. split; [done|]. split; [|apply NoDup_singleton].
    intros x Hx ->%list_elem_of_singleton. done.
  - apply Forall_app. split; [done|]. constructor; [|constructor].
    exists rurl. split; [|done]. apply elem_of_app. right.
    apply list_elem_of_here.
  - intros Hv. by destruct history.
  - exists l. split; [done|]. right. by exists fd.
Qed.

End RedirectProperties.

Section RedirectExamples.
#[local] Existing Instance RefLib.lib.
Import NetworkChecker.

Lemma find_redirected_domains_spec_witness :
  let found :=
    (find_redirected_domains init "https://a.example" same_host_redirect
       example_world).1 in
  NoDup found
  ∧ Forall (λ x, ∃ r, r ∈ visited same_host_redirect ∧ origin r = Some x) found
  ∧ (visited same_host_redirect = [] → found = [])
  ∧ ∃ front, Forall (λ x, x ≠ "https://a.example") front
             ∧ (found = front ∨ ∃ final_domain, found = (front ++ [final_domain])%list).
Proof.
  apply (find_redirected_domains_spec init "https://a.example"
           same_host_redirect example_world).
Defined.

(** A redirect to another page of the same host: the URL asked for is
    itself reported as a redirected domain. *)
Example find_redirected_same_host :
  (find_redirected_domains init "https://a.example" same_host_redirect
     example_world).1
  = [ "https://a.example" ].
Proof. vm_compute. reflexivity. Qed.

End RedirectExamples.

Section DataLayerUpdate.
Context `{PyLib}.

(** [DataManager.update_domain_status] on a domains file that holds a
    list rewrites the first record that has the URL, the one with only
    dictionaries without the URL before it, and no other: its [status],
    [response_time] and [last_check] are set, its other keys keep their
    values, every other item of the list is as before, and the list is
    saved.  When every item is a dictionary and none has the URL it
    returns [False] and writes nothing.  An item that is not a dictionary,
    met before any record with the URL, makes it raise. *)
Theorem data_update_domain_status_spec (u st : string) (response_time : json)
    (w : World) (items : list json) :
  (DataManager.load_domains w).1 = JArr items →
  (Forall (other_record u) items →
   DataManager.update_domain_status u st response_time w = (Returns false, w))
  ∧ (∀ i fields,
       items !! i = Some (JObj fields) → record_has_url u (JObj fields) →
       Forall (other_record u) (take i items) → ¬ save_fails w →
       ∃ fields' w',
         DataManager.update_domain_status u st response_time w
         = (Returns true, w')
         ∧ files w' !! Config.DOMAINS_FILE
           = Some (Utf8 (json_dumps (JArr (<[i := JObj fields']> items))))
         ∧ Json.get "status" fields' = Some (JStr st)
         ∧ Json.get "response_time" fields' = Some response_time
         ∧ Json.get "last_check" fields'
           = Some (JStr (iso_clock w (iso_ticks w)))
         ∧ ∀ k, k ≠ "status" → k ≠ "response_time" → k ≠ "last_check" →
                Json.get k fields' = Json.get k fields)
  ∧ (∀ i item,
       items !! i = Some item → ¬ is_record item →
       Forall (other_record u) (take i items) →
       DataManager.update_domain_status u st response_time w = (Raises, w)).
Proof.
  intros Hload. apply data_load_domains_eq in Hload.
  unfold DataManager.update_domain_status, mbind, M_bind. rewrite Hload.
  split; [|split].
  - intros Hnone. by rewrite (find_url_absent u items Hnone).
  - intros i fields Hi Hu Hbefore Hs.
    rewrite (find_url_first u items i (JObj fields) Hi Hu Hbefore).
    rewrite Hi. unfold now_isoformat, mret, M_ret. cbn beta iota.
    rewrite data_save_domains_eq, bool_decide_eq_false_2 by done.
    eexists _, _. split; [reflexivity|].
    split; [simpl; apply lookup_insert_eq|].
    split; [by rewrite !get_set_ne, get_set_eq by done|].
    split; [by rewrite get_set_ne, get_set_eq by done|].
    split; [by rewrite get_set_eq|].
    intros k H1 H2 H3. by rewrite !get_set_ne by done.
  - intros i item Hi Hrec Hbefore.
    by rewrite (find_url_raises u items i item Hi Hrec Hbefore).
Qed.

End DataLayerUpdate.

Section DataLayerUpdateExamples.
#[local] Existing Instance RefLib.lib.

Lemma data_update_domain_status_spec_witness :
  let w := text_world (RefLib.dumps (JArr later_records)) in
  let fields := [("url", JStr "https://a.example"); ("status", JStr "active")] in
  ∃ fields' w',
    DataManager.update_domain_status "https://a.example" "inactive" (JInt 3) w
    = (Returns true, w')
    ∧ files w' !! Config.DOMAINS_FILE
      = Some (Utf8 (json_dumps (JArr (<[1 := JObj fields']> later_records))))
    ∧ Json.get "status" fields' = Some (JStr "inactive")
    ∧ Json.get "response_time" fields' = Some (JInt 3)
    ∧ Json.get "last_check" fields' = Some (JStr (iso_clock w (iso_ticks w)))
    ∧ ∀ k, k ≠ "status" → k ≠ "response_time" → k ≠ "last_check" →
           Json.get k fields' = Json.get k fields.
Proof.
  intros w fields.
  apply (proj1 (proj2
           (data_update_domain_status_spec "https://a.example" "inactive"
              (JInt 3) w later_records later_records_load)) 1 fields).
  - reflexivity.
  - reflexivity.
  - repeat constructor. simpl. discriminate.
  - vm_compute. set_solver.
Defined.

End DataLayerUpdateExamples.
